(** * networking-ovn: the OVN ML2 mechanism driver

    A shallow embedding of [networking_ovn/ml2/mech_driver.py]
    (class [OVNMechanismDriver]) and the properties of its lifecycle
    callbacks, DHCP option synthesis, address-set reconciliation, binding
    profile validation and port binding.

    Python dictionaries with a fixed set of keys (ports, subnets, segments)
    are records; dictionaries used as maps are [gmap]s; Python sets are
    [gset]s, iterated through [elements].  Calls that leave the driver
    (the neutron plugin, the OVN northbound and southbound clients, helper
    modules of the package that are not part of this file) are variables of
    the enclosing section. *)

From Stdlib Require Import ZArith String Ascii List.
From stdpp Require Import gmap strings list fin_maps pretty.

Open Scope string_scope.
Open Scope Z_scope.
Open Scope list_scope.

Set Default Proof Using "Type".

(** ** Values, exceptions and events *)

(** A Python value as it occurs in a binding profile or in vif details. *)
Inductive pyval :=
| VStr (s : string)
| VInt (z : Z)
| VBool (b : bool)
| VNone.

#[global] Instance pyval_eq_dec : EqDecision pyval.
Proof. solve_decision. Defined.

(** The types a binding-profile parameter may be required to have
    ([six.string_types], [six.integer_types]). *)
Inductive ptype := string_types | integer_types.

(** [isinstance(value, ptype)]; [bool] is a subclass of [int]. *)
Definition isinstance (v : pyval) (t : ptype) : bool :=
  match t, v with
  | string_types, VStr _ => true
  | integer_types, VInt _ => true
  | integer_types, VBool _ => true
  | _, _ => false
  end.

(** The messages the driver passes to [n_exc.InvalidInput]. *)
Inductive error_message :=
| MsgNetworkTypeNotSupported (network_type : string)
| MsgAllRequired (param_keys : list string)
| MsgTooManyParameters
| MsgInvalidType (key : string) (value : pyval)
| MsgTagRange (tag : Z).

(** The exceptions the callbacks meet: those the driver names, and any
    other built-in exception by the name of its class. *)
Inductive exn :=
| InvalidInput (msg : error_message)
| PortNotFound (port_id : string)
| DBReferenceError
| RuntimeError
| OtherError (name : string).

#[global] Instance error_message_eq_dec : EqDecision error_message.
Proof. solve_decision. Defined.

#[global] Instance exn_eq_dec : EqDecision exn.
Proof. solve_decision. Defined.

Inductive log_level := DEBUG | INFO | WARNING.

(** ** Neutron resources *)

Record fixed_ip := {
  subnet_id : string;
  ip_address : string
}.

Record segment := {
  seg_id : string;
  network_type : string;
  segmentation_id : option Z;
  physical_network : option string
}.

Record port := {
  port_id : string;
  port_name : string;
  network_id : string;
  mac_address : string;
  status : string;
  vnic_type : option string;
  fixed_ips : list fixed_ip;
  security_groups : list string;
  admin_state_up : bool;
  device_owner : string;
  binding_profile : option (gmap string pyval);
  vif_details : gmap string pyval
}.

Record host_route := {
  destination : string;
  nexthop : string
}.

Record subnet := {
  subnet_ident : string;
  cidr : string;
  ip_version : Z;
  enable_dhcp : bool;
  gateway_ip : option string;
  dns_nameservers : list string;
  host_routes : list host_route;
  ipv6_address_mode : option string
}.

Record network := {
  net_id : string;
  net_name : string;
  mtu : Z
}.

(** Constants of [neutron_lib] and [neutron.plugins.common.constants]. *)
Definition TYPE_LOCAL := "local".
Definition TYPE_FLAT := "flat".
Definition TYPE_GENEVE := "geneve".
Definition TYPE_VLAN := "vlan".
Definition VNIC_NORMAL := "normal".
Definition PORT_STATUS_ACTIVE := "ACTIVE".
Definition PORT_STATUS_DOWN := "DOWN".
Definition VIF_TYPE_OVS := "ovs".
Definition VIF_TYPE_VHOST_USER := "vhostuser".
Definition CAP_PORT_FILTER := "port_filter".
Definition VHOST_USER_MODE := "vhostuser_mode".
Definition VHOST_USER_MODE_CLIENT := "client".
Definition VHOST_USER_OVS_PLUG := "vhostuser_ovs_plug".
Definition VHOST_USER_SOCKET := "vhostuser_socket".
Definition IP_VERSION_4 := 4.
Definition IP_VERSION_6 := 6.

(** Python truthiness of an optional string: [None] and [''] are false. *)
Definition truthy (s : option string) : bool :=
  match s with
  | None => false
  | Some s => negb (String.eqb s "")
  end.

(** [x in l] for a list of strings. *)
Definition str_in (x : string) (l : list string) : bool :=
  existsb (String.eqb x) l.

(** ** Network types *)

Definition _is_network_type_supported (network_type : string) : bool :=
  str_in network_type [TYPE_LOCAL; TYPE_FLAT; TYPE_GENEVE; TYPE_VLAN].

(** ** Commands of the OVN northbound client

    The driver never runs these itself: it queues them on a transaction
    ([txn.add]) that the client commits when the [with] block ends. *)

Definition acl := gmap string pyval.

Record dhcp_options_row := {
  row_uuid : string;
  row_cidr : string;
  row_options : gmap string string;
  row_external_ids : gmap string string
}.

(** The [addrs_add] and [addrs_remove] arguments of [update_address_set]:
    a list on port creation and deletion, a set for unchanged groups. *)
Inductive addrs :=
| AList (l : list string)
| ASet (s : gset string).

Definition addrs_elems (a : option addrs) : gset string :=
  match a with
  | None => ∅
  | Some (AList l) => list_to_set l
  | Some (ASet s) => s
  end.

(** The arguments of [add_dhcp_options]. *)
Record dhcp_options_cmd := {
  cmd_subnet : string;
  cmd_port : option string;
  cmd_cidr : string;
  cmd_options : gmap string string;
  cmd_external_ids : gmap string string
}.

(** What a logical switch port's [dhcpv4_options]/[dhcpv6_options] column is
    set to: [[]], the result of a queued command, or [[uuid]]. *)
Inductive dhcp_ref :=
| NoDhcp
| DhcpOfCmd (c : dhcp_options_cmd)
| DhcpUuid (uuid : string).

Inductive nb_command :=
| AddDHCPOptionsCommand (args : dhcp_options_cmd)
| AddLSwitchPortCommand (lport_name lswitch_name : string)
    (addresses : list string) (external_ids : gmap string string)
    (parent_name tag : option pyval) (enabled : bool)
    (options : gmap string string) (type : string)
    (port_security : list string) (dhcpv4_options dhcpv6_options : dhcp_ref)
| SetLSwitchPortCommand (lport_name : string)
    (external_ids : gmap string string)
    (parent_name tag : option pyval) (options : gmap string string)
    (enabled : bool) (port_security : list string)
    (dhcpv4_options dhcpv6_options : dhcp_ref) (if_exists : bool)
    (columns : option (string * list string))
| AddACLCommand (a : acl)
| UpdateACLsCommand (networks : list string) (ports : list port)
    (acls_new : list (string * list acl)) (need_compare : bool)
| UpdateAddrSetCommand (name : string) (addrs_add addrs_remove : option addrs)
    (if_exists : option bool)
| DelLSwitchCommand (lswitch_name : string) (if_exists : bool).

(** ** The world the callbacks act on

    [DB] is the state of the neutron database, which the driver reaches
    only through the plugin; [events] records, oldest first, what the
    driver did to its collaborators. *)

Inductive event :=
| EvLog (level : log_level) (msg : string)
| EvNbTransaction (cmds : list nb_command)
| EvAddProvisioningComponent (port_id : string)
| EvUpdatePortStatus (port_id new_status : string)
| EvSetBinding (segment_id vif_type : string) (details : gmap string pyval).

Record world (DB : Type) := World {
  neutron : DB;
  events : list event
}.
Arguments World {DB}.
Arguments neutron {DB}.
Arguments events {DB}.

(** State and exceptions: a computation takes the world and returns the new
    world with either a raised exception or a value.  The world survives an
    exception, as in Python. *)
Definition M (DB A : Type) : Type := world DB -> world DB * (exn + A).

Definition ret {DB A} (a : A) : M DB A := fun w => (w, inr a).

Definition bind {DB A B} (c : M DB A) (k : A -> M DB B) : M DB B :=
  fun w => match c w with
           | (w', inl e) => (w', inl e)
           | (w', inr a) => k a w'
           end.

Definition raise {DB A} (e : exn) : M DB A := fun w => (w, inl e).

(** [try: c except (classes): handler] *)
Definition try_except {DB A} (c : M DB A) (catches : exn -> bool)
    (handler : exn -> M DB A) : M DB A :=
  fun w => match c w with
           | (w', inl e) => if catches e then handler e w' else (w', inl e)
           | r => r
           end.

Definition emit {DB} (ev : event) : M DB unit :=
  fun w => (World (neutron w) (events w ++ [ev]), inr tt).

(** A log line is recorded by its level and its format string. *)
Definition LOG {DB} (level : log_level) (msg : string) : M DB unit :=
  emit (EvLog level msg).

Declare Scope driver_scope.
Delimit Scope driver_scope with driver.
Notation "x <- c ;; k" := (bind c (fun x => k))
  (at level 100, c at next level, right associativity) : driver_scope.
Notation "c ;;; k" := (bind c (fun _ => k))
  (at level 100, right associativity) : driver_scope.

(** [with self._nb_ovn.transaction(check_error=True) as txn: ...] and
    [command.execute(check_error=True)]: when the block ends the queued
    commands are handed to the client, and the error of the commit, if
    any, is raised; [nb_commit] is what the commit raises. *)
Definition transaction {DB} (nb_commit : list nb_command -> option exn)
    (txn : list nb_command) : M DB unit :=
  bind (emit (EvNbTransaction txn))
       (fun _ => match nb_commit txn with
                 | Some e => raise e
                 | None => ret tt
                 end).

(** [for x in l: body x] *)
Fixpoint for_each {DB A} (l : list A) (body : A -> M DB unit) : M DB unit :=
  match l with
  | [] => ret tt
  | x :: l' => bind (body x) (fun _ => for_each l' body)
  end.

(** Which events a run appended. *)
Definition appended {DB} (w w' : world DB) (evs : list event) : Prop :=
  events w' = events w ++ evs.

Definition is_nb_write (ev : event) : bool :=
  match ev with EvNbTransaction _ => true | _ => false end.

Definition is_block_insert (ev : event) : bool :=
  match ev with EvAddProvisioningComponent _ => true | _ => false end.

Definition is_log (ev : event) : bool :=
  match ev with EvLog _ _ => true | _ => false end.

(** A computation is quiet when it leaves the neutron database alone and
    does nothing to its collaborators but write log lines. *)
Definition quiet {DB A} (c : M DB A) : Prop :=
  forall w, neutron (c w).1 = neutron w /\
            exists evs, appended w (c w).1 evs /\ forallb is_log evs = true.

(** ** Binding profiles *)

(** Modelled from the spec: [ovn_const.OVN_PORT_BINDING_PROFILE_PARAMS],
    which is declared in [networking_ovn/common/constants.py].  The spec
    names two mutually exclusive parameter sets, [{parent_name, tag}] for
    sub-interfaces and [{vtep-physical-switch, vtep-logical-switch}] for
    gateway ports, the tag being an integer and the names strings.  Each
    set is a dictionary from parameter key to required type, kept here in a
    fixed order with distinct keys. *)
Definition OVN_PORT_BINDING_PROFILE_PARAMS : list (list (string * option ptype)) :=
  [ [("parent_name", Some string_types); ("tag", Some integer_types)];
    [("vtep-physical-switch", Some string_types);
     ("vtep-logical-switch", Some string_types)] ].

(** The inner loop: copy every key of the parameter set that the profile
    has into [param_dict]; a [KeyError] is passed over. *)
Definition collect_params (profile : gmap string pyval)
    (param_keys : list string) (param_dict : gmap string pyval)
    : gmap string pyval :=
  foldl (fun d param_key =>
           match profile !! param_key with
           | Some v => <[param_key := v]> d
           | None => d
           end) param_dict param_keys.

(** The outer loop over the parameter sets.  It ends by exhausting the
    sets, by [break] or by an exception; [param_set] is the loop variable,
    which Python leaves bound to the last set visited. *)
Fixpoint select_param_set (profile : gmap string pyval)
    (params : list (list (string * option ptype)))
    (param_set : list (string * option ptype))
    (param_dict : gmap string pyval)
    : exn + (list (string * option ptype) * gmap string pyval) :=
  match params with
  | [] => inr (param_set, param_dict)
  | param_set :: params' =>
      let param_keys := param_set.*1 in
      let param_dict := collect_params profile param_keys param_dict in
      if bool_decide (size param_dict = 0%nat) then
        select_param_set profile params' param_set param_dict
      else if negb (bool_decide (size param_dict = length param_keys)) then
        inl (InvalidInput (MsgAllRequired param_keys))
      else if negb (bool_decide (size profile = length param_keys)) then
        inl (InvalidInput MsgTooManyParameters)
      else inr (param_set, param_dict)
  end.

(** The loop that checks each parameter's type. *)
Fixpoint check_param_types (items : list (string * option ptype))
    (param_dict : gmap string pyval) : exn + unit :=
  match items with
  | [] => inr tt
  | (_, None) :: items' => check_param_types items' param_dict
  | (param_key, Some param_type) :: items' =>
      match param_dict !! param_key with
      | None => inl (OtherError "KeyError")
      | Some param_value =>
          if negb (isinstance param_value param_type) then
            inl (InvalidInput (MsgInvalidType param_key param_value))
          else check_param_types items' param_dict
      end
  end.

Section LifecycleAdapter.
Context {DB : Type}.

(** [self._plugin.get_port(admin_context, id)]: a read of the neutron
    database that raises when the port is not there. *)
Variable plugin_get_port : DB -> pyval -> exn + port.

(** [provisioning_blocks.add_provisioning_component] and
    [self._plugin.update_port_status]: writes to the neutron database
    that may raise. *)
Variable db_add_provisioning_component : DB -> string -> DB * option exn.
Variable db_update_port_status : DB -> string -> string -> DB * option exn.

(** [self._sb_ovn.chassis_exists(host)]: a read of the southbound
    database. *)
Variable chassis_exists : string -> bool.

(** [int(s)] for a string; [None] stands for [ValueError]. *)
Variable int_of_str : string -> option Z.

(** [utils.ovn_name(id)]: the name of the logical switch of a network. *)
Variable ovn_name : string -> string.
(** What the commit of a transaction on the northbound database raises,
    if anything. *)
Variable nb_commit : list nb_command -> option exn.

Local Open Scope driver_scope.

Definition get_port (id : pyval) : M DB port :=
  fun w => (w, plugin_get_port (neutron w) id).

Definition add_provisioning_component (id : string) : M DB unit :=
  fun w =>
    let '(db, r) := db_add_provisioning_component (neutron w) id in
    (World db (events w ++ [EvAddProvisioningComponent id]),
     match r with Some e => inl e | None => inr tt end).

Definition update_port_status (id new_status : string) : M DB unit :=
  fun w =>
    let '(db, r) := db_update_port_status (neutron w) id new_status in
    (World db (events w ++ [EvUpdatePortStatus id new_status]),
     match r with Some e => inl e | None => inr tt end).

Definition lift {A} (r : exn + A) : M DB A := fun w => (w, r).

(** *** Network precommit *)

Definition _validate_network_segments (network_segments : list segment)
    : M DB unit :=
  for_each network_segments (fun network_segment =>
    let network_type := network_type network_segment in
    LOG DEBUG "Validating network segment with type %(network_type)s, segmentation ID %(segmentation_id)s, physical network %(physical_network)s" ;;;
    if negb (_is_network_type_supported network_type) then
      raise (InvalidInput (MsgNetworkTypeNotSupported network_type))
    else ret tt).

Definition create_network_precommit (network_segments : list segment)
    : M DB unit :=
  _validate_network_segments network_segments.

Definition update_network_precommit (network_segments : list segment)
    : M DB unit :=
  _validate_network_segments network_segments.

(** A write to the northbound database: a transaction of its own, here
    [command.execute(check_error=True)]. *)
Definition execute (c : nb_command) : M DB unit :=
  transaction nb_commit [c].

Definition delete_network_postcommit (current : network) : M DB unit :=
  execute (DelLSwitchCommand (ovn_name (net_id current)) true).

(** *** Port precommit *)

Definition py_int (v : pyval) : exn + Z :=
  match v with
  | VInt z => inr z
  | VBool b => inr (if b then 1 else 0)
  | VStr s => match int_of_str s with
              | Some z => inr z
              | None => inl (OtherError "ValueError")
              end
  | VNone => inl (OtherError "TypeError")
  end.

Definition has_key (k : string) (param_set : list (string * option ptype))
    : bool :=
  str_in k param_set.*1.

Definition validate_and_get_data_from_binding_profile (port : port)
    : M DB (gmap string pyval) :=
  match binding_profile port with
  | None => ret ∅
  | Some profile =>
      sel <- lift (select_param_set profile
                     OVN_PORT_BINDING_PROFILE_PARAMS [] ∅) ;;
      let '(param_set, param_dict) := sel in
      if bool_decide (param_dict = ∅) then ret ∅
      else
        lift (check_param_types param_set param_dict) ;;;
        (if has_key "parent_name" param_set then
           match param_dict !! "parent_name" with
           | Some parent => _ <- get_port parent ;; ret tt
           | None => raise (OtherError "KeyError")
           end
         else ret tt) ;;;
        (if has_key "tag" param_set then
           match param_dict !! "tag" with
           | Some v =>
               tag <- lift (py_int v) ;;
               if bool_decide (tag < 0 \/ tag > 4095) then
                 raise (InvalidInput (MsgTagRange tag))
               else ret tt
           | None => raise (OtherError "KeyError")
           end
         else ret tt) ;;;
        ret param_dict
  end.

Definition supported_vnic_types : list string := [VNIC_NORMAL].

Definition _is_port_provisioning_required (port : port)
    (host original_host : option string) : M DB bool :=
  let vnic_type := default VNIC_NORMAL (vnic_type port) in
  if negb (str_in vnic_type supported_vnic_types) then
    LOG DEBUG "No provisioning block for port %(port_id)s due to unsupported vnic_type: %(vnic_type)s" ;;; ret false
  else if String.eqb (status port) PORT_STATUS_ACTIVE then
    LOG DEBUG "No provisioning block for port %s since it is active" ;;; ret false
  else
    match host with
    | None => LOG DEBUG "No provisioning block for port %s since it does not have a host" ;;; ret false
    | Some h =>
        if String.eqb h "" then
          LOG DEBUG "No provisioning block for port %s since it does not have a host" ;;; ret false
        else if bool_decide (host = original_host) then
          LOG DEBUG "No provisioning block for port %s since host unchanged" ;;; ret false
        else if negb (chassis_exists h) then
          LOG DEBUG "No provisioning block for port %(port_id)s since no OVN chassis for host: %(host)s" ;;;
          ret false
        else ret true
    end.

Definition _insert_port_provisioning_block (port : port) : M DB unit :=
  add_provisioning_component (port_id port).

(** On creation the original host is the default, [None]. *)
Definition create_port_precommit (current : port) (host : option string)
    : M DB unit :=
  validate_and_get_data_from_binding_profile current ;;;
  required <- _is_port_provisioning_required current host None ;;
  if required then _insert_port_provisioning_block current else ret tt.

Definition update_port_precommit (current : port)
    (host original_host : option string) : M DB unit :=
  validate_and_get_data_from_binding_profile current ;;;
  required <- _is_port_provisioning_required current host original_host ;;
  if (required : bool) then _insert_port_provisioning_block current
  else ret tt.

(** *** Status reports from OVN *)

Definition is_port_gone (e : exn) : bool :=
  match e with
  | DBReferenceError | PortNotFound _ => true
  | _ => false
  end.

Definition set_port_status_down (id : string) : M DB unit :=
  LOG INFO "OVN reports status down for port: %s" ;;;
  try_except
    (port <- get_port (VStr id) ;;
     _insert_port_provisioning_block port ;;;
     update_port_status (port_id port) PORT_STATUS_DOWN)
    is_port_gone
    (fun _ => LOG DEBUG "Port not found during OVN status down report: %s").

End LifecycleAdapter.

(** ** DHCP options *)

Record ovn_dhcp_options := {
  dhcp_cidr : string;
  dhcp_options : gmap string string;
  dhcp_external_ids : gmap string string
}.

(** What [get_port_dhcp_options] returns when it does not return [None]:
    an existing row, or [{'cmd': command}]. *)
Inductive port_dhcp_options :=
| SubnetRow (row : dhcp_options_row)
| PendingCmd (cmd : dhcp_options_cmd).

Section DhcpOptionsResolver.
(** [config.get_ovn_dhcp_default_lease_time()] *)
Variable default_lease_time : Z.
(** The address [n_net.get_random_mac] draws on this call. *)
Variable random_mac : string.
(** [ovn_const.DHCPV6_STATELESS_OPT] and [const.DHCPV6_STATELESS],
    [const.IPV6_SLAAC] *)
Variable DHCPV6_STATELESS_OPT : string.
Variable DHCPV6_STATELESS : string.
(** [netaddr.IPAddress(address).version] *)
Variable ip_address_version : string -> Z.
(** [utils.get_lsp_dhcp_opts(port, ip_version)]: whether DHCP is disabled
    for the port, and the port's extra DHCP options. *)
Variable get_lsp_dhcp_opts : port -> Z -> bool * gmap string string.
(** [self._nb_ovn.get_subnets_dhcp_options(subnets)]: the subnet-level
    rows found in the northbound database for these subnets. *)
Variable get_subnets_dhcp_options : list string -> list dhcp_options_row.

(** The loop that renders the host routes, started from ["{"]. *)
Definition append_routes (acc : string) (routes : list host_route) : string :=
  foldl (fun s route => s +:+ destination route +:+ "," +:+ nexthop route +:+ ", ")
        acc routes.

Definition _get_ovn_dhcpv4_opts (subnet : subnet) (network : network)
    (server_mac : option string) : gmap string string :=
  match gateway_ip subnet with
  | None => ∅
  | Some gateway =>
      if String.eqb gateway "" then ∅
      else
        let options : gmap string string :=
          <["router" := gateway]>
            (<["mtu" := pretty (mtu network)]>
               (<["lease_time" := pretty default_lease_time]>
                  (<["server_id" := gateway]> ∅))) in
        let options :=
          if truthy server_mac
          then <["server_mac" := default "" server_mac]> options
          else <["server_mac" := random_mac]> options in
        let options :=
          match dns_nameservers subnet with
          | [] => options
          | servers =>
              <["dns_server" := "{" +:+ String.concat ", " servers +:+ "}"]>
                options
          end in
        let classless_static_routes :=
          append_routes "{" (host_routes subnet) in
        if negb (String.eqb classless_static_routes "{") then
          <["classless_static_route" :=
              classless_static_routes +:+ "0.0.0.0/0," +:+ gateway +:+ "}"]>
            options
        else options
  end.

Definition _get_ovn_dhcpv6_opts (subnet : subnet) : gmap string string :=
  let dhcpv6_opts : gmap string string := {["server_id" := random_mac]} in
  let dhcpv6_opts :=
    match dns_nameservers subnet with
    | [] => dhcpv6_opts
    | servers =>
        <["dns_server" := "{" +:+ String.concat ", " servers +:+ "}"]>
          dhcpv6_opts
    end in
  if bool_decide (ipv6_address_mode subnet = Some DHCPV6_STATELESS)
  then <[DHCPV6_STATELESS_OPT := "true"]> dhcpv6_opts
  else dhcpv6_opts.

Definition get_ovn_dhcp_options (subnet : subnet) (network : network)
    (server_mac : option string) : ovn_dhcp_options :=
  let external_ids : gmap string string :=
    {["subnet_id" := subnet_ident subnet]} in
  {| dhcp_cidr := cidr subnet;
     dhcp_options :=
       if enable_dhcp subnet then
         if ip_version subnet =? IP_VERSION_4
         then _get_ovn_dhcpv4_opts subnet network server_mac
         else _get_ovn_dhcpv6_opts subnet
       else ∅;
     dhcp_external_ids := external_ids |}.

Definition _get_subnet_dhcp_options_for_port (port : port) (ip_version : Z)
    : option dhcp_options_row :=
  let subnets :=
    map subnet_id
        (List.filter (fun fixed_ip =>
                   ip_address_version (ip_address fixed_ip) =? ip_version)
                (fixed_ips port)) in
  let get_opts := get_subnets_dhcp_options subnets in
  match get_opts with
  | [] => None
  | first :: _ =>
      if ip_version =? IP_VERSION_6 then
        match List.find (fun opts =>
                      bool_decide (row_options opts !! DHCPV6_STATELESS_OPT
                                   <> Some "true")) get_opts with
        | Some opts => Some opts
        | None => Some first
        end
      else Some first
  end.

Definition get_port_dhcp_options (port : port) (ip_version : Z)
    : exn + option port_dhcp_options :=
  let '(lsp_dhcp_disabled, lsp_dhcp_opts) :=
    get_lsp_dhcp_opts port ip_version in
  if lsp_dhcp_disabled then inr None
  else
    match _get_subnet_dhcp_options_for_port port ip_version with
    | None => inr None
    | Some subnet_dhcp_options =>
        if bool_decide (lsp_dhcp_opts = ∅) then
          inr (Some (SubnetRow subnet_dhcp_options))
        else
          (* dict.update: the port's options win over the subnet's *)
          let options := lsp_dhcp_opts ∪ row_options subnet_dhcp_options in
          let external_ids :=
            <["port_id" := port_id port]>
              (row_external_ids subnet_dhcp_options) in
          match external_ids !! "subnet_id" with
          | None => inl (OtherError "KeyError")
          | Some subnet_id =>
              inr (Some (PendingCmd
                {| cmd_subnet := subnet_id;
                   cmd_port := Some (port_id port);
                   cmd_cidr := row_cidr subnet_dhcp_options;
                   cmd_options := options;
                   cmd_external_ids := external_ids |}))
          end
    end.

End DhcpOptionsResolver.

(** ** Logical switch ports, ACLs and address sets *)

#[global] Instance fixed_ip_eq_dec : EqDecision fixed_ip.
Proof. solve_decision. Defined.

Record OvnPortInfo := {
  info_type : string;
  info_options : gmap string string;
  info_addresses : list string;
  info_port_security : list string;
  info_parent_name : option pyval;
  info_tag : option pyval;
  info_dhcpv4_options : option port_dhcp_options;
  info_dhcpv6_options : option port_dhcp_options
}.

(** The first error in a sequence of steps, or all their commands. *)
Fixpoint collect {A} (steps : list (exn + list A)) : exn + list A :=
  match steps with
  | [] => inr []
  | inl e :: _ => inl e
  | inr xs :: steps' =>
      match collect steps' with
      | inl e => inl e
      | inr ys => inr (xs ++ ys)
      end
  end.

(** [set(...) or None] *)
Definition set_or_None (s : gset string) : option addrs :=
  if bool_decide (s = ∅) then None else Some (ASet s).

Definition nonempty {A} (l : list A) : bool :=
  match l with [] => false | _ => true end.

Section SecurityGroupReconciler.
(** Helpers of [networking_ovn.common.utils] and
    [networking_ovn.common.acl], and constants of [ovn_const] and
    [neutron_lib.constants]. *)
Variable ovn_name : string -> string.
Variable ovn_addrset_name : string -> string -> string.
Variable get_lsp_security_groups : port -> list string.
(** [ovn_acl.acl_port_ips(port)]: a dictionary from IP version key to the
    port's addresses of that version. *)
Variable acl_port_ips : port -> gmap string (list string).
Variable add_acls : port -> list acl.
Variable get_router_port_options : string -> gmap string string.
Variable OVN_PORT_NAME_EXT_ID_KEY : string.
Variable DEVICE_OWNER_ROUTER_INTF : string.
Variable DEVICE_OWNER_ROUTER_GW : string.
(** [self._nb_ovn.check_for_row_by_value_and_retry(table, column, value)]:
    waits for the row and raises when it never shows up. *)
Variable check_for_row_by_value_and_retry :
  string -> string -> string -> option exn.

(** The head of both transactions: the port's DHCP options columns, the
    pending command being queued first. *)
Definition dhcp_column (o : option port_dhcp_options)
    : dhcp_ref * list nb_command :=
  match o with
  | None => (NoDhcp, [])
  | Some (PendingCmd cmd) => (DhcpOfCmd cmd, [AddDHCPOptionsCommand cmd])
  | Some (SubnetRow row) => (DhcpUuid (row_uuid row), [])
  end.

(** [for sg_id in sg_ids: for ip_version in addresses:
      if addresses[ip_version]: txn.add(update_address_set(...))].  The
    IP versions come in the order in which the dictionary yields its keys,
    here that of [map_to_list]; what is stated below about these commands
    is by membership and holds for any order. *)
Definition address_set_updates (sg_ids : list string)
    (addresses : gmap string (list string))
    (mk : string -> list string -> nb_command) : list nb_command :=
  flat_map (fun sg_id =>
    flat_map (fun '(ip_version, addrs) =>
                if nonempty addrs
                then [mk (ovn_addrset_name sg_id ip_version) addrs]
                else [])
             (map_to_list addresses))
    sg_ids.

Definition create_port_in_ovn (port : port) (ovn_port_info : OvnPortInfo)
    : exn + list nb_command :=
  let external_ids : gmap string string :=
    {[OVN_PORT_NAME_EXT_ID_KEY := port_name port]} in
  let lswitch_name := ovn_name (network_id port) in
  match check_for_row_by_value_and_retry
          "Logical_Switch" "name" lswitch_name with
  | Some e => inl e
  | None =>
      let '(dhcpv4_options, txn4) :=
        dhcp_column (info_dhcpv4_options ovn_port_info) in
      let '(dhcpv6_options, txn6) :=
        dhcp_column (info_dhcpv6_options ovn_port_info) in
      let sg_ids := get_lsp_security_groups port in
      inr (txn4 ++ txn6 ++
           [AddLSwitchPortCommand (port_id port) lswitch_name
              (info_addresses ovn_port_info) external_ids
              (info_parent_name ovn_port_info) (info_tag ovn_port_info)
              (admin_state_up port) (info_options ovn_port_info)
              (info_type ovn_port_info) (info_port_security ovn_port_info)
              dhcpv4_options dhcpv6_options] ++
           map AddACLCommand (add_acls port) ++
           (if nonempty (fixed_ips port) && nonempty sg_ids then
              address_set_updates sg_ids (acl_port_ips port)
                (fun name addrs =>
                   UpdateAddrSetCommand name (Some (AList addrs)) None
                     (Some false))
            else []))
  end.

(** The last loop of [_update_port_in_ovn], over the groups the port
    stays in; [addresses_old[ip_version]] raises [KeyError] when the old
    port's dictionary lacks the key. *)
Definition unchanged_group_updates (unchanged_sg_ids : list string)
    (addresses addresses_old : gmap string (list string))
    : exn + list nb_command :=
  collect (flat_map (fun sg_id =>
    map (fun '(ip_version, addrs) =>
           match addresses_old !! ip_version with
           | None => inl (OtherError "KeyError")
           | Some addrs_old =>
               let new_set : gset string := list_to_set addrs in
               let old_set : gset string := list_to_set addrs_old in
               let addr_add := set_or_None (new_set ∖ old_set) in
               let addr_remove := set_or_None (old_set ∖ new_set) in
               if bool_decide (addr_add <> None \/ addr_remove <> None)
               then inr [UpdateAddrSetCommand
                           (ovn_addrset_name sg_id ip_version)
                           addr_add addr_remove None]
               else inr []
           end)
        (map_to_list addresses))
    unchanged_sg_ids).

Definition _update_port_in_ovn (original_port port : port)
    (ovn_port_info : OvnPortInfo) : exn + list nb_command :=
  let external_ids : gmap string string :=
    {[OVN_PORT_NAME_EXT_ID_KEY := port_name port]} in
  let is_router_port :=
    str_in (device_owner port)
           [DEVICE_OWNER_ROUTER_INTF; DEVICE_OWNER_ROUTER_GW] in
  let options :=
    if is_router_port
    then get_router_port_options (port_id port) ∪ info_options ovn_port_info
    else info_options ovn_port_info in
  let columns_dict :=
    if is_router_port then None
    else Some (info_type ovn_port_info, info_addresses ovn_port_info) in
  let '(dhcpv4_options, txn4) :=
    dhcp_column (info_dhcpv4_options ovn_port_info) in
  let '(dhcpv6_options, txn6) :=
    dhcp_column (info_dhcpv6_options ovn_port_info) in
  let old_sg_ids : gset string :=
    list_to_set (get_lsp_security_groups original_port) in
  let new_sg_ids : gset string :=
    list_to_set (get_lsp_security_groups port) in
  let detached_sg_ids := old_sg_ids ∖ new_sg_ids in
  let attached_sg_ids := new_sg_ids ∖ old_sg_ids in
  let is_fixed_ips_updated :=
    negb (bool_decide (fixed_ips original_port = fixed_ips port)) in
  let acl_refresh :=
    if negb (bool_decide (detached_sg_ids = ∅))
       || negb (bool_decide (attached_sg_ids = ∅))
       || is_fixed_ips_updated
    then [UpdateACLsCommand [network_id port] [port]
            [(port_id port, add_acls port)] true]
    else [] in
  let head :=
    txn4 ++ txn6 ++
    [SetLSwitchPortCommand (port_id port) external_ids
       (info_parent_name ovn_port_info) (info_tag ovn_port_info)
       options (admin_state_up port) (info_port_security ovn_port_info)
       dhcpv4_options dhcpv6_options false columns_dict] ++
    acl_refresh in
  if nonempty (fixed_ips port) || nonempty (fixed_ips original_port) then
    let addresses := acl_port_ips port in
    let addresses_old := acl_port_ips original_port in
    let attached :=
      address_set_updates (elements attached_sg_ids) addresses
        (fun name addrs =>
           UpdateAddrSetCommand name (Some (AList addrs)) None None) in
    let detached :=
      address_set_updates (elements detached_sg_ids) addresses_old
        (fun name addrs =>
           UpdateAddrSetCommand name None (Some (AList addrs)) None) in
    if is_fixed_ips_updated then
      match unchanged_group_updates (elements (new_sg_ids ∩ old_sg_ids))
              addresses addresses_old with
      | inl e => inl e
      | inr unchanged => inr (head ++ attached ++ detached ++ unchanged)
      end
    else inr (head ++ attached ++ detached)
  else inr head.

End SecurityGroupReconciler.

(** ** The northbound transaction *)

(** Modelled from the spec: the commit of a batch by the client's
    transaction, which is outside this file.  The spec has the batch
    applied atomically with fail-fast error propagation: the result is the
    new store, or the error of the first command that fails and no new
    store.  What one command does to a store is the client's business
    ([networking_ovn/ovsdb/commands.py], outside this file) and is left
    open here: [run]. *)
Section NbTransaction.
Context {Store : Type}.
Variable run : nb_command -> Store -> exn + Store.

Fixpoint commit (cmds : list nb_command) (s : Store) : exn + Store :=
  match cmds with
  | [] => inr s
  | c :: cmds' =>
      match run c s with
      | inl e => inl e
      | inr s' => commit cmds' s'
      end
  end.

(** What a transaction opened with [check_error=True] raises when its
    block ends, if anything: the error of the commit. *)
Definition commit_error (s : Store) (cmds : list nb_command) : option exn :=
  match commit cmds s with
  | inl e => Some e
  | inr _ => None
  end.

End NbTransaction.

(** ** Port binding *)

(** [s.split(sep)] for a one-character separator. *)
Fixpoint split (sep : ascii) (s : string) : list string :=
  match s with
  | EmptyString => [EmptyString]
  | String c s' =>
      if Ascii.eqb c sep then EmptyString :: split sep s'
      else match split sep s' with
           | [] => [String c EmptyString]
           | w :: ws => String c w :: ws
           end
  end.

Record chassis_data := {
  datapath_type : string;
  iface_types : option string;
  chassis_physnets : list string
}.

Section PortBindingNegotiator.
Context {DB : Type}.

(** [self._sb_ovn.get_chassis_data_for_ml2_bind_port(host)]; it raises
    [RuntimeError] for a host without chassis. *)
Variable get_chassis_data_for_ml2_bind_port : string -> exn + chassis_data.
Variable sg_enabled : bool.
(** [ovn_const.CHASSIS_DATAPATH_NETDEV],
    [ovn_const.CHASSIS_IFACE_DPDKVHOSTUSER],
    [config.get_ovn_vhost_sock_dir()] and [utils.ovn_vhu_sockpath]. *)
Variable CHASSIS_DATAPATH_NETDEV : string.
Variable CHASSIS_IFACE_DPDKVHOSTUSER : string.
Variable ovn_vhost_sock_dir : string.
Variable ovn_vhu_sockpath : string -> string -> string.

Local Open Scope driver_scope.

(** [self.vif_details], set up by [_setup_vif_port_bindings]. *)
Definition driver_vif_details (vif_type : string) : gmap string pyval :=
  if String.eqb vif_type VIF_TYPE_OVS then
    {[CAP_PORT_FILTER := VBool sg_enabled]}
  else
    <[CAP_PORT_FILTER := VBool false]>
      (<[VHOST_USER_MODE := VStr VHOST_USER_MODE_CLIENT]>
         {[VHOST_USER_OVS_PLUG := VBool true]}).

Definition set_vif_details (p : port) (d : gmap string pyval) : port :=
  {| port_id := port_id p; port_name := port_name p;
     network_id := network_id p; mac_address := mac_address p;
     status := status p; vnic_type := vnic_type p;
     fixed_ips := fixed_ips p; security_groups := security_groups p;
     admin_state_up := admin_state_up p; device_owner := device_owner p;
     binding_profile := binding_profile p; vif_details := d |}.

(** Whether the loop of [bind_port] refuses the segment: a flat or vlan
    segment whose physical network the chassis does not map. *)
Definition refused (chassis_physnets : list string) (s : segment) : bool :=
  str_in (network_type s) ["flat"; "vlan"] &&
  negb (match physical_network s with
        | Some physnet => str_in physnet chassis_physnets
        | None => false
        end).

(** The body of the loop of [bind_port] for one segment; [context.set_binding]
    is recorded as an event. *)
Definition bind_segment (datapath_type : string) (iface_types : list string)
    (chassis_physnets : list string) (current : port)
    (segment_to_bind : segment) : M DB port :=
  LOG DEBUG "Attempting to bind port %(port_id)s on host %(host)s for network segment with type %(network_type)s, segmentation ID %(segmentation_id)s, physical network %(physical_network)s" ;;;
  (if negb (_is_network_type_supported (network_type segment_to_bind))
   then LOG INFO "Upgrade allowing bind port %(port_id)s with unsupported network type: %(network_type)s"
   else ret tt) ;;;
  if refused chassis_physnets segment_to_bind then
    LOG INFO "Refusing to bind port %(port_id)s on host %(host)s due to the OVN chassis bridge mapping physical networks %(chassis_physnets)s not supporting physical network: %(physical_network)s" ;;;
    ret current
  else if String.eqb datapath_type CHASSIS_DATAPATH_NETDEV
          && str_in CHASSIS_IFACE_DPDKVHOSTUSER iface_types then
    let vhost_user_socket :=
      ovn_vhu_sockpath ovn_vhost_sock_dir (port_id current) in
    let vif_type := VIF_TYPE_VHOST_USER in
    let current :=
      set_vif_details current
        (<[VHOST_USER_SOCKET := VStr vhost_user_socket]>
           (vif_details current)) in
    let details :=
      <[VHOST_USER_SOCKET := VStr vhost_user_socket]>
        (driver_vif_details vif_type) in
    emit (EvSetBinding (seg_id segment_to_bind) vif_type details) ;;;
    ret current
  else
    let vif_type := VIF_TYPE_OVS in
    emit (EvSetBinding (seg_id segment_to_bind) vif_type
            (driver_vif_details vif_type)) ;;;
    ret current.

(** [for segment_to_bind in context.segments_to_bind: ...] *)
Fixpoint bind_segments (datapath_type : string) (iface_types : list string)
    (chassis_physnets : list string) (current : port)
    (segments_to_bind : list segment) : M DB port :=
  match segments_to_bind with
  | [] => ret current
  | segment_to_bind :: segments' =>
      current <- bind_segment datapath_type iface_types chassis_physnets
                   current segment_to_bind ;;
      bind_segments datapath_type iface_types chassis_physnets current
        segments'
  end.

(** [except RuntimeError]: the class and its built-in subclasses. *)
Definition is_RuntimeError (e : exn) : bool :=
  match e with
  | RuntimeError => true
  | OtherError name => str_in name ["NotImplementedError"; "RecursionError"]
  | _ => false
  end.

Definition bind_port (current : port) (host : string)
    (segments_to_bind : list segment) : M DB port :=
  let vnic_type := default VNIC_NORMAL (vnic_type current) in
  if negb (str_in vnic_type supported_vnic_types) then
    LOG DEBUG "Refusing to bind port %(port_id)s due to unsupported vnic_type: %(vnic_type)s" ;;;
    ret current
  else
    match get_chassis_data_for_ml2_bind_port host with
    | inl e =>
        if is_RuntimeError e then
          LOG DEBUG "Refusing to bind port %(port_id)s due to no OVN chassis for host: %(host)s" ;;;
          ret current
        else raise e
    | inr chassis =>
        let iface_types :=
          match iface_types chassis with
          | Some types => if String.eqb types "" then []
                          else split "," types
          | None => []
          end in
        bind_segments (datapath_type chassis) iface_types
          (chassis_physnets chassis) current segments_to_bind
    end.

(** The segments [bind_port] called [context.set_binding] for, in the
    order of the calls. *)
Definition bound_segments (evs : list event) : list string :=
  flat_map (fun ev => match ev with
                      | EvSetBinding segment_id _ _ => [segment_id]
                      | _ => []
                      end) evs.

End PortBindingNegotiator.

(** ** Networks, subnets, security groups and port options

    The callbacks below queue commands that the port transactions above do
    not use; a transaction of theirs is the list of its commands.
    [AddProvnetPortCommand] is [create_lswitch_port] with the columns that
    [create_provnet_port] passes, its [tag] being [None] for [[]]. *)

Inductive nb_operation :=
| PortCommand (c : nb_command)
| AddLSwitchCommand (lswitch_name : string)
    (external_ids : gmap string string)
| AddProvnetPortCommand (lport_name lswitch_name : string)
    (addresses : list string) (external_ids : gmap string string)
    (type : string) (tag : option Z) (options : gmap string pyval)
| DelDHCPOptionsCommand (uuid : string)
| DelLSwitchPortCommand (lport_name lswitch_name : string)
| DelACLCommand (lswitch_name lport_name : string)
| AddAddrSetCommand (name : string) (external_ids : gmap string string)
| UpdateAddrSetExtIdsCommand (name : string)
    (external_ids : gmap string string)
| DelAddrSetCommand (name : string).

(** Truth value of a Python value; a missing one stands for [None]. *)
Definition py_truthy (v : option pyval) : bool :=
  match v with
  | Some (VStr s) => negb (String.eqb s "")
  | Some (VInt z) => negb (z =? 0)
  | Some (VBool b) => b
  | Some VNone | None => false
  end.

(** *** Networks *)

(** A value of a network dictionary: [const.ATTR_NOT_SPECIFIED] or a
    value. *)
Inductive attribute :=
| ATTR_NOT_SPECIFIED
| Attr (v : pyval).

Definition _get_attribute (obj : gmap string attribute) (key : string)
    : pyval :=
  match obj !! key with
  | Some (Attr res) => res
  | Some ATTR_NOT_SPECIFIED | None => VNone
  end.

Section NetworkLifecycle.
Variable int_of_str : string -> option Z.
Variable ovn_name : string -> string.
Variable ovn_provnet_port_name : string -> string.
Variable OVN_NETWORK_NAME_EXT_ID_KEY : string.
(** [pnet.PHYSICAL_NETWORK] and [pnet.SEGMENTATION_ID] *)
Variable PHYSICAL_NETWORK : string.
Variable SEGMENTATION_ID : string.
(** The provider keys of the network dictionary, which [network] leaves
    out. *)
Variable provider_attributes : network -> gmap string attribute.

Definition create_provnet_port (network : network) (physnet : pyval)
    (tag : option Z) : list nb_operation :=
  [AddProvnetPortCommand (ovn_provnet_port_name (net_id network))
     (ovn_name (net_id network)) ["unknown"] ∅ "localnet"
     (match tag with
      | Some t => if t =? 0 then None else Some t
      | None => None
      end)
     {["network_name" := physnet]}].

(** The transaction of [create_network_in_ovn]; [ext_ids.update] is the
    insertion, and [int(segid)] raises inside the [with] block, so that
    nothing is committed then. *)
Definition create_network_in_ovn (network : network)
    (ext_ids : gmap string string) (physnet segid : pyval)
    : exn + list nb_operation :=
  let ext_ids := <[OVN_NETWORK_NAME_EXT_ID_KEY := net_name network]> ext_ids in
  let lswitch_name := ovn_name (net_id network) in
  let txn := [AddLSwitchCommand lswitch_name ext_ids] in
  if py_truthy (Some physnet) then
    match segid with
    | VNone => inr (txn ++ create_provnet_port network physnet None)
    | _ =>
        match py_int int_of_str segid with
        | inl e => inl e
        | inr tag => inr (txn ++ create_provnet_port network physnet (Some tag))
        end
    end
  else inr txn.

Definition create_network_postcommit (current : network)
    : exn + list nb_operation :=
  let physnet := _get_attribute (provider_attributes current) PHYSICAL_NETWORK in
  let segid := _get_attribute (provider_attributes current) SEGMENTATION_ID in
  create_network_in_ovn current ∅ physnet segid.

End NetworkLifecycle.

(** *** Subnets *)

Section SubnetLifecycle.
Variable default_lease_time : Z.
Variable random_mac : string.
Variable DHCPV6_STATELESS_OPT : string.
Variable DHCPV6_STATELESS : string.
Variable IPV6_SLAAC : string.
(** [self._nb_ovn.compose_dhcp_options_commands(subnet_id, **options)] *)
Variable compose_dhcp_options_commands :
  string -> ovn_dhcp_options -> list nb_operation.
(** [self._nb_ovn.get_subnet_dhcp_options(subnet_id)] *)
Variable get_subnet_dhcp_options : string -> option dhcp_options_row.

(** The transaction, or [None] when the function returns before it opens
    one.  An [ovn_dhcp_options] that is passed has its three keys, so that
    [not ovn_dhcp_options] holds for a missing one only. *)
Definition add_subnet_dhcp_options_in_ovn (subnet : subnet)
    (network : network) (ovn_dhcp_options : option ovn_dhcp_options)
    : option (list nb_operation) :=
  if (ip_version subnet =? IP_VERSION_6)
     && bool_decide (ipv6_address_mode subnet = Some IPV6_SLAAC)
  then None
  else
    let ovn_dhcp_options :=
      match ovn_dhcp_options with
      | Some o => o
      | None =>
          get_ovn_dhcp_options default_lease_time random_mac
            DHCPV6_STATELESS_OPT DHCPV6_STATELESS subnet network None
      end in
    let txn_commands :=
      compose_dhcp_options_commands (subnet_ident subnet) ovn_dhcp_options in
    Some txn_commands.

Definition create_subnet_postcommit (current : subnet) (network : network)
    : option (list nb_operation) :=
  if enable_dhcp current
  then add_subnet_dhcp_options_in_ovn current network None
  else None.

Definition update_subnet_postcommit (current original : subnet)
    (network : network) : option (list nb_operation) :=
  if enable_dhcp current || enable_dhcp original
  then add_subnet_dhcp_options_in_ovn current network None
  else None.

Definition delete_subnet_postcommit (current : subnet)
    : list nb_operation :=
  match get_subnet_dhcp_options (subnet_ident current) with
  | Some subnet_dhcp_options =>
      [DelDHCPOptionsCommand (row_uuid subnet_dhcp_options)]
  | None => []
  end.

End SubnetLifecycle.

(** *** Security groups *)

Record security_group := {
  sg_id : string;
  sg_name : string
}.

(** Constants of [neutron.callbacks.events]. *)
Definition AFTER_CREATE := "after_create".
Definition AFTER_UPDATE := "after_update".
Definition BEFORE_DELETE := "before_delete".

Section SecurityGroupNotification.
Variable ovn_addrset_name : string -> string -> string.
Variable OVN_SG_NAME_EXT_ID_KEY : string.

Definition _process_sg_notification (event : string)
    (security_group : option security_group) : exn + list nb_operation :=
  match security_group with
  | None => inl (OtherError "TypeError")
  | Some sg =>
      let external_ids : gmap string string :=
        {[OVN_SG_NAME_EXT_ID_KEY := sg_name sg]} in
      inr (flat_map (fun ip_version =>
             if String.eqb event AFTER_CREATE then
               [AddAddrSetCommand (ovn_addrset_name (sg_id sg) ip_version)
                  external_ids]
             else if String.eqb event AFTER_UPDATE then
               [UpdateAddrSetExtIdsCommand
                  (ovn_addrset_name (sg_id sg) ip_version) external_ids]
             else if String.eqb event BEFORE_DELETE then
               [DelAddrSetCommand (ovn_addrset_name (sg_id sg) ip_version)]
             else [])
            ["ip4"; "ip6"])
  end.

End SecurityGroupNotification.

(** *** Port options and the port postcommits *)

Record address_pair := {
  pair_mac_address : string;
  pair_ip_address : string
}.

(** The text of a profile value that validation has found to be a
    string. *)
Definition str_value (v : option pyval) : string :=
  match v with
  | Some (VStr s) => s
  | _ => ""
  end.

Section PortLifecycle.
Context {DB : Type}.
Variable plugin_get_port : DB -> pyval -> exn + port.
Variable int_of_str : string -> option Z.
Variable DHCPV6_STATELESS_OPT : string.
Variable ip_address_version : string -> Z.
Variable get_lsp_dhcp_opts : port -> Z -> bool * gmap string string.
Variable get_subnets_dhcp_options : list string -> list dhcp_options_row.
(** Keys of the port dictionary that [port] leaves out:
    [port.get(psec.PORTSECURITY)] and
    [port.get('allowed_address_pairs', [])]. *)
Variable port_security_enabled : port -> bool.
Variable allowed_address_pairs : port -> list address_pair.
(** [utils.is_lsp_trusted(port)] *)
Variable is_lsp_trusted : port -> bool.
(** [self.qos_driver.get_qos_options(port)] *)
Variable get_qos_options : port -> gmap string string.
Variable ovn_name : string -> string.
Variable ovn_addrset_name : string -> string -> string.
(** [utils.get_lsp_security_groups(port)] and
    [utils.get_lsp_security_groups(port, False)] *)
Variable get_lsp_security_groups : port -> list string.
Variable get_lsp_security_groups_of_any : port -> list string.
Variable acl_port_ips : port -> gmap string (list string).
Variable add_acls : port -> list acl.
Variable get_router_port_options : string -> gmap string string.
Variable OVN_PORT_NAME_EXT_ID_KEY : string.
Variable DEVICE_OWNER_ROUTER_INTF : string.
Variable DEVICE_OWNER_ROUTER_GW : string.
Variable check_for_row_by_value_and_retry :
  string -> string -> string -> option exn.
(** What the commit of a transaction raises, if anything. *)
Variable nb_commit : list nb_command -> option exn.

Local Open Scope driver_scope.

(** The result is [list(allowed_addresses)] of a set: the entries in
    some order, each once. *)
Definition _get_allowed_addresses_from_port (port : port) : list string :=
  if negb (port_security_enabled port) then []
  else if is_lsp_trusted port then []
  else
    let addresses :=
      foldl (fun addresses ip => addresses +:+ " " +:+ ip_address ip)
            (mac_address port) (fixed_ips port) in
    let '(allowed_addresses, addresses) :=
      foldl (fun '(allowed_addresses, addresses) allowed_address =>
               if String.eqb (pair_mac_address allowed_address)
                             (mac_address port)
               then (allowed_addresses,
                     addresses +:+ " " +:+ pair_ip_address allowed_address)
               else (allowed_addresses ∪
                       {[pair_mac_address allowed_address +:+ " " +:+
                         pair_ip_address allowed_address]},
                     addresses))
            ((∅ : gset string), addresses) (allowed_address_pairs port) in
    elements (allowed_addresses ∪ {[addresses]}).

Definition get_ovn_port_options (port : port)
    (qos_options : option (gmap string string)) : M DB OvnPortInfo :=
  profile <- validate_and_get_data_from_binding_profile
               plugin_get_port int_of_str port ;;
  let qos_options :=
    match qos_options with
    | None => get_qos_options port
    | Some q => q
    end in
  let vtep_physical_switch := profile !! "vtep-physical-switch" in
  let '(port_type, options, addresses, port_security, parent_name, tag) :=
    if py_truthy vtep_physical_switch then
      let vtep_logical_switch := profile !! "vtep-logical-switch" in
      ("vtep",
       (<["vtep-logical-switch" := str_value vtep_logical_switch]>
          {["vtep-physical-switch" := str_value vtep_physical_switch]}
        : gmap string string),
       "unknown", [], None, None)
    else
      ("", qos_options,
       foldl (fun addresses ip => addresses +:+ " " +:+ ip_address ip)
             (mac_address port) (fixed_ips port),
       _get_allowed_addresses_from_port port,
       profile !! "parent_name", profile !! "tag") in
  dhcpv4_options <- lift (get_port_dhcp_options DHCPV6_STATELESS_OPT
                            ip_address_version get_lsp_dhcp_opts
                            get_subnets_dhcp_options port IP_VERSION_4) ;;
  dhcpv6_options <- lift (get_port_dhcp_options DHCPV6_STATELESS_OPT
                            ip_address_version get_lsp_dhcp_opts
                            get_subnets_dhcp_options port IP_VERSION_6) ;;
  ret {| info_type := port_type;
         info_options := options;
         info_addresses := [addresses];
         info_port_security := port_security;
         info_parent_name := parent_name;
         info_tag := tag;
         info_dhcpv4_options := dhcpv4_options;
         info_dhcpv6_options := dhcpv6_options |}.

Definition create_port_postcommit (current : port) : M DB unit :=
  ovn_port_info <- get_ovn_port_options current None ;;
  txn <- lift (create_port_in_ovn ovn_name ovn_addrset_name
                 get_lsp_security_groups acl_port_ips add_acls
                 OVN_PORT_NAME_EXT_ID_KEY check_for_row_by_value_and_retry
                 current ovn_port_info) ;;
  transaction nb_commit txn.

Definition update_port (port original_port : port)
    (qos_options : option (gmap string string)) : M DB unit :=
  ovn_port_info <- get_ovn_port_options port qos_options ;;
  txn <- lift (_update_port_in_ovn ovn_addrset_name
                 get_lsp_security_groups acl_port_ips add_acls
                 get_router_port_options OVN_PORT_NAME_EXT_ID_KEY
                 DEVICE_OWNER_ROUTER_INTF DEVICE_OWNER_ROUTER_GW
                 original_port port ovn_port_info) ;;
  transaction nb_commit txn.

Definition update_port_postcommit (current original : port) : M DB unit :=
  update_port current original None.

Definition delete_port_postcommit (current : port) : list nb_operation :=
  [DelLSwitchPortCommand (port_id current) (ovn_name (network_id current));
   DelACLCommand (ovn_name (network_id current)) (port_id current)] ++
  (if nonempty (fixed_ips current) then
     map PortCommand
       (address_set_updates ovn_addrset_name
          (get_lsp_security_groups_of_any current) (acl_port_ips current)
          (fun name addrs =>
             UpdateAddrSetCommand name None (Some (AList addrs)) None))
   else []).

End PortLifecycle.

(** * Properties *)

(** ** Strings *)

Lemma str_in_spec x l : str_in x l = true <-> x ∈ l.
Proof.
  unfold str_in. rewrite existsb_exists. split.
  - intros (y & Hy & Heq). apply String.eqb_eq in Heq. subst.
    by apply list_elem_of_In.
  - intros H. exists x. split; [by apply list_elem_of_In | apply String.eqb_refl].
Qed.

Lemma string_app_cons (x : ascii) (a b : string) :
  String x a +:+ b = String x (a +:+ b).
Proof. reflexivity. Qed.

Lemma string_app_assoc (a b c : string) : (a +:+ b) +:+ c = a +:+ (b +:+ c).
Proof.
  induction a as [|x a IH]; [done|]. by rewrite !string_app_cons, IH.
Qed.

Lemma string_app_length (a b : string) :
  String.length (a +:+ b) = (String.length a + String.length b)%nat.
Proof.
  induction a as [|x a IH]; [done|]. rewrite string_app_cons. cbn.
  by rewrite IH.
Qed.

(** ** DHCPv4 options (C7, C10) *)

(** A host route as it is written in the option. *)
Definition render_route (r : host_route) : string :=
  destination r +:+ "," +:+ nexthop r.

(** The option value in the spec's words: every host route, each followed
    by a comma and a blank, then the default route through the gateway. *)
Definition routes_then_default (routes : list host_route) (gateway : string)
    : string :=
  "{" +:+ foldr (fun r s => render_route r +:+ ", " +:+ s)
                ("0.0.0.0/0," +:+ gateway +:+ "}") routes.

Lemma append_routes_foldr acc routes tail :
  append_routes acc routes +:+ tail =
  acc +:+ foldr (fun r s => render_route r +:+ ", " +:+ s) tail routes.
Proof.
  revert acc. induction routes as [|r routes IH]; intros acc; cbn.
  - done.
  - rewrite IH. unfold render_route. by rewrite !string_app_assoc.
Qed.

Lemma append_routes_length acc routes :
  (String.length acc + 3 * length routes <=
   String.length (append_routes acc routes))%nat.
Proof.
  revert acc. induction routes as [|r routes IH]; intros acc; cbn.
  - lia.
  - etrans; [|apply IH]. rewrite !string_app_length. cbn. lia.
Qed.

Lemma append_routes_nonempty routes :
  routes <> [] -> String.eqb (append_routes "{" routes) "{" = false.
Proof.
  intros Hne. apply String.eqb_neq. intros Heq.
  pose proof (append_routes_length "{" routes) as Hlen.
  rewrite Heq in Hlen. destruct routes; [done|]. cbn in Hlen. lia.
Qed.

Section DhcpV4Facts.
Variable default_lease_time : Z.
Variable random_mac : string.
Variables DHCPV6_STATELESS_OPT DHCPV6_STATELESS : string.

Local Abbreviation dhcpv4_opts :=
  (_get_ovn_dhcpv4_opts default_lease_time random_mac).
Local Abbreviation dhcp_opts :=
  (get_ovn_dhcp_options default_lease_time random_mac
     DHCPV6_STATELESS_OPT DHCPV6_STATELESS).

Lemma dhcpv4_route_option subnet network server_mac gateway :
  gateway_ip subnet = Some gateway -> gateway <> "" ->
  dhcpv4_opts subnet network server_mac !! "classless_static_route" =
  match host_routes subnet with
  | [] => None
  | routes => Some (routes_then_default routes gateway)
  end.
Proof.
  intros Hgw Hne. unfold _get_ovn_dhcpv4_opts. rewrite Hgw.
  apply String.eqb_neq in Hne. rewrite Hne.
  destruct (host_routes subnet) as [|r routes] eqn:Hroutes.
  - cbn [append_routes foldl]. rewrite String.eqb_refl. cbn [negb].
    destruct (truthy server_mac), (dns_nameservers subnet); by simplify_map_eq.
  - rewrite append_routes_nonempty by done. cbn [negb].
    rewrite lookup_insert_eq. f_equal.
    unfold routes_then_default. by rewrite append_routes_foldr.
Qed.

(** C7: a DHCP-enabled IPv4 subnet with a gateway and at least one host
    route gets a [classless_static_route] option made of every host route
    as [destination,nexthop] followed by the default route
    [0.0.0.0/0,gateway]; the route 192.168.50.0/24 via 192.168.1.1 with
    gateway 192.168.1.1 gives
    [{192.168.50.0/24,192.168.1.1, 0.0.0.0/0,192.168.1.1}]; a subnet
    without host routes gets no such option. *)
Theorem classless_static_route_composition subnet network server_mac gateway :
  enable_dhcp subnet = true ->
  ip_version subnet = IP_VERSION_4 ->
  gateway_ip subnet = Some gateway -> gateway <> "" ->
  let options := dhcp_options (dhcp_opts subnet network server_mac) in
  options = dhcpv4_opts subnet network server_mac /\
  (host_routes subnet <> [] ->
   options !! "classless_static_route" =
     Some (routes_then_default (host_routes subnet) gateway)) /\
  (host_routes subnet =
     [{| destination := "192.168.50.0/24"; nexthop := "192.168.1.1" |}] ->
   gateway = "192.168.1.1" ->
   options !! "classless_static_route" =
     Some "{192.168.50.0/24,192.168.1.1, 0.0.0.0/0,192.168.1.1}") /\
  (host_routes subnet = [] -> options !! "classless_static_route" = None).
Proof.
  intros Hdhcp Hv4 Hgw Hne options.
  assert (options = dhcpv4_opts subnet network server_mac) as Hopts.
  { unfold options, get_ovn_dhcp_options. cbn.
    by rewrite Hdhcp, Hv4. }
  split; [done|]. rewrite Hopts.
  pose proof (dhcpv4_route_option subnet network server_mac gateway Hgw Hne)
    as Hroute.
  repeat split.
  - intros Hroutes. rewrite Hroute. by destruct (host_routes subnet).
  - intros Hroutes ->. rewrite Hroute, Hroutes. done.
  - intros Hroutes. by rewrite Hroute, Hroutes.
Qed.

(** C10: for an IPv4 subnet without gateway, [_get_ovn_dhcpv4_opts]
    returns the empty map, DHCP enabled or not, and the options of the
    resulting row have none of [server_id], [server_mac], [lease_time],
    [mtu], [router], [dns_server] and [classless_static_route]. *)
Theorem dhcpv4_opts_without_gateway subnet network server_mac :
  ip_version subnet = IP_VERSION_4 ->
  truthy (gateway_ip subnet) = false ->
  dhcpv4_opts subnet network server_mac = ∅ /\
  dhcp_options (dhcp_opts subnet network server_mac) = ∅ /\
  Forall (fun key =>
            dhcp_options (dhcp_opts subnet network server_mac) !! key = None)
         ["server_id"; "server_mac"; "lease_time"; "mtu"; "router";
          "dns_server"; "classless_static_route"].
Proof.
  intros Hv4 Hgw.
  assert (dhcpv4_opts subnet network server_mac = ∅) as Hempty.
  { unfold _get_ovn_dhcpv4_opts.
    destruct (gateway_ip subnet) as [gw|]; [|done].
    cbn in Hgw. apply negb_false_iff in Hgw. by rewrite Hgw. }
  assert (dhcp_options (dhcp_opts subnet network server_mac) = ∅) as Hrow.
  { unfold get_ovn_dhcp_options. cbn. rewrite Hv4. cbn.
    rewrite Hempty. by destruct (enable_dhcp subnet). }
  split; [done|]. split; [done|].
  rewrite Hrow. repeat constructor.
Qed.

End DhcpV4Facts.

Definition subnet_with_route : subnet :=
  {| subnet_ident := "subnet-1"; cidr := "192.168.1.0/24";
     ip_version := 4; enable_dhcp := true;
     gateway_ip := Some "192.168.1.1"; dns_nameservers := ["8.8.8.8"];
     host_routes :=
       [{| destination := "192.168.50.0/24"; nexthop := "192.168.1.1" |}];
     ipv6_address_mode := None |}.

Definition subnet_without_gateway : subnet :=
  {| subnet_ident := "subnet-2"; cidr := "10.0.0.0/24";
     ip_version := 4; enable_dhcp := true;
     gateway_ip := None; dns_nameservers := ["8.8.8.8"];
     host_routes :=
       [{| destination := "192.168.50.0/24"; nexthop := "10.0.0.1" |}];
     ipv6_address_mode := None |}.

Definition network_1500 : network :=
  {| net_id := "net-1"; net_name := "private"; mtu := 1500 |}.

Lemma classless_static_route_composition_witness :
  dhcp_options
    (get_ovn_dhcp_options 43200 "fa:16:3e:00:00:01" "dhcpv6_stateless"
       "dhcpv6-stateless" subnet_with_route network_1500 None)
    !! "classless_static_route" =
  Some "{192.168.50.0/24,192.168.1.1, 0.0.0.0/0,192.168.1.1}".
Proof.
  refine (proj1 (proj2 (proj2
    (classless_static_route_composition 43200 "fa:16:3e:00:00:01"
       "dhcpv6_stateless" "dhcpv6-stateless" subnet_with_route network_1500
       None "192.168.1.1" _ _ _ _))) _ _); reflexivity || discriminate.
Defined.

Lemma dhcpv4_opts_without_gateway_witness :
  dhcp_options
    (get_ovn_dhcp_options 43200 "fa:16:3e:00:00:01" "dhcpv6_stateless"
       "dhcpv6-stateless" subnet_without_gateway network_1500 None) = ∅.
Proof.
  refine (proj1 (proj2
    (dhcpv4_opts_without_gateway 43200 "fa:16:3e:00:00:01"
       "dhcpv6_stateless" "dhcpv6-stateless" subnet_without_gateway
       network_1500 None _ _))); reflexivity.
Defined.

(** ** Quiet computations *)

Lemma appended_refl {DB} (w : world DB) : appended w w [].
Proof. unfold appended. by rewrite app_nil_r. Qed.

Lemma appended_trans {DB} (w1 w2 w3 : world DB) evs1 evs2 :
  appended w1 w2 evs1 -> appended w2 w3 evs2 -> appended w1 w3 (evs1 ++ evs2).
Proof. unfold appended. intros H1 H2. by rewrite H2, H1, app_assoc. Qed.

Lemma quiet_ret {DB A} (a : A) : quiet (DB:=DB) (ret a).
Proof. intros w. split; [done|]. exists []. split; [apply appended_refl|done]. Qed.

Lemma quiet_raise {DB A} (e : exn) : quiet (DB:=DB) (A:=A) (raise e).
Proof. intros w. split; [done|]. exists []. split; [apply appended_refl|done]. Qed.

Lemma quiet_lift {DB A} (r : exn + A) : quiet (DB:=DB) (lift r).
Proof. intros w. split; [done|]. exists []. split; [apply appended_refl|done]. Qed.

Lemma quiet_LOG {DB} level msg : quiet (DB:=DB) (LOG level msg).
Proof. intros w. split; [done|]. by exists [EvLog level msg]. Qed.

Lemma quiet_bind {DB A B} (c : M DB A) (k : A -> M DB B) :
  quiet c -> (forall a, quiet (k a)) -> quiet (bind c k).
Proof.
  intros Hc Hk w. unfold bind.
  destruct (Hc w) as [Hn (evs & Happ & Hlog)].
  destruct (c w) as [w' [e|a]]; cbn in *.
  - split; [done|]. by exists evs.
  - destruct (Hk a w') as [Hn' (evs' & Happ' & Hlog')].
    split; [congruence|]. exists (evs ++ evs'). split.
    + by eapply appended_trans.
    + rewrite forallb_app. by rewrite Hlog, Hlog'.
Qed.

Lemma quiet_for_each {DB A} (l : list A) (body : A -> M DB unit) :
  (forall x, quiet (body x)) -> quiet (for_each l body).
Proof.
  intros Hbody. induction l as [|x l IH]; cbn.
  - apply quiet_ret.
  - apply quiet_bind; [apply Hbody | intros _; apply IH].
Qed.

Lemma quiet_get_port {DB} (plugin_get_port : DB -> pyval -> exn + port) id :
  quiet (get_port plugin_get_port id).
Proof. intros w. split; [done|]. exists []. split; [apply appended_refl|done]. Qed.

Create HintDb quiet.

#[local] Hint Resolve quiet_ret quiet_raise quiet_lift quiet_LOG
  quiet_get_port : quiet.

Ltac quiet_step :=
  first [ apply quiet_bind; [|intros ?]
        | apply quiet_for_each; intros ?
        | progress eauto with quiet ].

(** A log line does not change the neutron database and appends itself. *)
Lemma no_writes_of_quiet {DB A} (c : M DB A) w :
  quiet c ->
  exists evs, appended w (c w).1 evs /\
              forallb (fun ev => negb (is_nb_write ev)) evs = true /\
              forallb (fun ev => negb (is_block_insert ev)) evs = true.
Proof.
  intros Hq. destruct (Hq w) as [_ (evs & Happ & Hlog)].
  exists evs. split; [done|].
  rewrite !forallb_forall in *.
  split; intros ev Hev; specialize (Hlog ev Hev); by destruct ev.
Qed.

(** ** Network precommit (C5) *)

Section NetworkPrecommit.
Context {DB : Type}.

Lemma validate_network_segments_quiet segs :
  quiet (DB:=DB) (_validate_network_segments segs).
Proof.
  unfold _validate_network_segments. repeat quiet_step.
  destruct (negb _); eauto with quiet.
Qed.

Lemma validate_network_segments_result segs (w : world DB) :
  (_validate_network_segments segs w).2 =
  match List.find (fun s => negb (_is_network_type_supported (network_type s)))
                  segs with
  | None => inr tt
  | Some s => inl (InvalidInput (MsgNetworkTypeNotSupported (network_type s)))
  end.
Proof.
  revert w. induction segs as [|s segs IH]; intros w; [done|].
  unfold _validate_network_segments in *. cbn [List.find for_each].
  destruct (negb (_is_network_type_supported (network_type s))) eqn:E.
  - reflexivity.
  - unfold bind at 1. unfold bind at 1. cbn [LOG emit ret]. apply IH.
Qed.

Lemma supported_network_types nt :
  _is_network_type_supported nt = true <->
  nt ∈ ["local"; "flat"; "geneve"; "vlan"].
Proof. apply str_in_spec. Qed.

(** C5: [create_network_precommit] and [update_network_precommit]
    succeed when every segment's network type is one of local, flat,
    geneve and vlan; when some segment's type is not, they raise
    [InvalidInput]; either way nothing is written to the external store
    (the run only appends log lines and leaves the neutron database as
    it was). *)
Theorem network_precommit_validates segs (w : world DB) :
  Forall (fun precommit : list segment -> M DB unit =>
    (Forall (fun s => network_type s ∈ ["local"; "flat"; "geneve"; "vlan"])
            segs ->
     (precommit segs w).2 = inr tt) /\
    (Exists (fun s => network_type s ∉ ["local"; "flat"; "geneve"; "vlan"])
            segs ->
     exists nt, (nt ∉ ["local"; "flat"; "geneve"; "vlan"]) /\
       (precommit segs w).2 =
         inl (InvalidInput (MsgNetworkTypeNotSupported nt))) /\
    neutron (precommit segs w).1 = neutron w /\
    exists evs, appended w (precommit segs w).1 evs /\
                forallb (fun ev => negb (is_nb_write ev)) evs = true)
  [create_network_precommit; update_network_precommit].
Proof.
  assert (forall s,
            negb (_is_network_type_supported (network_type s)) = true
            <-> (network_type s ∉ ["local"; "flat"; "geneve"; "vlan"]))
    as Hneg.
  { intros s. rewrite negb_true_iff, <- not_true_iff_false.
    by rewrite supported_network_types. }
  assert ((Forall (fun s => network_type s ∈ ["local"; "flat"; "geneve"; "vlan"])
                  segs ->
           (_validate_network_segments segs w).2 = inr tt) /\
          (Exists (fun s => network_type s ∉ ["local"; "flat"; "geneve"; "vlan"])
                  segs ->
           exists nt, (nt ∉ ["local"; "flat"; "geneve"; "vlan"]) /\
             (_validate_network_segments segs w).2 =
               inl (InvalidInput (MsgNetworkTypeNotSupported nt))) /\
          neutron (_validate_network_segments segs w).1 = neutron w /\
          exists evs, appended w (_validate_network_segments segs w).1 evs /\
                      forallb (fun ev => negb (is_nb_write ev)) evs = true)
    as Hspec.
  { rewrite validate_network_segments_result.
    destruct (List.find _ segs) as [s|] eqn:Hfind.
    - apply find_some in Hfind as [Hin Hs]. apply Hneg in Hs.
      apply list_elem_of_In in Hin.
      split; [|split; [|split]].
      + intros Hall. rewrite Forall_forall in Hall. by specialize (Hall s Hin).
      + intros _. by exists (network_type s).
      + apply validate_network_segments_quiet.
      + destruct (no_writes_of_quiet (_validate_network_segments segs) w
                    (validate_network_segments_quiet segs))
          as (evs & ? & ? & _).
        by exists evs.
    - split; [done|split; [|split]].
      + intros Hex. apply Exists_exists in Hex as (s & Hin & Hs).
        apply list_elem_of_In in Hin.
        pose proof (find_none _ _ Hfind s Hin) as Hnone. cbv beta in Hnone.
        apply Hneg in Hs. congruence.
      + apply validate_network_segments_quiet.
      + destruct (no_writes_of_quiet (_validate_network_segments segs) w
                    (validate_network_segments_quiet segs))
          as (evs & ? & ? & _).
        by exists evs. }
  repeat constructor; apply Hspec.
Qed.

End NetworkPrecommit.

Definition vlan_segment : segment :=
  {| seg_id := "seg-vlan"; network_type := "vlan";
     segmentation_id := Some 100; physical_network := Some "physnet1" |}.

Definition vxlan_segment : segment :=
  {| seg_id := "seg-vxlan"; network_type := "vxlan";
     segmentation_id := Some 7; physical_network := None |}.

Definition empty_world : world unit := World tt [].

(** A postcommit, for contrast, does write to the external store. *)
Example delete_network_postcommit_writes :
  events (delete_network_postcommit (fun id => "neutron-" +:+ id)
            (fun _ => None) network_1500 empty_world).1 =
  [EvNbTransaction [DelLSwitchCommand "neutron-net-1" true]].
Proof. reflexivity. Qed.

Lemma network_precommit_validates_witness :
  (create_network_precommit [vlan_segment] empty_world).2 = inr tt /\
  exists nt,
    (create_network_precommit [vlan_segment; vxlan_segment] empty_world).2 =
    inl (InvalidInput (MsgNetworkTypeNotSupported nt)).
Proof.
  split.
  - pose proof (network_precommit_validates [vlan_segment] empty_world) as H.
    apply Forall_cons in H as [(Hok & _) _]. apply Hok.
    repeat constructor.
  - pose proof (network_precommit_validates [vlan_segment; vxlan_segment]
                  empty_world) as H.
    apply Forall_cons in H as [(_ & Hbad & _) _].
    destruct Hbad as (nt & _ & Hnt).
    + apply Exists_cons_tl, Exists_cons_hd. cbn.
      intros Hin. repeat (apply elem_of_cons in Hin as [Hin|Hin]; [done|]).
      by apply elem_of_nil in Hin.
    + by exists nt.
Defined.

(** ** The provisioning-block gate (C3) *)

Section ProvisioningGate.
Context {DB : Type}.
Variable plugin_get_port : DB -> pyval -> exn + port.
Variable db_add_provisioning_component : DB -> string -> DB * option exn.
Variable chassis_exists : string -> bool.
Variable int_of_str : string -> option Z.

Local Abbreviation required :=
  (_is_port_provisioning_required (DB:=DB) chassis_exists).
Local Abbreviation validate :=
  (validate_and_get_data_from_binding_profile plugin_get_port int_of_str).

(** The five conditions of the gate. *)
Definition provisioning_conditions (p : port)
    (host original_host : option string) : Prop :=
  default VNIC_NORMAL (vnic_type p) ∈ supported_vnic_types /\
  status p <> PORT_STATUS_ACTIVE /\
  truthy host = true /\
  host <> original_host /\
  exists h, host = Some h /\ chassis_exists h = true.

Lemma provisioning_required_quiet p host original_host :
  quiet (required p host original_host).
Proof.
  unfold _is_port_provisioning_required.
  repeat (match goal with
          | |- quiet (if ?b then _ else _) => destruct b
          | |- quiet (match ?h with Some _ => _ | None => _ end) => destruct h
          end);
    repeat quiet_step.
Qed.

Lemma validate_quiet p : quiet (validate p).
Proof.
  unfold validate_and_get_data_from_binding_profile.
  destruct (binding_profile p) as [profile|]; [|apply quiet_ret].
  apply quiet_bind; [apply quiet_lift|]. intros [param_set param_dict].
  destruct (bool_decide _); [apply quiet_ret|].
  repeat (first
    [ apply quiet_bind; [|intros ?]
    | match goal with
      | |- quiet (if ?b then _ else _) => destruct b
      | |- quiet (match ?h with Some _ => _ | None => _ end) => destruct h
      end
    | progress eauto with quiet ]).
Qed.

Lemma provisioning_required_value p host original_host (w : world DB) :
  (required p host original_host w).2 =
  inr (str_in (default VNIC_NORMAL (vnic_type p)) supported_vnic_types
       && negb (String.eqb (status p) PORT_STATUS_ACTIVE)
       && truthy host
       && negb (bool_decide (host = original_host))
       && match host with Some h => chassis_exists h | None => false end).
Proof.
  unfold _is_port_provisioning_required.
  destruct (str_in _ supported_vnic_types); [|done]. cbn [negb andb].
  destruct (String.eqb (status p) PORT_STATUS_ACTIVE); [done|].
  destruct host as [h|]; [|done]. cbn [negb andb truthy].
  destruct (String.eqb h ""); [done|]. cbn [negb andb].
  destruct (bool_decide (Some h = original_host)); [done|].
  cbn [negb andb]. by destruct (chassis_exists h).
Qed.

(** C3: [_is_port_provisioning_required(port, host, original_host)]
    returns [True] exactly when the vnic type is supported, the port is
    not ACTIVE, the host is not empty, the host differs from the original
    host and the chassis of the host exists; otherwise it returns [False],
    and then [create_port_precommit] and [update_port_precommit] insert
    no provisioning block. *)
Theorem provisioning_required_iff p host original_host (w : world DB) :
  ((required p host original_host w).2 = inr true <->
   provisioning_conditions p host original_host) /\
  (~ provisioning_conditions p host original_host ->
   (required p host original_host w).2 = inr false /\
   let w' := (update_port_precommit plugin_get_port
                db_add_provisioning_component chassis_exists int_of_str
                p host original_host w).1 in
   neutron w' = neutron w /\
   exists evs, appended w w' evs /\
     forallb (fun ev => negb (is_block_insert ev)) evs = true) /\
  (~ provisioning_conditions p host None ->
   let w' := (create_port_precommit plugin_get_port
                db_add_provisioning_component chassis_exists int_of_str
                p host w).1 in
   neutron w' = neutron w /\
   exists evs, appended w w' evs /\
     forallb (fun ev => negb (is_block_insert ev)) evs = true).
Proof.
  assert (forall oh w0,
            (required p host oh w0).2 = inr true <->
            provisioning_conditions p host oh) as Hiff.
  { intros oh w0. rewrite provisioning_required_value.
    unfold provisioning_conditions.
    rewrite <- str_in_spec.
    split.
    - intros [= H]. do 4 (apply andb_prop in H as [H ?]).
      split; [done|]. split; [|split; [done|split]].
      + intros Hst. apply String.eqb_eq in Hst.
        by destruct (String.eqb (status p) PORT_STATUS_ACTIVE).
      + intros Heq. by rewrite bool_decide_eq_true_2 in * by done.
      + destruct host as [h|]; [|done]. by exists h.
    - intros (Hv & Hst & Hh & Hne & h & -> & Hc).
      rewrite Hv, Hh, Hc. apply String.eqb_neq in Hst. rewrite Hst.
      by rewrite bool_decide_eq_false_2 by done. }
  assert (forall oh w0,
            ~ provisioning_conditions p host oh ->
            (required p host oh w0).2 = inr false) as Hfalse.
  { intros oh w0 Hno. specialize (Hiff oh w0).
    rewrite provisioning_required_value in *.
    destruct (_ && _); [|done]. exfalso. by apply Hno, Hiff. }
  assert (forall oh,
            ~ provisioning_conditions p host oh ->
            quiet (validate p ;;;
                   req <- required p host oh ;;
                   if (req : bool)
                   then _insert_port_provisioning_block
                          db_add_provisioning_component p
                   else ret tt)%driver) as Hq.
  { intros oh Hno w0. 
    assert (quiet (req <- required p host oh ;;
                   if (req : bool) then ret tt else ret tt)%driver) as Hq'.
    { apply quiet_bind; [apply provisioning_required_quiet|].
      intros []; apply quiet_ret. }
    assert (quiet (validate p ;;;
                   req <- required p host oh ;;
                   if (req : bool) then ret tt else ret tt)%driver) as Hq''.
    { apply quiet_bind; [apply validate_quiet | by intros _]. }
    specialize (Hq'' w0). revert Hq''. unfold bind.
    destruct (validate p w0) as [w1 [e|d]]; [done|].
    pose proof (Hfalse oh w1 Hno) as Hr.
    destruct (required p host oh w1) as [w2 [e|b]]; [done|].
    cbn in Hr. by injection Hr as ->. }
  split; [apply Hiff|]. split.
  - intros Hno. split; [by apply Hfalse|]. cbv zeta.
    unfold update_port_precommit.
    destruct (Hq original_host Hno w) as [Hn (evs & Happ & Hlog)].
    split; [done|]. exists evs. split; [done|].
    rewrite !forallb_forall in *.
    intros ev Hev. specialize (Hlog ev Hev). by destruct ev.
  - intros Hno. cbv zeta. unfold create_port_precommit.
    destruct (Hq None Hno w) as [Hn (evs & Happ & Hlog)].
    split; [done|]. exists evs. split; [done|].
    rewrite !forallb_forall in *.
    intros ev Hev. specialize (Hlog ev Hev). by destruct ev.
Qed.

End ProvisioningGate.

Definition port_a : port :=
  {| port_id := "port-a"; port_name := "a"; network_id := "net-1";
     mac_address := "fa:16:3e:00:00:0a"; status := "DOWN";
     vnic_type := Some "normal";
     fixed_ips := [{| subnet_id := "subnet-1"; ip_address := "10.0.0.5" |}];
     security_groups := ["sg-a"; "sg-b"]; admin_state_up := true;
     device_owner := "compute:nova"; binding_profile := None;
     vif_details := ∅ |}.

Definition set_status (p : port) (s : string) : port :=
  {| port_id := port_id p; port_name := port_name p;
     network_id := network_id p; mac_address := mac_address p;
     status := s; vnic_type := vnic_type p;
     fixed_ips := fixed_ips p; security_groups := security_groups p;
     admin_state_up := admin_state_up p; device_owner := device_owner p;
     binding_profile := binding_profile p; vif_details := vif_details p |}.

(** A neutron database that is a list of ports, for the examples: a port
    is found by its id, a provisioning component can always be added. *)
Definition list_get_port (db : list port) (id : pyval) : exn + port :=
  match id with
  | VStr id =>
      match List.find (fun p => String.eqb (port_id p) id) db with
      | Some p => inr p
      | None => inl (PortNotFound id)
      end
  | _ => inl (OtherError "TypeError")
  end.

Definition list_add_component (db : list port) (id : string)
    : list port * option exn :=
  (db, None).

Definition list_update_status (db : list port) (id new_status : string)
    : list port * option exn :=
  if existsb (fun p => String.eqb (port_id p) id) db then
    (map (fun p => if String.eqb (port_id p) id then set_status p new_status
                   else p) db, None)
  else (db, Some (PortNotFound id)).

Definition no_int (s : string) : option Z := None.

Lemma provisioning_required_iff_witness :
  (_is_port_provisioning_required (DB:=list port) (fun _ => true)
     (set_status port_a "ACTIVE") (Some "host-1") None (World [] [])).2
  = inr false.
Proof.
  refine (proj1 (proj1 (proj2
    (provisioning_required_iff list_get_port list_add_component
       (fun _ => true) no_int (set_status port_a "ACTIVE") (Some "host-1")
       None (World [] []))) _)).
  intros (_ & Hst & _). by apply Hst.
Defined.

(** ** Status-down reports (C8) *)

Lemma is_port_gone_spec e :
  is_port_gone e = true <-> e = DBReferenceError \/ exists id, e = PortNotFound id.
Proof.
  destruct e; cbn; split; try done; try (intros [?|[? ?]]; done); eauto.
Qed.

Section StatusDown.
Context {DB : Type}.
Variable plugin_get_port : DB -> pyval -> exn + port.
Variable db_add_provisioning_component : DB -> string -> DB * option exn.
Variable db_update_port_status : DB -> string -> string -> DB * option exn.

Local Abbreviation down :=
  (set_port_status_down plugin_get_port db_add_provisioning_component
     db_update_port_status).

Definition down_reported : event :=
  EvLog INFO "OVN reports status down for port: %s".
Definition port_not_found_logged : event :=
  EvLog DEBUG "Port not found during OVN status down report: %s".

(** The errors of a port that is gone: [n_exc.PortNotFound] and
    [os_db_exc.DBReferenceError]. *)
Definition port_is_gone (e : exn) : Prop :=
  e = DBReferenceError \/ exists port_id, e = PortNotFound port_id.

(** C8: when the port lookup, the block insertion or the status update
    raises [PortNotFound] or [DBReferenceError], [set_port_status_down]
    writes a debug line and returns normally, after the calls made so
    far; any other exception of one of the three calls is raised to the
    caller; and when nothing is raised the block was inserted and then the
    status set to DOWN, for the port that was found. *)
Theorem set_port_status_down_errors id (w : world DB) :
  (forall e,
     plugin_get_port (neutron w) (VStr id) = inl e ->
     (port_is_gone e ->
      down id w =
        (World (neutron w)
           (events w ++ [down_reported; port_not_found_logged]), inr tt)) /\
     (~ port_is_gone e ->
      down id w =
        (World (neutron w) (events w ++ [down_reported]), inl e))) /\
  (forall p db1 r1,
     plugin_get_port (neutron w) (VStr id) = inr p ->
     db_add_provisioning_component (neutron w) (port_id p) = (db1, r1) ->
     (forall e, r1 = Some e ->
        (port_is_gone e ->
         down id w =
           (World db1
              (events w ++ [down_reported;
                            EvAddProvisioningComponent (port_id p);
                            port_not_found_logged]), inr tt)) /\
        (~ port_is_gone e ->
         down id w =
           (World db1
              (events w ++ [down_reported;
                            EvAddProvisioningComponent (port_id p)]),
            inl e))) /\
     (r1 = None ->
      forall db2 r2,
        db_update_port_status db1 (port_id p) PORT_STATUS_DOWN = (db2, r2) ->
        (r2 = None ->
         down id w =
           (World db2
              (events w ++ [down_reported;
                            EvAddProvisioningComponent (port_id p);
                            EvUpdatePortStatus (port_id p) "DOWN"]),
            inr tt)) /\
        (forall e, r2 = Some e ->
           (port_is_gone e ->
            down id w =
              (World db2
                 (events w ++ [down_reported;
                               EvAddProvisioningComponent (port_id p);
                               EvUpdatePortStatus (port_id p) "DOWN";
                               port_not_found_logged]), inr tt)) /\
           (~ port_is_gone e ->
            down id w =
              (World db2
                 (events w ++ [down_reported;
                               EvAddProvisioningComponent (port_id p);
                               EvUpdatePortStatus (port_id p) "DOWN"]),
               inl e))))).
Proof.
  assert (forall e, port_is_gone e -> is_port_gone e = true) as Hgone.
  { by intros e [-> |[port_id ->]]. }
  assert (forall e, ~ port_is_gone e -> is_port_gone e = false) as Hother.
  { intros e Hno. destruct e; try done; exfalso; apply Hno;
      [right; by eexists|by left]. }
  unfold set_port_status_down, try_except, bind, LOG, emit,
    get_port, _insert_port_provisioning_block, add_provisioning_component,
    update_port_status.
  cbn [neutron events]. split.
  - intros e ->. split; intros He.
    + rewrite (Hgone e He). cbn. by rewrite <- app_assoc.
    + by rewrite (Hother e He).
  - intros p db1 r1 -> Hadd. cbn [neutron events]. rewrite Hadd. split.
    + intros e ->. split; intros He.
      * rewrite (Hgone e He). cbn. by rewrite <- !app_assoc.
      * rewrite (Hother e He). cbn. by rewrite <- !app_assoc.
    + intros -> db2 r2 Hupd. cbn [neutron events]. rewrite Hupd. split.
      * intros ->. cbn. by rewrite <- !app_assoc.
      * intros e ->. split; intros He.
        -- rewrite (Hgone e He). cbn. by rewrite <- !app_assoc.
        -- rewrite (Hother e He). cbn. by rewrite <- !app_assoc.
Qed.

End StatusDown.

Example status_down_for_deleted_port :
  set_port_status_down list_get_port list_add_component list_update_status
    "port-gone" (World [port_a] []) =
  (World [port_a] [down_reported; port_not_found_logged], inr tt).
Proof. reflexivity. Qed.

Example status_down_for_existing_port :
  set_port_status_down list_get_port list_add_component list_update_status
    "port-a" (World [set_status port_a "ACTIVE"] []) =
  (World [set_status port_a "DOWN"]
     [down_reported; EvAddProvisioningComponent "port-a";
      EvUpdatePortStatus "port-a" "DOWN"], inr tt).
Proof. reflexivity. Qed.

Lemma set_port_status_down_errors_witness :
  set_port_status_down list_get_port list_add_component list_update_status
    "port-gone" (World [port_a] []) =
  (World [port_a] [down_reported; port_not_found_logged], inr tt).
Proof.
  apply (proj1 (proj1 (set_port_status_down_errors list_get_port
                         list_add_component list_update_status "port-gone"
                         (World [port_a] []))
                  (PortNotFound "port-gone") eq_refl)).
  right. by exists "port-gone".
Defined.

(** ** Binding profiles (C6) *)

Definition sub_interface_params : list (string * option ptype) :=
  [("parent_name", Some string_types); ("tag", Some integer_types)].
Definition vtep_params : list (string * option ptype) :=
  [("vtep-physical-switch", Some string_types);
   ("vtep-logical-switch", Some string_types)].

Lemma size_two_params (k1 k2 : string) (a b : pyval) :
  k1 <> k2 ->
  size (<[k2 := b]> (<[k1 := a]> (∅ : gmap string pyval))) = 2%nat.
Proof.
  intros Hne. rewrite map_size_insert_None.
  - by rewrite map_size_insert_None, map_size_empty.
  - rewrite lookup_insert_ne by done. apply lookup_empty.
Qed.

Lemma size_one_param (k : string) (a : pyval) :
  size (<[k := a]> (∅ : gmap string pyval)) = 1%nat.
Proof. by rewrite map_size_insert_None, map_size_empty. Qed.

(** The loop over the two parameter sets, by the keys the profile has. *)
Lemma select_param_set_table (profile : gmap string pyval) :
  select_param_set profile OVN_PORT_BINDING_PROFILE_PARAMS [] ∅ =
  match profile !! "parent_name", profile !! "tag" with
  | Some a, Some b =>
      if bool_decide (size profile = 2%nat)
      then inr (sub_interface_params,
                <["tag" := b]> (<["parent_name" := a]> ∅))
      else inl (InvalidInput MsgTooManyParameters)
  | None, None =>
      match profile !! "vtep-physical-switch",
            profile !! "vtep-logical-switch" with
      | Some a, Some b =>
          if bool_decide (size profile = 2%nat)
          then inr (vtep_params,
                    <["vtep-logical-switch" := b]>
                      (<["vtep-physical-switch" := a]> ∅))
          else inl (InvalidInput MsgTooManyParameters)
      | None, None => inr (vtep_params, ∅)
      | _, _ =>
          inl (InvalidInput
                 (MsgAllRequired ["vtep-physical-switch";
                                  "vtep-logical-switch"]))
      end
  | _, _ => inl (InvalidInput (MsgAllRequired ["parent_name"; "tag"]))
  end.
Proof.
  unfold OVN_PORT_BINDING_PROFILE_PARAMS.
  cbn [select_param_set collect_params foldl fmap list_fmap fst].
  destruct (profile !! "parent_name") as [a|], (profile !! "tag") as [b|].
  - rewrite size_two_params by done. cbn.
    by destruct (bool_decide (size profile = 2%nat)).
  - by rewrite size_one_param.
  - by rewrite size_one_param.
  - rewrite map_size_empty. cbn [bool_decide decide_rel].
    rewrite bool_decide_eq_true_2 by done.
    destruct (profile !! "vtep-physical-switch") as [a|],
             (profile !! "vtep-logical-switch") as [b|].
    + rewrite size_two_params by done. cbn.
      by destruct (bool_decide (size profile = 2%nat)).
    + by rewrite size_one_param.
    + by rewrite size_one_param.
    + rewrite map_size_empty. by rewrite bool_decide_eq_true_2 by done.
Qed.

Lemma size_three_keys (profile : gmap string pyval) (k1 k2 k3 : string) :
  k1 <> k2 -> k1 <> k3 -> k2 <> k3 ->
  is_Some (profile !! k1) -> is_Some (profile !! k2) ->
  is_Some (profile !! k3) ->
  size profile <> 2%nat.
Proof.
  intros H12 H13 H23 Hk1 Hk2 Hk3.
  assert (({[k1]} ∪ {[k2]} ∪ {[k3]} : gset string) ⊆ dom profile) as Hsub.
  { intros k Hk. apply elem_of_dom. set_solver. }
  apply subseteq_size in Hsub. rewrite size_dom in Hsub.
  rewrite !size_union, !size_singleton in Hsub by set_solver. lia.
Qed.

Section BindingProfile.
Context {DB : Type}.
Variable plugin_get_port : DB -> pyval -> exn + port.
Variable int_of_str : string -> option Z.

Local Abbreviation validate :=
  (validate_and_get_data_from_binding_profile plugin_get_port int_of_str).

(** The keys of the profile that belong to a parameter set. *)
Definition declares (profile : gmap string pyval) (key : string) : Prop :=
  is_Some (profile !! key).

Lemma validate_unfold p profile (w : world DB) :
  binding_profile p = Some profile ->
  (validate p w).2 =
  match select_param_set profile OVN_PORT_BINDING_PROFILE_PARAMS [] ∅ with
  | inl e => inl e
  | inr (param_set, param_dict) =>
      if bool_decide (param_dict = ∅) then inr ∅
      else match check_param_types param_set param_dict with
           | inl e => inl e
           | inr _ =>
               match (if has_key "parent_name" param_set then
                        match param_dict !! "parent_name" with
                        | Some parent =>
                            match plugin_get_port (neutron w) parent with
                            | inl e => inl e
                            | inr _ => inr tt
                            end
                        | None => inl (OtherError "KeyError")
                        end
                      else inr tt) with
               | inl e => inl e
               | inr _ =>
                   if has_key "tag" param_set then
                     match param_dict !! "tag" with
                     | Some v =>
                         match py_int int_of_str v with
                         | inl e => inl e
                         | inr tag =>
                             if bool_decide (tag < 0 \/ tag > 4095)
                             then inl (InvalidInput (MsgTagRange tag))
                             else inr param_dict
                         end
                     | None => inl (OtherError "KeyError")
                     end
                   else inr param_dict
               end
           end
  end.
Proof.
  intros Hprofile. unfold validate_and_get_data_from_binding_profile.
  rewrite Hprofile. unfold bind, lift, get_port, raise, ret.
  destruct (select_param_set _ _ _ _) as [e|[param_set param_dict]]; [done|].
  destruct (bool_decide (param_dict = ∅)); [done|].
  destruct (check_param_types _ _) as [e|[]]; [done|].
  destruct (has_key "parent_name" param_set).
  - destruct (param_dict !! "parent_name") as [parent|]; [|done].
    destruct (plugin_get_port (neutron w) parent) as [e|q]; [done|].
    destruct (has_key "tag" param_set); [|done].
    destruct (param_dict !! "tag") as [v|]; [|done].
    destruct (py_int int_of_str v) as [e|tag]; [done|].
    by destruct (bool_decide _).
  - destruct (has_key "tag" param_set); [|done].
    destruct (param_dict !! "tag") as [v|]; [|done].
    destruct (py_int int_of_str v) as [e|tag]; [done|].
    by destruct (bool_decide _).
Qed.

Lemma sub_interface_dict_nonempty (a b : pyval) :
  bool_decide (<["tag" := b]> (<["parent_name" := a]> ∅)
               = (∅ : gmap string pyval)) = false.
Proof.
  apply bool_decide_eq_false_2. intros H.
  apply (f_equal (fun m => m !! "tag")) in H.
  by rewrite lookup_insert_eq in H.
Qed.

(** A complete sub-interface profile: the type checks, the lookup of the
    parent and the range check of the tag. *)
Lemma validate_sub_interface p profile a b (w : world DB) :
  binding_profile p = Some profile ->
  profile !! "parent_name" = Some a -> profile !! "tag" = Some b ->
  size profile = 2%nat ->
  (validate p w).2 =
  if negb (isinstance a string_types) then
    inl (InvalidInput (MsgInvalidType "parent_name" a))
  else if negb (isinstance b integer_types) then
    inl (InvalidInput (MsgInvalidType "tag" b))
  else match plugin_get_port (neutron w) a with
       | inl e => inl e
       | inr _ =>
           match py_int int_of_str b with
           | inl e => inl e
           | inr tag =>
               if bool_decide (tag < 0 \/ tag > 4095)
               then inl (InvalidInput (MsgTagRange tag))
               else inr (<["tag" := b]> (<["parent_name" := a]> ∅))
           end
       end.
Proof.
  intros Hprofile Ha Hb Hsize.
  rewrite (validate_unfold p profile w Hprofile), select_param_set_table.
  rewrite Ha, Hb, bool_decide_eq_true_2 by done.
  rewrite sub_interface_dict_nonempty.
  unfold sub_interface_params. cbn [check_param_types].
  rewrite lookup_insert_ne, lookup_insert_eq by done.
  destruct (negb (isinstance a string_types)); [done|].
  rewrite lookup_insert_eq.
  destruct (negb (isinstance b integer_types)); [done|].
  change (has_key "parent_name" _) with true.
  change (has_key "tag" _) with true. cbv iota.
  by destruct (plugin_get_port (neutron w) a).
Qed.

(** C6, amended: a binding profile whose tag is an integer outside
    [0, 4095] is rejected (with [InvalidInput], unless the lookup of the
    parent port raised first); tag 4095, like every tag of the range, is
    accepted in a profile of exactly [parent_name] and [tag] whose parent
    port exists; a profile with keys of both parameter sets is rejected
    with [InvalidInput], as too many parameters when it has both
    [parent_name] and [tag] and as an incomplete set otherwise; a profile
    with only part of a parameter set is rejected with [InvalidInput]. *)
Theorem binding_profile_validation p profile (w : world DB) :
  binding_profile p = Some profile ->
  (forall t, profile !! "tag" = Some (VInt t) -> t < 0 \/ 4095 < t ->
     exists e, (validate p w).2 = inl e /\
       ((exists msg, e = InvalidInput msg) \/
        (exists parent, profile !! "parent_name" = Some parent /\
           plugin_get_port (neutron w) parent = inl e))) /\
  (forall parent t q,
     profile = <["tag" := VInt t]> {["parent_name" := VStr parent]} ->
     0 <= t <= 4095 ->
     plugin_get_port (neutron w) (VStr parent) = inr q ->
     (validate p w).2 = inr profile) /\
  (forall k1 k2,
     k1 ∈ sub_interface_params.*1 -> k2 ∈ vtep_params.*1 ->
     declares profile k1 -> declares profile k2 ->
     (validate p w).2 =
     inl (InvalidInput
            match profile !! "parent_name", profile !! "tag" with
            | Some _, Some _ => MsgTooManyParameters
            | _, _ => MsgAllRequired ["parent_name"; "tag"]
            end)) /\
  (forall param_set k1 k2,
     param_set ∈ OVN_PORT_BINDING_PROFILE_PARAMS ->
     k1 ∈ param_set.*1 -> k2 ∈ param_set.*1 ->
     declares profile k1 -> ~ declares profile k2 ->
     exists msg, (validate p w).2 = inl (InvalidInput msg)).
Proof.
  intros Hprofile. split; [|split; [|split]].
  - intros t Htag Hrange.
    destruct (profile !! "parent_name") as [a|] eqn:Ha.
    + destruct (decide (size profile = 2%nat)) as [Hsize|Hsize].
      * rewrite (validate_sub_interface p profile a (VInt t) w) by done.
        destruct (negb (isinstance a string_types)); [eauto|].
        cbn [isinstance negb py_int].
        destruct (plugin_get_port (neutron w) a) as [e|q] eqn:Hget.
        { exists e. split; [done|]. right. by exists a. }
        rewrite bool_decide_eq_true_2 by lia. eauto.
      * rewrite (validate_unfold p profile w Hprofile),
          select_param_set_table, Ha, Htag.
        rewrite bool_decide_eq_false_2 by done. eauto.
    + rewrite (validate_unfold p profile w Hprofile),
        select_param_set_table, Ha, Htag. eauto.
  - intros parent t q Heq Hrange Hget.
    rewrite <- insert_empty in Heq. subst profile.
    rewrite (validate_sub_interface p _ (VStr parent) (VInt t) w Hprofile).
    + cbn [isinstance negb py_int]. rewrite Hget.
      by rewrite bool_decide_eq_false_2 by lia.
    + by rewrite lookup_insert_ne, lookup_insert_eq.
    + by rewrite lookup_insert_eq.
    + by apply size_two_params.
  - intros k1 k2 Hk1 Hk2 Hd1 Hd2.
    rewrite (validate_unfold p profile w Hprofile), select_param_set_table.
    destruct (profile !! "parent_name") as [a|] eqn:Ha,
             (profile !! "tag") as [b|] eqn:Hb; try done.
    + rewrite bool_decide_eq_false_2; [done|].
      apply (size_three_keys profile "parent_name" "tag" k2);
        rewrite ?Ha, ?Hb; try done;
        cbn in Hk2; set_solver.
    + exfalso. cbn in Hk1. unfold declares in Hd1.
      apply elem_of_cons in Hk1 as [->|Hk1]; [by rewrite Ha in Hd1; destruct Hd1|].
      apply elem_of_cons in Hk1 as [->|Hk1]; [by rewrite Hb in Hd1; destruct Hd1|].
      by apply elem_of_nil in Hk1.
  - intros param_set k1 k2 Hset Hk1 Hk2 Hd1 Hd2. unfold declares in *.
    apply eq_None_not_Some in Hd2.
    rewrite (validate_unfold p profile w Hprofile), select_param_set_table.
    assert (param_set = sub_interface_params \/ param_set = vtep_params)
      as [-> | ->].
    { unfold OVN_PORT_BINDING_PROFILE_PARAMS in Hset.
      apply elem_of_cons in Hset as [->|Hset]; [by left|].
      apply elem_of_cons in Hset as [->|Hset]; [by right|].
      by apply elem_of_nil in Hset. }
    + assert (is_Some (profile !! "parent_name") \/
              is_Some (profile !! "tag")) as Hsome.
      { cbn in Hk1.
        apply elem_of_cons in Hk1 as [->|Hk1]; [by left|].
        apply elem_of_cons in Hk1 as [->|Hk1]; [by right|].
        by apply elem_of_nil in Hk1. }
      assert (profile !! "parent_name" = None \/ profile !! "tag" = None)
        as Hnone.
      { cbn in Hk2.
        apply elem_of_cons in Hk2 as [->|Hk2]; [by left|].
        apply elem_of_cons in Hk2 as [->|Hk2]; [by right|].
        by apply elem_of_nil in Hk2. }
      destruct (profile !! "parent_name") as [a|],
               (profile !! "tag") as [b|]; eauto.
      * by destruct Hnone.
      * by destruct Hsome as [[? ?]|[? ?]].
    + assert (is_Some (profile !! "vtep-physical-switch") \/
              is_Some (profile !! "vtep-logical-switch")) as Hsome.
      { cbn in Hk1.
        apply elem_of_cons in Hk1 as [->|Hk1]; [by left|].
        apply elem_of_cons in Hk1 as [->|Hk1]; [by right|].
        by apply elem_of_nil in Hk1. }
      assert (profile !! "vtep-physical-switch" = None \/
              profile !! "vtep-logical-switch" = None) as Hnone.
      { cbn in Hk2.
        apply elem_of_cons in Hk2 as [->|Hk2]; [by left|].
        apply elem_of_cons in Hk2 as [->|Hk2]; [by right|].
        by apply elem_of_nil in Hk2. }
      destruct (profile !! "parent_name") as [a|] eqn:Ha,
               (profile !! "tag") as [b|] eqn:Hb; eauto.
      * rewrite bool_decide_eq_false_2; [eauto|].
        destruct Hsome as [Hs|Hs].
        -- apply (size_three_keys profile "parent_name" "tag"
                    "vtep-physical-switch"); by rewrite ?Ha, ?Hb.
        -- apply (size_three_keys profile "parent_name" "tag"
                    "vtep-logical-switch"); by rewrite ?Ha, ?Hb.
      * destruct (profile !! "vtep-physical-switch") as [c|],
                 (profile !! "vtep-logical-switch") as [d|]; eauto.
        -- by destruct Hnone.
        -- by destruct Hsome as [[? ?]|[? ?]].
Qed.
End BindingProfile.

Definition with_profile (p : port) (profile : gmap string pyval) : port :=
  {| port_id := port_id p; port_name := port_name p;
     network_id := network_id p; mac_address := mac_address p;
     status := status p; vnic_type := vnic_type p;
     fixed_ips := fixed_ips p; security_groups := security_groups p;
     admin_state_up := admin_state_up p; device_owner := device_owner p;
     binding_profile := Some profile; vif_details := vif_details p |}.

Definition sub_interface_profile (tag : Z) : gmap string pyval :=
  <["tag" := VInt tag]> {["parent_name" := VStr "port-a"]}.

Definition mixed_profile : gmap string pyval :=
  <["vtep-physical-switch" := VStr "psw1"]> {["parent_name" := VStr "port-a"]}.

Definition world_with_port_a : world (list port) := World [port_a] [].

Lemma binding_profile_validation_witness :
  (validate_and_get_data_from_binding_profile list_get_port no_int
     (with_profile port_a (sub_interface_profile 4095)) world_with_port_a).2
  = inr (sub_interface_profile 4095) /\
  exists e,
    (validate_and_get_data_from_binding_profile list_get_port no_int
       (with_profile port_a (sub_interface_profile 4096)) world_with_port_a).2
    = inl e.
Proof.
  split.
  - refine (proj1 (proj2
      (binding_profile_validation list_get_port no_int
         (with_profile port_a (sub_interface_profile 4095))
         (sub_interface_profile 4095) world_with_port_a eq_refl))
      "port-a" 4095 port_a eq_refl _ eq_refl).
    lia.
  - destruct (proj1
      (binding_profile_validation list_get_port no_int
         (with_profile port_a (sub_interface_profile 4096))
         (sub_interface_profile 4096) world_with_port_a eq_refl)
      4096 eq_refl) as (e & He & _); [lia|].
    by exists e.
Defined.

(** C6 as stated fails: a profile with [parent_name] and
    [vtep-physical-switch] has keys of both parameter sets, and it is
    rejected because [parent_name] and [tag] are both required, not as too
    many parameters. *)
Lemma mixed_profile_not_too_many :
  declares mixed_profile "parent_name" /\
  declares mixed_profile "vtep-physical-switch" /\
  (validate_and_get_data_from_binding_profile list_get_port no_int
     (with_profile port_a mixed_profile) world_with_port_a).2
  = inl (InvalidInput (MsgAllRequired ["parent_name"; "tag"])) /\
  (validate_and_get_data_from_binding_profile list_get_port no_int
     (with_profile port_a mixed_profile) world_with_port_a).2
  <> inl (InvalidInput MsgTooManyParameters).
Proof.
  assert ((validate_and_get_data_from_binding_profile list_get_port no_int
             (with_profile port_a mixed_profile) world_with_port_a).2
          = inl (InvalidInput (MsgAllRequired ["parent_name"; "tag"]))) as H.
  { vm_compute. reflexivity. }
  split; [by exists (VStr "port-a")|].
  split; [by exists (VStr "psw1")|].
  split; [exact H|]. rewrite H. discriminate.
Qed.

(** ** DHCP options of a port (C4) *)

Section PortDhcpOptions.
Variable DHCPV6_STATELESS_OPT : string.
Variable ip_address_version : string -> Z.
Variable get_lsp_dhcp_opts : port -> Z -> bool * gmap string string.
Variable get_subnets_dhcp_options : list string -> list dhcp_options_row.

Local Abbreviation subnet_row :=
  (_get_subnet_dhcp_options_for_port DHCPV6_STATELESS_OPT
     ip_address_version get_subnets_dhcp_options).
Local Abbreviation port_dhcp :=
  (get_port_dhcp_options DHCPV6_STATELESS_OPT ip_address_version
     get_lsp_dhcp_opts get_subnets_dhcp_options).

(** The subnets of the port's fixed IPs of one IP version. *)
Definition port_subnets (p : port) (version : Z) : list string :=
  map subnet_id
      (List.filter (fun fixed_ip =>
                      ip_address_version (ip_address fixed_ip) =? version)
                   (fixed_ips p)).

(** The subnet-level rows the northbound database has for the port. *)
Definition subnet_rows (p : port) (version : Z) : list dhcp_options_row :=
  get_subnets_dhcp_options (port_subnets p version).

Lemma subnet_row_none p version :
  subnet_row p version = None <-> subnet_rows p version = [].
Proof.
  unfold _get_subnet_dhcp_options_for_port, subnet_rows, port_subnets.
  destruct (get_subnets_dhcp_options _) as [|first rows]; [done|].
  split; [|done].
  destruct (version =? IP_VERSION_6); [|done].
  by destruct (List.find _ _).
Qed.

Lemma subnet_row_some p version row :
  subnet_row p version = Some row -> row ∈ subnet_rows p version.
Proof.
  unfold _get_subnet_dhcp_options_for_port, subnet_rows, port_subnets.
  destruct (get_subnets_dhcp_options _) as [|first rows]; [done|].
  destruct (version =? IP_VERSION_6).
  - destruct (List.find _ _) as [opts|] eqn:Hfind.
    + intros [= <-]. apply find_some in Hfind as [Hin _].
      by apply list_elem_of_In.
    + intros [= <-]. apply elem_of_cons. by left.
  - intros [= <-]. apply elem_of_cons. by left.
Qed.

Lemma subnet_row_same_subnets p1 p2 version :
  port_subnets p1 version = port_subnets p2 version ->
  subnet_row p1 version = subnet_row p2 version.
Proof.
  unfold _get_subnet_dhcp_options_for_port, port_subnets. by intros ->.
Qed.

(** The row that is chosen among the rows found: the first one, but for
    IPv6 the first one that is not marked DHCPv6-stateless when there is
    one. *)
Definition chosen_row (rows : list dhcp_options_row) (version : Z)
    (row : dhcp_options_row) : Prop :=
  exists before after,
    rows = before ++ row :: after /\
    (before = [] \/
     version = IP_VERSION_6 /\
     row_options row !! DHCPV6_STATELESS_OPT <> Some "true" /\
     Forall (fun r => row_options r !! DHCPV6_STATELESS_OPT = Some "true")
            before) /\
    (version = IP_VERSION_6 ->
     row_options row !! DHCPV6_STATELESS_OPT = Some "true" ->
     Forall (fun r => row_options r !! DHCPV6_STATELESS_OPT = Some "true")
            rows).

Lemma find_not_stateless (rows : list dhcp_options_row) :
  match List.find (fun opts =>
          bool_decide (row_options opts !! DHCPV6_STATELESS_OPT
                       <> Some "true")) rows with
  | Some row =>
      exists before after,
        rows = before ++ row :: after /\
        row_options row !! DHCPV6_STATELESS_OPT <> Some "true" /\
        Forall (fun r => row_options r !! DHCPV6_STATELESS_OPT = Some "true")
               before
  | None =>
      Forall (fun r => row_options r !! DHCPV6_STATELESS_OPT = Some "true")
             rows
  end.
Proof.
  induction rows as [|r rows IH]; cbn [List.find]; [done|].
  destruct (bool_decide _) eqn:Hr.
  - apply bool_decide_eq_true_1 in Hr. by exists [], rows.
  - apply bool_decide_eq_false_1 in Hr.
    assert (row_options r !! DHCPV6_STATELESS_OPT = Some "true") as Hr'.
    { destruct (decide (row_options r !! DHCPV6_STATELESS_OPT = Some "true"));
        [done|by destruct Hr]. }
    destruct (List.find _ rows) as [row|].
    + destruct IH as (before & after & -> & Hrow & Hbefore).
      exists (r :: before), after. split; [done|]. split; [done|].
      by constructor.
    + by constructor.
Qed.

(** The lookup returns a row whenever rows are found, and which one. *)
Lemma subnet_row_chosen p version :
  subnet_rows p version <> [] ->
  exists row, subnet_row p version = Some row /\
              chosen_row (subnet_rows p version) version row.
Proof.
  unfold _get_subnet_dhcp_options_for_port, subnet_rows, port_subnets,
    chosen_row.
  destruct (get_subnets_dhcp_options _) as [|first rows] eqn:Hrows; [done|].
  intros _. destruct (Z.eqb_spec version IP_VERSION_6) as [Hv|Hv].
  - pose proof (find_not_stateless (first :: rows)) as Hfind.
    destruct (List.find _ (first :: rows)) as [row|].
    + destruct Hfind as (before & after & Heq & Hrow & Hbefore).
      exists row. split; [done|]. exists before, after.
      split; [done|]. split; [by right|]. by intros _ Hstateless.
    + exists first. split; [done|]. exists [], rows.
      split; [done|]. split; [by left|]. by intros _ _.
  - exists first. split; [done|]. exists [], rows.
    split; [done|]. split; [by left|]. by intros Hv6.
Qed.

(** C4: [get_port_dhcp_options] returns [None] when DHCP is disabled
    for the port at that IP version and when there is no subnet-level
    row for the port's subnets of that version.  Otherwise rows are found
    and one of them is chosen, the first one or, for IPv6, the first one
    that is not stateless: without extra options the result is this row,
    the same one for two such ports with the same subnets; with extra
    options it is a pending command whose options are the row's
    overridden by the port's and which carries the port id. *)
Theorem port_dhcp_options_cases p version disabled extra :
  get_lsp_dhcp_opts p version = (disabled, extra) ->
  (disabled = true -> port_dhcp p version = inr None) /\
  (subnet_rows p version = [] -> port_dhcp p version = inr None) /\
  (disabled = false -> subnet_rows p version <> [] ->
   exists row,
     chosen_row (subnet_rows p version) version row /\
     row ∈ subnet_rows p version /\
     (extra = ∅ ->
      port_dhcp p version = inr (Some (SubnetRow row)) /\
      forall p', get_lsp_dhcp_opts p' version = (false, ∅) ->
                 port_subnets p' version = port_subnets p version ->
                 port_dhcp p' version = inr (Some (SubnetRow row))) /\
     (extra <> ∅ ->
      forall subnet,
        row_external_ids row !! "subnet_id" = Some subnet ->
        exists options external_ids,
          port_dhcp p version =
            inr (Some (PendingCmd
                   {| cmd_subnet := subnet; cmd_port := Some (port_id p);
                      cmd_cidr := row_cidr row; cmd_options := options;
                      cmd_external_ids := external_ids |})) /\
          (forall key, options !! key =
                       match extra !! key with
                       | Some value => Some value
                       | None => row_options row !! key
                       end) /\
          external_ids = <["port_id" := port_id p]> (row_external_ids row))).
Proof.
  intros Hlsp. unfold get_port_dhcp_options. rewrite Hlsp.
  split; [by intros ->|]. split.
  - intros Hrows. apply subnet_row_none in Hrows. rewrite Hrows.
    by destruct disabled.
  - intros -> Hrows.
    destruct (subnet_row_chosen p version Hrows) as (row & Hrow & Hchosen).
    exists row. split; [done|]. split; [by apply subnet_row_some|].
    rewrite Hrow. split.
    + intros ->. split; [done|].
      intros p' Hlsp' Hsub. rewrite Hlsp'.
      by rewrite (subnet_row_same_subnets p' p version Hsub), Hrow.
    + intros Hextra subnet Hsubnet.
      rewrite bool_decide_eq_false_2 by done.
      rewrite lookup_insert_ne by done. rewrite Hsubnet.
      eexists _, _. split; [done|]. split; [|done].
      intros key. rewrite lookup_union.
      destruct (extra !! key), (row_options row !! key); done.
Qed.

End PortDhcpOptions.

Definition with_id (p : port) (id : string) : port :=
  {| port_id := id; port_name := port_name p;
     network_id := network_id p; mac_address := mac_address p;
     status := status p; vnic_type := vnic_type p;
     fixed_ips := fixed_ips p; security_groups := security_groups p;
     admin_state_up := admin_state_up p; device_owner := device_owner p;
     binding_profile := binding_profile p; vif_details := vif_details p |}.

Definition port_b : port := with_id port_a "port-b".
Definition port_c : port := with_id port_a "port-c".

Definition subnet_1_row : dhcp_options_row :=
  {| row_uuid := "uuid-1"; row_cidr := "10.0.0.0/24";
     row_options := {["router" := "10.0.0.1"]};
     row_external_ids := {["subnet_id" := "subnet-1"]} |}.

(** A northbound database with one row, for subnet-1; port-c alone has an
    extra option. *)
Definition rows_of_subnet_1 (subnets : list string) : list dhcp_options_row :=
  if str_in "subnet-1" subnets then [subnet_1_row] else [].

Definition extra_opts_of_port_c (p : port) (version : Z)
    : bool * gmap string string :=
  (false, if String.eqb (port_id p) "port-c" then {["mtu" := "9000"]} else ∅).

Lemma rows_of_port_a_chosen row :
  chosen_row "dhcpv6_stateless" (rows_of_subnet_1 ["subnet-1"]) 4 row ->
  row = subnet_1_row.
Proof.
  intros (before & after & Heq & [-> |(Hv & _)] & _); [|done].
  by injection Heq as <- _.
Qed.

Lemma port_dhcp_options_cases_witness :
  get_port_dhcp_options "dhcpv6_stateless" (fun _ => 4) extra_opts_of_port_c
    rows_of_subnet_1 port_a 4 = inr (Some (SubnetRow subnet_1_row)) /\
  get_port_dhcp_options "dhcpv6_stateless" (fun _ => 4) extra_opts_of_port_c
    rows_of_subnet_1 port_b 4 = inr (Some (SubnetRow subnet_1_row)) /\
  exists options external_ids,
    get_port_dhcp_options "dhcpv6_stateless" (fun _ => 4) extra_opts_of_port_c
      rows_of_subnet_1 port_c 4 =
    inr (Some (PendingCmd
           {| cmd_subnet := "subnet-1"; cmd_port := Some "port-c";
              cmd_cidr := "10.0.0.0/24"; cmd_options := options;
              cmd_external_ids := external_ids |})) /\
    options !! "mtu" = Some "9000" /\
    external_ids !! "port_id" = Some "port-c".
Proof.
  destruct (proj2 (proj2
              (port_dhcp_options_cases "dhcpv6_stateless" (fun _ => 4)
                 extra_opts_of_port_c rows_of_subnet_1 port_a 4 false ∅
                 eq_refl)) eq_refl)
    as (row & Hchosen & _ & Hshared & _); [discriminate|].
  apply rows_of_port_a_chosen in Hchosen. subst row.
  destruct (Hshared eq_refl) as (Ha & Hb).
  split; [exact Ha|]. split; [exact (Hb port_b eq_refl eq_refl)|].
  destruct (proj2 (proj2
              (port_dhcp_options_cases "dhcpv6_stateless" (fun _ => 4)
                 extra_opts_of_port_c rows_of_subnet_1 port_c 4 false
                 {["mtu" := "9000"]} eq_refl)) eq_refl)
    as (row & Hchosen & _ & _ & Hown); [discriminate|].
  apply rows_of_port_a_chosen in Hchosen. subst row.
  destruct (Hown ltac:(discriminate) "subnet-1" eq_refl)
    as (options & external_ids & Hcmd & Hopts & ->).
  exists options, (<["port_id" := "port-c"]> (row_external_ids subnet_1_row)).
  split; [exact Hcmd|]. split; [|done].
  by rewrite Hopts.
Defined.

(** ** Address sets on port update (C2) *)

Lemma collect_ok {A} (steps : list (exn + list A)) :
  (forall st, st ∈ steps -> exists l, st = inr l) ->
  exists cmds, collect steps = inr cmds /\
    forall c, c ∈ cmds <-> exists l, inr l ∈ steps /\ c ∈ l.
Proof.
  induction steps as [|st steps IH]; intros Hok.
  - exists []. split; [done|]. intros c. split.
    + intros H. by apply elem_of_nil in H.
    + intros (l & H & _). by apply elem_of_nil in H.
  - destruct (Hok st) as [l ->]; [by apply elem_of_cons; left|].
    destruct IH as (cmds & Hcmds & Hmem).
    { intros st Hst. apply Hok, elem_of_cons. by right. }
    exists (l ++ cmds). cbn. rewrite Hcmds. split; [done|].
    intros c. rewrite elem_of_app, Hmem. split.
    + intros [Hc|(l' & Hl' & Hc)].
      * exists l. split; [apply elem_of_cons; by left|done].
      * exists l'. split; [apply elem_of_cons; by right|done].
    + intros (l' & Hl' & Hc). apply elem_of_cons in Hl' as [[= ->]|Hl'].
      * by left.
      * right. by exists l'.
Qed.

Definition is_address_set_update (c : nb_command) : bool :=
  match c with UpdateAddrSetCommand _ _ _ _ => true | _ => false end.

Section AddressSets.
Variable ovn_addrset_name : string -> string -> string.
Variable get_lsp_security_groups : port -> list string.
Variable acl_port_ips : port -> gmap string (list string).
Variable add_acls : port -> list acl.
Variable get_router_port_options : string -> gmap string string.
Variable OVN_PORT_NAME_EXT_ID_KEY : string.
Variables DEVICE_OWNER_ROUTER_INTF DEVICE_OWNER_ROUTER_GW : string.

Local Abbreviation update_port :=
  (_update_port_in_ovn ovn_addrset_name get_lsp_security_groups
     acl_port_ips add_acls get_router_port_options
     OVN_PORT_NAME_EXT_ID_KEY DEVICE_OWNER_ROUTER_INTF
     DEVICE_OWNER_ROUTER_GW).

Lemma elem_of_address_set_updates sg_ids addresses mk c :
  c ∈ address_set_updates ovn_addrset_name sg_ids addresses mk <->
  exists sg_id ip_version addrs,
    sg_id ∈ sg_ids /\ addresses !! ip_version = Some addrs /\
    addrs <> [] /\ c = mk (ovn_addrset_name sg_id ip_version) addrs.
Proof.
  unfold address_set_updates.
  rewrite list_elem_of_In, in_flat_map. split.
  - intros (sg_id & Hsg & Hc). apply in_flat_map in Hc as ([v addrs] & Hv & Hc).
    apply list_elem_of_In, elem_of_map_to_list in Hv.
    destruct addrs as [|a addrs]; [done|]. cbn in Hc.
    destruct Hc as [<-|[]].
    exists sg_id, v, (a :: addrs). by rewrite list_elem_of_In.
  - intros (sg_id & v & addrs & Hsg & Hv & Hne & ->).
    exists sg_id. split; [by apply list_elem_of_In|].
    apply in_flat_map. exists (v, addrs). split.
    + by apply list_elem_of_In, elem_of_map_to_list.
    + destruct addrs; [done|]. by left.
Qed.

Lemma dhcp_column_no_address_set o c :
  c ∈ (dhcp_column o).2 -> is_address_set_update c = false.
Proof.
  destruct o as [[row|cmd]|]; cbn; intros Hc.
  - by apply elem_of_nil in Hc.
  - by apply list_elem_of_singleton in Hc as ->.
  - by apply elem_of_nil in Hc.
Qed.

(** The last loop, when the old dictionary has every key of the new. *)
Lemma unchanged_group_updates_ok sg_ids addresses addresses_old :
  (forall v, is_Some (addresses !! v) -> is_Some (addresses_old !! v)) ->
  exists cmds,
    unchanged_group_updates ovn_addrset_name sg_ids addresses addresses_old
      = inr cmds /\
    forall c, c ∈ cmds <->
      exists sg_id v new old,
        sg_id ∈ sg_ids /\ addresses !! v = Some new /\
        addresses_old !! v = Some old /\
        let added : gset string := list_to_set new ∖ list_to_set old in
        let removed : gset string := list_to_set old ∖ list_to_set new in
        (added <> ∅ \/ removed <> ∅) /\
        c = UpdateAddrSetCommand (ovn_addrset_name sg_id v)
              (set_or_None added) (set_or_None removed) None.
Proof.
  intros Hkeys. unfold unchanged_group_updates.
  match goal with |- context [collect ?s] => set (steps := s) end.
  assert (forall st, st ∈ steps <->
            exists sg_id v new, sg_id ∈ sg_ids /\ addresses !! v = Some new /\
              st = match addresses_old !! v with
                   | None => inl (OtherError "KeyError")
                   | Some old =>
                       let added : gset string :=
                         list_to_set new ∖ list_to_set old in
                       let removed : gset string :=
                         list_to_set old ∖ list_to_set new in
                       if bool_decide (set_or_None added <> None \/
                                       set_or_None removed <> None)
                       then inr [UpdateAddrSetCommand
                                   (ovn_addrset_name sg_id v)
                                   (set_or_None added) (set_or_None removed)
                                   None]
                       else inr []
                   end) as Hsteps.
  { intros st. unfold steps. rewrite list_elem_of_In, in_flat_map. split.
    - intros (sg_id & Hsg & Hst). apply in_map_iff in Hst as ([v new] & <- & Hv).
      apply list_elem_of_In, elem_of_map_to_list in Hv.
      exists sg_id, v, new. by rewrite list_elem_of_In.
    - intros (sg_id & v & new & Hsg & Hv & ->).
      exists sg_id. split; [by apply list_elem_of_In|].
      apply in_map_iff. exists (v, new). split; [done|].
      by apply list_elem_of_In, elem_of_map_to_list. }
  assert (forall s : gset string, set_or_None s <> None <-> s <> ∅) as Hset.
  { intros s. unfold set_or_None. destruct (decide (s = ∅)) as [->|Hs].
    - by rewrite bool_decide_eq_true_2.
    - by rewrite bool_decide_eq_false_2. }
  destruct (collect_ok steps) as (cmds & Hcmds & Hmem).
  { intros st (sg_id & v & new & Hsg & Hv & ->)%Hsteps.
    destruct (Hkeys v) as [old ->]; [by eexists|].
    cbv zeta. destruct (bool_decide _); eauto. }
  exists cmds. split; [done|]. intros c. rewrite Hmem. split.
  - intros (l & (sg_id & v & new & Hsg & Hv & Hl)%Hsteps & Hc).
    destruct (Hkeys v) as [old Hold]; [by eexists|].
    rewrite Hold in Hl. cbv zeta in Hl.
    exists sg_id, v, new, old. 
    destruct (bool_decide _) eqn:Hdec; injection Hl as ->.
    + apply bool_decide_eq_true_1 in Hdec. rewrite !Hset in Hdec.
      apply list_elem_of_singleton in Hc as ->. done.
    + by apply elem_of_nil in Hc.
  - intros (sg_id & v & new & old & Hsg & Hv & Hold & Hdelta & ->).
    eexists. split; [|by apply list_elem_of_singleton].
    apply Hsteps. exists sg_id, v, new. split; [done|]. split; [done|].
    rewrite Hold. cbv zeta.
    rewrite bool_decide_eq_true_2; [done|]. by rewrite !Hset.
Qed.

Lemma addrs_elems_set_or_None (s : gset string) :
  addrs_elems (set_or_None s) = s.
Proof.
  unfold set_or_None. destruct (decide (s = ∅)) as [->|Hs].
  - by rewrite bool_decide_eq_true_2.
  - by rewrite bool_decide_eq_false_2.
Qed.

Lemma nonempty_or {A} (l1 l2 : list A) :
  l1 <> [] \/ l2 <> [] -> nonempty l1 || nonempty l2 = true.
Proof. destruct l1, l2; cbn; intros [?|?]; done. Qed.

(** C2: when the port keeps its set of security groups and its fixed IPs
    changed, the transaction of [_update_port_in_ovn] has, for every
    group and IP version with a non-empty delta, the update of that
    address set that adds the new addresses that are not old and removes
    the old ones that are not new; and every address-set update of the
    transaction is one of these: it names a set of a group the port is
    in, and its two deltas are not both empty. *)
Theorem unchanged_groups_get_exact_deltas original_port port info :
  (list_to_set (get_lsp_security_groups original_port) : gset string)
    = list_to_set (get_lsp_security_groups port) ->
  fixed_ips original_port <> fixed_ips port ->
  fixed_ips port <> [] \/ fixed_ips original_port <> [] ->
  (forall v, is_Some (acl_port_ips port !! v) ->
             is_Some (acl_port_ips original_port !! v)) ->
  exists txn,
    update_port original_port port info = inr txn /\
    (forall sg_id v new old,
       sg_id ∈ get_lsp_security_groups port ->
       acl_port_ips port !! v = Some new ->
       acl_port_ips original_port !! v = Some old ->
       let added : gset string := list_to_set new ∖ list_to_set old in
       let removed : gset string := list_to_set old ∖ list_to_set new in
       added <> ∅ \/ removed <> ∅ ->
       UpdateAddrSetCommand (ovn_addrset_name sg_id v)
         (set_or_None added) (set_or_None removed) None ∈ txn) /\
    (forall name addrs_add addrs_remove if_exists,
       UpdateAddrSetCommand name addrs_add addrs_remove if_exists ∈ txn ->
       exists sg_id v new old,
         sg_id ∈ get_lsp_security_groups port /\
         sg_id ∈ get_lsp_security_groups original_port /\
         name = ovn_addrset_name sg_id v /\
         acl_port_ips port !! v = Some new /\
         acl_port_ips original_port !! v = Some old /\
         addrs_elems addrs_add = list_to_set new ∖ list_to_set old /\
         addrs_elems addrs_remove = list_to_set old ∖ list_to_set new /\
         (addrs_elems addrs_add <> ∅ \/ addrs_elems addrs_remove <> ∅)).
Proof.
  intros Hsg Hfix Hne Hkeys. unfold _update_port_in_ovn.
  destruct (dhcp_column (info_dhcpv4_options info)) as [ref4 txn4] eqn:H4.
  destruct (dhcp_column (info_dhcpv6_options info)) as [ref6 txn6] eqn:H6.
  rewrite Hsg.
  set (groups := list_to_set (get_lsp_security_groups port) : gset string).
  assert (groups ∖ groups = ∅) as -> by set_solver.
  assert (groups ∩ groups = groups) as -> by set_solver.
  rewrite elements_empty.
  rewrite (bool_decide_eq_false_2 _ Hfix), (nonempty_or _ _ Hne).
  cbn [negb orb address_set_updates flat_map app].
  rewrite orb_true_r. cbn [app].
  destruct (unchanged_group_updates_ok (elements groups)
              (acl_port_ips port) (acl_port_ips original_port) Hkeys)
    as (cmds & -> & Hmem).
  eexists. split; [done|]. split.
  - intros sg_id v new old Hin Hnew Hold Hdelta.
    apply elem_of_app. right. apply Hmem.
    exists sg_id, v, new, old.
    rewrite elem_of_elements. unfold groups.
    by rewrite elem_of_list_to_set.
  - intros name addrs_add addrs_remove if_exists Hin.
    rewrite !elem_of_app in Hin.
    destruct Hin as [[Hin|[Hin|Hin]]|Hin].
    + pose proof (dhcp_column_no_address_set (info_dhcpv4_options info))
        as Hno. rewrite H4 in Hno. by apply Hno in Hin.
    + pose proof (dhcp_column_no_address_set (info_dhcpv6_options info))
        as Hno. rewrite H6 in Hno. by apply Hno in Hin.
    + apply elem_of_cons in Hin as [Hin|Hin]; [done|].
      apply elem_of_cons in Hin as [Hin|Hin]; [done|].
      by apply elem_of_nil in Hin.
    + apply Hmem in Hin
        as (sg_id & v & new & old & Hsg_in & Hnew & Hold & Hdelta & Heq).
      injection Heq as -> -> -> ->.
      apply elem_of_elements in Hsg_in. unfold groups in Hsg_in.
      exists sg_id, v, new, old.
      rewrite !addrs_elems_set_or_None.
      split; [by apply elem_of_list_to_set in Hsg_in|].
      split; [rewrite <- Hsg in Hsg_in; by apply elem_of_list_to_set in Hsg_in|].
      done.
Qed.
End AddressSets.

(** ** Address sets on port creation (C9) *)

(** A command that removes no address from any address set. *)
Definition only_adds (c : nb_command) : Prop :=
  match c with
  | UpdateAddrSetCommand _ _ addrs_remove _ => addrs_remove = None
  | _ => True
  end.

Section CommitFacts.
Context {Store : Type}.
Variable run : nb_command -> Store -> exn + Store.
Variable has_address_set : Store -> string -> bool.

(** A batch with an [if_exists=False] update of an address set that the
    store does not have fails as a whole, on a client for which such an
    update fails and whose port commands create no address set. *)
Lemma commit_fails_on_absent_set cmds (s : Store) name addrs_add addrs_remove :
  (forall name addrs_add addrs_remove s,
     has_address_set s name = false ->
     exists e,
       run (UpdateAddrSetCommand name addrs_add addrs_remove (Some false)) s
       = inl e) ->
  (forall c s s' name,
     run c s = inr s' -> has_address_set s name = false ->
     has_address_set s' name = false) ->
  UpdateAddrSetCommand name addrs_add addrs_remove (Some false) ∈ cmds ->
  has_address_set s name = false ->
  exists e, commit run cmds s = inl e.
Proof.
  intros Hneeds Hnone. revert s.
  induction cmds as [|c cmds IH]; intros s Hin Hname.
  - by apply elem_of_nil in Hin.
  - cbn. destruct (run c s) as [e|s1] eqn:Hrun; [eauto|].
    apply elem_of_cons in Hin as [<-|Hin].
    + destruct (Hneeds name addrs_add addrs_remove s Hname) as [e He].
      congruence.
    + apply IH; [done|]. by apply (Hnone c s s1).
Qed.

End CommitFacts.

Section CreatePort.
Variable ovn_name : string -> string.
Variable ovn_addrset_name : string -> string -> string.
Variable get_lsp_security_groups : port -> list string.
Variable acl_port_ips : port -> gmap string (list string).
Variable add_acls : port -> list acl.
Variable OVN_PORT_NAME_EXT_ID_KEY : string.
Variable check_for_row_by_value_and_retry :
  string -> string -> string -> option exn.

Local Abbreviation create_port :=
  (create_port_in_ovn ovn_name ovn_addrset_name get_lsp_security_groups
     acl_port_ips add_acls OVN_PORT_NAME_EXT_ID_KEY
     check_for_row_by_value_and_retry).

(** The address-set updates of the transaction of [create_port_in_ovn]. *)
Lemma create_port_address_sets p info txn c :
  fixed_ips p <> [] -> get_lsp_security_groups p <> [] ->
  create_port p info = inr txn ->
  is_address_set_update c = true ->
  (c ∈ txn <->
   exists sg_id v addrs,
     sg_id ∈ get_lsp_security_groups p /\
     acl_port_ips p !! v = Some addrs /\ addrs <> [] /\
     c = UpdateAddrSetCommand (ovn_addrset_name sg_id v)
           (Some (AList addrs)) None (Some false)).
Proof.
  intros Hips Hgroups. unfold create_port_in_ovn.
  destruct (check_for_row_by_value_and_retry _ _ _); [done|].
  destruct (dhcp_column (info_dhcpv4_options info)) as [ref4 txn4] eqn:H4.
  destruct (dhcp_column (info_dhcpv6_options info)) as [ref6 txn6] eqn:H6.
  assert (nonempty (fixed_ips p) && nonempty (get_lsp_security_groups p)
          = true) as ->.
  { by destruct (fixed_ips p), (get_lsp_security_groups p). }
  intros [= <-] Hc.
  rewrite !elem_of_app, elem_of_cons, elem_of_app. split.
  2:{ intros Hex. do 4 right.
      apply elem_of_address_set_updates. exact Hex. }
  intros [Hin|[Hin|[Hin|[Hin|Hin]]]].
  5:{ apply elem_of_address_set_updates in Hin. exact Hin. }
  all: exfalso.
  - pose proof (dhcp_column_no_address_set (info_dhcpv4_options info)) as Hno.
    rewrite H4 in Hno. apply Hno in Hin. congruence.
  - pose proof (dhcp_column_no_address_set (info_dhcpv6_options info)) as Hno.
    rewrite H6 in Hno. apply Hno in Hin. congruence.
  - by subst c.
  - apply list_elem_of_fmap in Hin as (a & -> & _). done.
Qed.

Lemma create_port_only_adds p info txn :
  create_port p info = inr txn -> Forall only_adds txn.
Proof.
  unfold create_port_in_ovn.
  destruct (check_for_row_by_value_and_retry _ _ _); [done|].
  destruct (dhcp_column (info_dhcpv4_options info)) as [ref4 txn4] eqn:H4.
  destruct (dhcp_column (info_dhcpv6_options info)) as [ref6 txn6] eqn:H6.
  intros [= <-]. apply Forall_forall. intros c Hin.
  rewrite !elem_of_app, elem_of_cons, elem_of_app in Hin.
  destruct Hin as [Hin|[Hin|[Hin|[Hin|Hin]]]].
  - pose proof (dhcp_column_no_address_set (info_dhcpv4_options info)) as Hno.
    rewrite H4 in Hno. apply Hno in Hin. by destruct c.
  - pose proof (dhcp_column_no_address_set (info_dhcpv6_options info)) as Hno.
    rewrite H6 in Hno. apply Hno in Hin. by destruct c.
  - by subst c.
  - by apply list_elem_of_fmap in Hin as (a & -> & _).
  - destruct (nonempty (fixed_ips p) && nonempty (get_lsp_security_groups p)).
    + by apply elem_of_address_set_updates
        in Hin as (sg_id & v & addrs & _ & _ & _ & ->).
    + by apply elem_of_nil in Hin.
Qed.

End CreatePort.

(** *** A small deployment for the examples *)

Definition example_addrset_name (sg_id ip_version : string) : string :=
  "as_" +:+ ip_version +:+ "_" +:+ sg_id.

Definition example_ovn_name (id : string) : string := "neutron-" +:+ id.

Definition example_port_ips (p : port) : gmap string (list string) :=
  <["ip6" := []]> {["ip4" := map ip_address (fixed_ips p)]}.

Definition no_acls (p : port) : list acl := [].
Definition no_router_options (id : string) : gmap string string := ∅.
Definition row_is_there (table column value : string) : option exn := None.

Definition example_info : OvnPortInfo :=
  {| info_type := ""; info_options := ∅;
     info_addresses := ["fa:16:3e:00:00:0a 10.0.0.5"];
     info_port_security := ["fa:16:3e:00:00:0a 10.0.0.5"];
     info_parent_name := None; info_tag := None;
     info_dhcpv4_options := Some (SubnetRow subnet_1_row);
     info_dhcpv6_options := None |}.

Definition with_fixed_ips (p : port) (ips : list fixed_ip) : port :=
  {| port_id := port_id p; port_name := port_name p;
     network_id := network_id p; mac_address := mac_address p;
     status := status p; vnic_type := vnic_type p;
     fixed_ips := ips; security_groups := security_groups p;
     admin_state_up := admin_state_up p; device_owner := device_owner p;
     binding_profile := binding_profile p; vif_details := vif_details p |}.

Definition port_a_moved : port :=
  with_fixed_ips port_a
    [{| subnet_id := "subnet-1"; ip_address := "10.0.0.6" |}].

Lemma example_port_ips_keys p q v :
  is_Some (example_port_ips p !! v) -> is_Some (example_port_ips q !! v).
Proof.
  unfold example_port_ips. intros H.
  destruct (decide (v = "ip6")) as [->|Hv6].
  { eexists. apply lookup_insert_eq. }
  rewrite lookup_insert_ne in * by done.
  destruct (decide (v = "ip4")) as [->|Hv4].
  { eexists. apply lookup_singleton_eq. }
  rewrite lookup_singleton_ne in H by done. by destruct H.
Qed.

Lemma unchanged_groups_get_exact_deltas_witness :
  exists txn,
    _update_port_in_ovn example_addrset_name security_groups example_port_ips
      no_acls no_router_options "neutron:port_name" "network:router_interface"
      "network:router_gateway" port_a port_a_moved example_info = inr txn /\
    UpdateAddrSetCommand "as_ip4_sg-a"
      (set_or_None (list_to_set ["10.0.0.6"] ∖ list_to_set ["10.0.0.5"]))
      (set_or_None (list_to_set ["10.0.0.5"] ∖ list_to_set ["10.0.0.6"]))
      None ∈ txn.
Proof.
  destruct (unchanged_groups_get_exact_deltas example_addrset_name
              security_groups example_port_ips no_acls no_router_options
              "neutron:port_name" "network:router_interface"
              "network:router_gateway" port_a port_a_moved example_info)
    as (txn & Htxn & Hall & _).
  - reflexivity.
  - discriminate.
  - left. discriminate.
  - intros v. apply example_port_ips_keys.
  - exists txn. split; [exact Htxn|].
    apply (Hall "sg-a" "ip4" ["10.0.0.6"] ["10.0.0.5"]).
    + apply elem_of_cons. by left.
    + reflexivity.
    + reflexivity.
    + left. intros Hempty.
      assert ("10.0.0.6" ∈ (∅ : gset string)) as Hin; [|by apply elem_of_empty in Hin].
      rewrite <- Hempty. apply elem_of_difference. split.
      * apply elem_of_list_to_set, elem_of_cons. by left.
      * intros Hin. apply elem_of_list_to_set in Hin.
        apply elem_of_cons in Hin as [Hin|Hin]; [done|].
        by apply elem_of_nil in Hin.
Defined.

(** ** Port binding (C1) *)

Lemma bound_segments_app evs1 evs2 :
  bound_segments (evs1 ++ evs2) = bound_segments evs1 ++ bound_segments evs2.
Proof. unfold bound_segments. apply flat_map_app. Qed.

Section Binding.
Context {DB : Type}.
Variable get_chassis_data_for_ml2_bind_port : string -> exn + chassis_data.
Variable sg_enabled : bool.
Variables CHASSIS_DATAPATH_NETDEV CHASSIS_IFACE_DPDKVHOSTUSER : string.
Variable ovn_vhost_sock_dir : string.
Variable ovn_vhu_sockpath : string -> string -> string.

Local Abbreviation bind_one :=
  (bind_segment (DB:=DB) sg_enabled CHASSIS_DATAPATH_NETDEV
     CHASSIS_IFACE_DPDKVHOSTUSER ovn_vhost_sock_dir ovn_vhu_sockpath).
Local Abbreviation bind_all :=
  (bind_segments (DB:=DB) sg_enabled CHASSIS_DATAPATH_NETDEV
     CHASSIS_IFACE_DPDKVHOSTUSER ovn_vhost_sock_dir ovn_vhu_sockpath).
Local Abbreviation bind_on_host :=
  (bind_port (DB:=DB) get_chassis_data_for_ml2_bind_port sg_enabled
     CHASSIS_DATAPATH_NETDEV CHASSIS_IFACE_DPDKVHOSTUSER ovn_vhost_sock_dir
     ovn_vhu_sockpath).

(** The segments the loop does not refuse. *)
Definition eligible (physnets : list string) (segments : list segment)
    : list segment :=
  List.filter (fun s => negb (refused physnets s)) segments.

Lemma bind_segment_events dp ifaces physnets current s (w : world DB) :
  exists current' evs,
    bind_one dp ifaces physnets current s w =
      (World (neutron w) (events w ++ evs), inr current') /\
    bound_segments evs = if refused physnets s then [] else [seg_id s].
Proof.
  unfold bind_segment, bind, LOG, emit, ret. cbn [neutron events].
  destruct (negb (_is_network_type_supported (network_type s)));
    cbn [neutron events];
    destruct (refused physnets s); cbn [neutron events];
    try destruct (_ && _); cbn [neutron events];
    rewrite <- ?app_assoc; eexists _, _; (split; [reflexivity|done]).
Qed.

Lemma bind_segments_events dp ifaces physnets current segments (w : world DB) :
  exists current' evs,
    bind_all dp ifaces physnets current segments w =
      (World (neutron w) (events w ++ evs), inr current') /\
    bound_segments evs = map seg_id (eligible physnets segments).
Proof.
  revert current w. induction segments as [|s segments IH]; intros current w.
  - exists current, []. cbn. rewrite app_nil_r. by destruct w.
  - cbn [bind_segments]. unfold bind at 1.
    destruct (bind_segment_events dp ifaces physnets current s w)
      as (current1 & evs1 & -> & Hevs1).
    destruct (IH current1 (World (neutron w) (events w ++ evs1)))
      as (current2 & evs2 & -> & Hevs2).
    exists current2, (evs1 ++ evs2). cbn [neutron events].
    rewrite app_assoc. split; [done|].
    rewrite bound_segments_app, Hevs1, Hevs2. unfold eligible. cbn [List.filter].
    by destruct (refused physnets s).
Qed.

(** With a supported vnic type and a chassis for the host, [bind_port]
    raises nothing and calls [context.set_binding] once for every
    segment it does not refuse, in the order of [segments_to_bind]. *)
Lemma bind_port_binds_every_eligible_segment current host segments chassis
    (w : world DB) :
  default VNIC_NORMAL (vnic_type current) = VNIC_NORMAL ->
  get_chassis_data_for_ml2_bind_port host = inr chassis ->
  exists current' evs,
    bind_on_host current host segments w =
      (World (neutron w) (events w ++ evs), inr current') /\
    bound_segments evs =
      map seg_id (eligible (chassis_physnets chassis) segments).
Proof.
  intros Hvnic Hchassis. unfold bind_port. rewrite Hvnic, Hchassis.
  unfold supported_vnic_types. cbn [str_in existsb].
rewrite String.eqb_refl. cbn [orb negb].
  apply bind_segments_events.
Qed.
End Binding.

Definition geneve_segment : segment :=
  {| seg_id := "seg-geneve"; network_type := "geneve";
     segmentation_id := Some 42; physical_network := None |}.

(** A host whose chassis maps physnet1 only, with the kernel datapath. *)
Definition chassis_of_host_1 (host : string) : exn + chassis_data :=
  if String.eqb host "host-1" then
    inr {| datapath_type := "system"; iface_types := None;
           chassis_physnets := ["physnet1"] |}
  else inl RuntimeError.

Definition example_sockpath (dir id : string) : string :=
  dir +:+ "/vhu" +:+ id.

Definition vlan_segment_elsewhere : segment :=
  {| seg_id := "seg-vlan-2"; network_type := "vlan";
     segmentation_id := Some 200; physical_network := Some "physnet2" |}.

(** C1: [bind_port] at a port with two eligible segments, a geneve one
    followed by a vlan one on a physical network of the chassis: the loop
    has no [break], so [context.set_binding] is called for the first
    eligible segment and then again for the second. *)
Theorem bind_port_binds_later_segments_too :
  let run :=
    bind_port chassis_of_host_1 true "netdev" "dpdkvhostuser"
      "/var/run/openvswitch" example_sockpath port_a "host-1"
      [geneve_segment; vlan_segment] empty_world in
  run.2 = inr port_a /\
  List.filter (fun ev => negb (is_log ev)) (events run.1) =
    [EvSetBinding "seg-geneve" "ovs" {["port_filter" := VBool true]};
     EvSetBinding "seg-vlan" "ovs" {["port_filter" := VBool true]}] /\
  bound_segments (events run.1) = ["seg-geneve"; "seg-vlan"].
Proof. vm_compute. done. Qed.

(** Where no segment is eligible nothing is bound and nothing is raised. *)
Example bind_port_without_eligible_segment :
  let run :=
    bind_port chassis_of_host_1 true "netdev" "dpdkvhostuser"
      "/var/run/openvswitch" example_sockpath port_a "host-1"
      [vlan_segment_elsewhere] empty_world in
  run.2 = inr port_a /\ bound_segments (events run.1) = [].
Proof. vm_compute. done. Qed.

Example split_iface_types :
  split "," "dpdk,dpdkvhostuser" = ["dpdk"; "dpdkvhostuser"].
Proof. reflexivity. Qed.

(** A chassis with the userspace datapath and vhost-user interfaces. *)
Definition chassis_of_host_2 (host : string) : exn + chassis_data :=
  if String.eqb host "host-2" then
    inr {| datapath_type := "netdev";
           iface_types := Some "dpdk,dpdkvhostuser";
           chassis_physnets := [] |}
  else inl RuntimeError.

Example bind_port_vhost_user :
  let run :=
    bind_port chassis_of_host_2 true "netdev" "dpdkvhostuser"
      "/var/run/openvswitch" example_sockpath port_a "host-2"
      [geneve_segment] empty_world in
  List.filter (fun ev => negb (is_log ev)) (events run.1) =
    [EvSetBinding "seg-geneve" "vhostuser"
       (<["vhostuser_socket" := VStr "/var/run/openvswitch/vhuport-a"]>
          (<["port_filter" := VBool false]>
             (<["vhostuser_mode" := VStr "client"]>
                {["vhostuser_ovs_plug" := VBool true]})))] /\
  match run.2 with
  | inr current =>
      vif_details current =
        {["vhostuser_socket" := VStr "/var/run/openvswitch/vhuport-a"]}
  | inl _ => False
  end.
Proof. vm_compute. done. Qed.

Example bind_port_unknown_host :
  let run :=
    bind_port chassis_of_host_2 true "netdev" "dpdkvhostuser"
      "/var/run/openvswitch" example_sockpath port_a "host-9"
      [geneve_segment] empty_world in
  run.2 = inr port_a /\ bound_segments (events run.1) = [].
Proof. vm_compute. done. Qed.

(** * Further properties of the driver *)

(** ** Port binding: refusals, eligibility and the vif type *)

(** The interface types of a chassis, as [bind_port] parses them. *)
Definition chassis_iface_types (chassis : chassis_data) : list string :=
  match iface_types chassis with
  | Some types => if String.eqb types "" then [] else split "," types
  | None => []
  end.

Section BindingDecisions.
Context {DB : Type}.
Variable get_chassis_data_for_ml2_bind_port : string -> exn + chassis_data.
Variable sg_enabled : bool.
Variables CHASSIS_DATAPATH_NETDEV CHASSIS_IFACE_DPDKVHOSTUSER : string.
Variable ovn_vhost_sock_dir : string.
Variable ovn_vhu_sockpath : string -> string -> string.

Local Abbreviation bind_one :=
  (bind_segment (DB:=DB) sg_enabled CHASSIS_DATAPATH_NETDEV
     CHASSIS_IFACE_DPDKVHOSTUSER ovn_vhost_sock_dir ovn_vhu_sockpath).
Local Abbreviation bind_all :=
  (bind_segments (DB:=DB) sg_enabled CHASSIS_DATAPATH_NETDEV
     CHASSIS_IFACE_DPDKVHOSTUSER ovn_vhost_sock_dir ovn_vhu_sockpath).
Local Abbreviation bind_on_host :=
  (bind_port (DB:=DB) get_chassis_data_for_ml2_bind_port sg_enabled
     CHASSIS_DATAPATH_NETDEV CHASSIS_IFACE_DPDKVHOSTUSER ovn_vhost_sock_dir
     ovn_vhu_sockpath).

(** Whether the chassis gets vhost-user ports. *)
Definition uses_vhost_user (dp : string) (ifaces : list string) : bool :=
  String.eqb dp CHASSIS_DATAPATH_NETDEV
  && str_in CHASSIS_IFACE_DPDKVHOSTUSER ifaces.

(** The binding [bind_port] records for a segment on such a chassis. *)
Definition binding_of (dp : string) (ifaces : list string) (id : string)
    (s : segment) : event :=
  if uses_vhost_user dp ifaces then
    EvSetBinding (seg_id s) VIF_TYPE_VHOST_USER
      (<[VHOST_USER_SOCKET := VStr (ovn_vhu_sockpath ovn_vhost_sock_dir id)]>
         (driver_vif_details sg_enabled VIF_TYPE_VHOST_USER))
  else
    EvSetBinding (seg_id s) VIF_TYPE_OVS
      (driver_vif_details sg_enabled VIF_TYPE_OVS).

Definition not_log (evs : list event) : list event :=
  List.filter (fun ev => negb (is_log ev)) evs.

Lemma not_log_app evs1 evs2 : not_log (evs1 ++ evs2) = not_log evs1 ++ not_log evs2.
Proof. apply List.filter_app. Qed.

Lemma bind_segment_binding dp ifaces physnets current s (w : world DB) :
  exists current' evs,
    bind_one dp ifaces physnets current s w =
      (World (neutron w) (events w ++ evs), inr current') /\
    port_id current' = port_id current /\
    not_log evs =
      (if refused physnets s then []
       else [binding_of dp ifaces (port_id current) s]) /\
    (refused physnets s = true \/ uses_vhost_user dp ifaces = false ->
     current' = current).
Proof.
  unfold bind_segment, bind, LOG, emit, ret, binding_of, uses_vhost_user.
  cbn [neutron events].
  destruct (negb (_is_network_type_supported (network_type s)));
    cbn [neutron events];
    destruct (refused physnets s); cbn [neutron events];
    try destruct (_ && _); cbn [neutron events];
    rewrite <- ?app_assoc; eexists _, _;
    (split; [reflexivity|]); (split; [done|]); (split; [done|]);
    intros [?|?]; done.
Qed.

Lemma bind_segments_bindings dp ifaces physnets current segments
    (w : world DB) :
  exists current' evs,
    bind_all dp ifaces physnets current segments w =
      (World (neutron w) (events w ++ evs), inr current') /\
    port_id current' = port_id current /\
    not_log evs =
      map (binding_of dp ifaces (port_id current))
          (eligible physnets segments) /\
    (eligible physnets segments = [] \/ uses_vhost_user dp ifaces = false ->
     current' = current).
Proof.
  revert current w. induction segments as [|s segments IH]; intros current w.
  - exists current, []. cbn. rewrite app_nil_r. by destruct w.
  - cbn [bind_segments]. unfold bind at 1.
    destruct (bind_segment_binding dp ifaces physnets current s w)
      as (current1 & evs1 & -> & Hid1 & Hevs1 & Hsame1).
    destruct (IH current1 (World (neutron w) (events w ++ evs1)))
      as (current2 & evs2 & -> & Hid2 & Hevs2 & Hsame2).
    exists current2, (evs1 ++ evs2). cbn [neutron events].
    rewrite app_assoc. split; [done|]. split; [congruence|].
    rewrite not_log_app, Hevs1, Hevs2, Hid1.
    unfold eligible in *. cbn [List.filter].
    destruct (refused physnets s) eqn:Href; cbn [negb]; (split; [done|]).
    + intros H. rewrite Hsame2 by done. apply Hsame1. by left.
    + intros [H|H]; [done|]. rewrite Hsame2 by (by right).
      apply Hsame1. by right.
Qed.

(** An exception that [except RuntimeError] catches: [RuntimeError]
    itself or one of its built-in subclasses. *)
Definition runtime_error (e : exn) : Prop :=
  e = RuntimeError \/ e = OtherError "NotImplementedError" \/
  e = OtherError "RecursionError".

(** X1: [bind_port] refuses without raising when the vnic type is not
    supported or the chassis lookup raises [RuntimeError] or one of its
    subclasses ([NotImplementedError], [RecursionError]): nothing is
    bound, the port is left as it was and only a debug line is written,
    one line for the vnic type and another for the missing chassis; an
    exception of the lookup that is no [RuntimeError] is raised to the
    caller before anything is done. *)
Theorem bind_port_refuses_without_chassis current host segments (w : world DB) :
  (default VNIC_NORMAL (vnic_type current) <> VNIC_NORMAL ->
   bind_on_host current host segments w =
     (World (neutron w)
        (events w ++ [EvLog DEBUG "Refusing to bind port %(port_id)s due to unsupported vnic_type: %(vnic_type)s"]),
      inr current)) /\
  (forall e,
     default VNIC_NORMAL (vnic_type current) = VNIC_NORMAL ->
     get_chassis_data_for_ml2_bind_port host = inl e ->
     (runtime_error e ->
      bind_on_host current host segments w =
        (World (neutron w)
           (events w ++ [EvLog DEBUG "Refusing to bind port %(port_id)s due to no OVN chassis for host: %(host)s"]),
         inr current)) /\
     (~ runtime_error e ->
      bind_on_host current host segments w = (w, inl e))).
Proof.
  split.
  - intros Hno. unfold bind_port, supported_vnic_types. cbn [str_in existsb].
    rewrite orb_false_r.
    by destruct (String.eqb_spec (default VNIC_NORMAL (vnic_type current))
                   VNIC_NORMAL) as [Heq|Hne].
  - intros e Hvnic He. unfold bind_port, supported_vnic_types.
    rewrite Hvnic, He. cbn [str_in existsb]. rewrite String.eqb_refl.
    cbn [orb negb]. split.
    + by intros [-> | [-> | ->]].
    + intros Hno. destruct (is_RuntimeError e) eqn:Hcaught; [|done].
      exfalso. apply Hno. unfold runtime_error.
      destruct e as [| | | |name]; try done; [by left|].
      cbn in Hcaught. rewrite orb_false_r in Hcaught.
      apply orb_prop in Hcaught as [H|H]; apply String.eqb_eq in H;
        subst name; auto.
Qed.

(** A segment the chassis can take: any segment that is not flat or
    vlan, and a flat or vlan segment on a physical network that the
    chassis maps. *)
Definition on_chassis (physnets : list string) (s : segment) : Prop :=
  network_type s = "flat" \/ network_type s = "vlan" ->
  exists physnet, physical_network s = Some physnet /\ physnet ∈ physnets.

Lemma refused_on_chassis physnets s :
  refused physnets s = false <-> on_chassis physnets s.
Proof.
  unfold refused, on_chassis. cbn [str_in existsb]. rewrite orb_false_r.
  destruct (String.eqb_spec (network_type s) "flat") as [Hflat|Hflat];
    destruct (String.eqb_spec (network_type s) "vlan") as [Hvlan|Hvlan];
    cbn [orb andb].
  4:{ split; [|done]. by intros _ [?|?]. }
  all: destruct (physical_network s) as [physnet|]; cbn [negb].
  all: rewrite ?negb_false_iff, ?str_in_spec.
  all: split;
    [ try done; intros Hin _; by exists physnet
    | intros Hok; destruct Hok as (n & Hn & Hin); auto; congruence ].
Qed.

#[local] Instance on_chassis_dec physnets s : Decision (on_chassis physnets s).
Proof.
  destruct (refused physnets s) eqn:Href.
  - right. intros Hok. apply refused_on_chassis in Hok. congruence.
  - left. by apply refused_on_chassis.
Defined.

Lemma eligible_on_chassis physnets segments :
  eligible physnets segments = filter (on_chassis physnets) segments.
Proof.
  unfold eligible. induction segments as [|s segments IH]; [done|].
  cbn [List.filter]. rewrite filter_cons, <- IH.
  destruct (refused physnets s) eqn:Href; cbn [negb].
  - rewrite decide_False; [done|]. intros Hok.
    apply refused_on_chassis in Hok. congruence.
  - rewrite decide_True; [done|]. by apply refused_on_chassis.
Qed.

(** X2: with a supported vnic type and a chassis for the host, [bind_port]
    raises nothing; every binding it records is for a segment of
    [segments_to_bind] that the chassis can take, never for a flat or vlan
    segment whose physical network is missing or not mapped by the
    chassis, and carries the vif type and details of the chassis:
    vhost-user with the socket path of the port when the datapath is
    netdev and the chassis has the dpdkvhostuser interface type, ovs
    otherwise; the first binding is for the first segment the chassis can
    take, and when it can take none nothing is bound and the port is
    returned unchanged. *)
Theorem bind_port_binds_only_eligible current host segments chassis
    (w : world DB) :
  default VNIC_NORMAL (vnic_type current) = VNIC_NORMAL ->
  get_chassis_data_for_ml2_bind_port host = inr chassis ->
  exists current' evs,
    bind_on_host current host segments w =
      (World (neutron w) (events w ++ evs), inr current') /\
    Forall (fun ev =>
              exists s, s ∈ segments /\
                (network_type s = "flat" \/ network_type s = "vlan" ->
                 exists physnet, physical_network s = Some physnet /\
                                 physnet ∈ chassis_physnets chassis) /\
                ev = binding_of (datapath_type chassis)
                       (chassis_iface_types chassis) (port_id current) s)
           (not_log evs) /\
    head (not_log evs) =
      binding_of (datapath_type chassis) (chassis_iface_types chassis)
        (port_id current)
      <$> head (filter (on_chassis (chassis_physnets chassis)) segments) /\
    ((forall s, s ∈ segments ->
        (network_type s = "flat" \/ network_type s = "vlan") /\
        forall physnet, physical_network s = Some physnet ->
                        physnet ∉ chassis_physnets chassis) ->
     not_log evs = [] /\ current' = current).
Proof.
  intros Hvnic Hchassis. unfold bind_port, supported_vnic_types.
  rewrite Hvnic, Hchassis. cbn [str_in existsb]. rewrite String.eqb_refl.
  cbn [orb negb]. fold (chassis_iface_types chassis).
  destruct (bind_segments_bindings (datapath_type chassis)
              (chassis_iface_types chassis) (chassis_physnets chassis)
              current segments w)
    as (current' & evs & -> & _ & Hevs & Hsame).
  exists current', evs. split; [done|]. rewrite Hevs. split; [|split].
  - apply Forall_forall. intros ev Hev.
    apply list_elem_of_fmap in Hev as (s & -> & Hs).
    rewrite eligible_on_chassis in Hs.
    apply list_elem_of_filter in Hs as [Hok Hin].
    by exists s.
  - rewrite <- eligible_on_chassis.
    by destruct (eligible (chassis_physnets chassis) segments).
  - intros Hnone.
    assert (eligible (chassis_physnets chassis) segments = []) as Hempty.
    { rewrite eligible_on_chassis.
      destruct (filter (on_chassis (chassis_physnets chassis)) segments)
        as [|s rest] eqn:Hfilter; [done|]. exfalso.
      assert (s ∈ filter (on_chassis (chassis_physnets chassis)) segments)
        as Hs by (rewrite Hfilter; apply list_elem_of_here).
      apply list_elem_of_filter in Hs as [Hok Hs].
      destruct (Hnone s Hs) as [Htype Hunmapped].
      destruct (Hok Htype) as (physnet & Hphysnet & Hin).
      by apply (Hunmapped physnet). }
    rewrite Hempty. split; [done|]. apply Hsame. by left.
Qed.

(** X3: a segment whose network type the driver does not support is
    bound all the same, after an info line: the loop refuses only flat and
    vlan segments, so on a host with a chassis a lone segment of, say, type
    vxlan gets a binding. *)
Theorem bind_port_allows_unsupported_network_type current host s chassis
    (w : world DB) :
  default VNIC_NORMAL (vnic_type current) = VNIC_NORMAL ->
  get_chassis_data_for_ml2_bind_port host = inr chassis ->
  _is_network_type_supported (network_type s) = false ->
  refused (chassis_physnets chassis) s = false /\
  exists current' evs,
    bind_on_host current host [s] w =
      (World (neutron w) (events w ++ evs), inr current') /\
    not_log evs =
      [binding_of (datapath_type chassis) (chassis_iface_types chassis)
         (port_id current) s] /\
    EvLog INFO "Upgrade allowing bind port %(port_id)s with unsupported network type: %(network_type)s" ∈ evs.
Proof.
  intros Hvnic Hchassis Hunsupported.
  assert (refused (chassis_physnets chassis) s = false) as Href.
  { unfold refused. unfold _is_network_type_supported in Hunsupported.
    cbn [str_in existsb] in *. unfold TYPE_FLAT, TYPE_VLAN in *.
    destruct (String.eqb (network_type s) "flat"),
             (String.eqb (network_type s) "vlan"); try done.
    all: by rewrite ?orb_true_r in Hunsupported. }
  split; [done|].
  unfold bind_port, supported_vnic_types.
  rewrite Hvnic, Hchassis. cbn [str_in existsb]. rewrite String.eqb_refl.
  cbn [orb negb bind_segments]. fold (chassis_iface_types chassis).
  unfold bind_segment, bind, LOG, emit, ret, binding_of, uses_vhost_user.
  rewrite Hunsupported, Href. cbn [negb neutron events].
  destruct (_ && _); cbn [neutron events]; rewrite <- ?app_assoc;
    eexists _, _; (split; [reflexivity|]); (split; [done|]);
    apply elem_of_cons; right; apply elem_of_cons; by left.
Qed.

End BindingDecisions.

(** A lookup that is not implemented for host-8 and has no chassis for
    any other host but host-1. *)
Definition chassis_lookup (host : string) : exn + chassis_data :=
  if String.eqb host "host-8" then inl (OtherError "NotImplementedError")
  else chassis_of_host_1 host.

Lemma bind_port_refuses_without_chassis_witness :
  bind_port chassis_lookup true "netdev" "dpdkvhostuser"
    "/var/run/openvswitch" example_sockpath port_a "host-8"
    [geneve_segment] empty_world
  = (World tt [EvLog DEBUG "Refusing to bind port %(port_id)s due to no OVN chassis for host: %(host)s"],
     inr port_a).
Proof.
  apply (proj1 (proj2 (bind_port_refuses_without_chassis chassis_lookup true
                         "netdev" "dpdkvhostuser" "/var/run/openvswitch"
                         example_sockpath port_a "host-8" [geneve_segment]
                         empty_world)
                  (OtherError "NotImplementedError") eq_refl eq_refl)).
  right. left. reflexivity.
Defined.

(** A flat segment on a physical network that the chassis of host-1 does
    not map. *)
Definition flat_segment_elsewhere : segment :=
  {| seg_id := "seg-flat"; network_type := "flat"; segmentation_id := None;
     physical_network := Some "physnet2" |}.

Lemma bind_port_binds_only_eligible_witness :
  exists current' evs,
    bind_port chassis_of_host_1 true "netdev" "dpdkvhostuser"
      "/var/run/openvswitch" example_sockpath port_a "host-1"
      [flat_segment_elsewhere; vlan_segment_elsewhere; geneve_segment]
      empty_world
    = (World tt evs, inr current') /\
    head (not_log evs) =
      Some (EvSetBinding "seg-geneve" "ovs" {["port_filter" := VBool true]}).
Proof.
  destruct (bind_port_binds_only_eligible chassis_of_host_1 true "netdev"
              "dpdkvhostuser" "/var/run/openvswitch" example_sockpath
              port_a "host-1"
              [flat_segment_elsewhere; vlan_segment_elsewhere; geneve_segment]
              {| datapath_type := "system"; iface_types := None;
                 chassis_physnets := ["physnet1"] |}
              empty_world eq_refl eq_refl)
    as (current' & evs & Hrun & _ & Hhead & _).
  exists current', evs. split; [exact Hrun|]. rewrite Hhead.
  vm_compute. reflexivity.
Defined.

Lemma bind_port_allows_unsupported_network_type_witness :
  exists current' evs,
    bind_port chassis_of_host_1 true "netdev" "dpdkvhostuser"
      "/var/run/openvswitch" example_sockpath port_a "host-1"
      [vxlan_segment] empty_world
    = (World tt evs, inr current') /\
    not_log evs =
      [EvSetBinding "seg-vxlan" "ovs" {["port_filter" := VBool true]}].
Proof.
  destruct (bind_port_allows_unsupported_network_type chassis_of_host_1 true
              "netdev" "dpdkvhostuser" "/var/run/openvswitch"
              example_sockpath port_a "host-1" vxlan_segment
              {| datapath_type := "system"; iface_types := None;
                 chassis_physnets := ["physnet1"] |}
              empty_world eq_refl eq_refl eq_refl)
    as (_ & current' & evs & Hrun & Hevs & _).
  exists current', evs. split; [exact Hrun|]. rewrite Hevs. reflexivity.
Defined.

(** ** Port transactions: what is queued and in which order *)

Definition is_acl_refresh (c : nb_command) : bool :=
  match c with UpdateACLsCommand _ _ _ _ => true | _ => false end.

(** The DHCP options columns of a command that writes a logical switch
    port. *)
Definition lsp_dhcp_refs (c : nb_command) : option (dhcp_ref * dhcp_ref) :=
  match c with
  | AddLSwitchPortCommand _ _ _ _ _ _ _ _ _ _ d4 d6 => Some (d4, d6)
  | SetLSwitchPortCommand _ _ _ _ _ _ _ d4 d6 _ _ => Some (d4, d6)
  | _ => None
  end.

Lemma dhcp_column_commands o c :
  c ∈ (dhcp_column o).2 <->
  exists cmd, c = AddDHCPOptionsCommand cmd /\ (dhcp_column o).1 = DhcpOfCmd cmd.
Proof.
  destruct o as [[row|cmd]|]; cbn.
  - split; [by intros ?%elem_of_nil|by intros (? & _ & ?)].
  - rewrite list_elem_of_singleton. split.
    + intros ->. by exists cmd.
    + by intros (cmd' & -> & [= ->]).
  - split; [by intros ?%elem_of_nil|by intros (? & _ & ?)].
Qed.

Lemma gset_eq_of_differences (a b : gset string) :
  a ∖ b = ∅ -> b ∖ a = ∅ -> a = b.
Proof.
  intros Hab Hba. apply set_eq. intros x. split; intros Hx.
  - destruct (decide (x ∈ b)) as [|Hno]; [done|].
    assert (x ∈ a ∖ b) as H by (by apply elem_of_difference).
    rewrite Hab in H. by apply elem_of_empty in H.
  - destruct (decide (x ∈ a)) as [|Hno]; [done|].
    assert (x ∈ b ∖ a) as H by (by apply elem_of_difference).
    rewrite Hba in H. by apply elem_of_empty in H.
Qed.

Lemma gset_difference_diag (a : gset string) : a ∖ a = ∅.
Proof.
  apply set_eq. intros x. rewrite elem_of_difference. split.
  - by intros [? ?].
  - by intros ?%elem_of_empty.
Qed.

Lemma collect_elem {A} (steps : list (exn + list A)) cmds c :
  collect steps = inr cmds -> c ∈ cmds ->
  exists l, inr l ∈ steps /\ c ∈ l.
Proof.
  revert cmds. induction steps as [|[e|l] steps IH]; intros cmds; cbn.
  - intros [= <-] Hc. by apply elem_of_nil in Hc.
  - done.
  - destruct (collect steps) as [e|rest]; [done|]. intros [= <-] Hc.
    apply elem_of_app in Hc as [Hc|Hc].
    + exists l. split; [apply elem_of_cons; by left|done].
    + destruct (IH rest eq_refl Hc) as (l' & Hl' & Hc').
      exists l'. split; [apply elem_of_cons; by right|done].
Qed.

Section PortTransactions.
Variable ovn_name : string -> string.
Variable ovn_addrset_name : string -> string -> string.
Variable get_lsp_security_groups : port -> list string.
Variable acl_port_ips : port -> gmap string (list string).
Variable add_acls : port -> list acl.
Variable get_router_port_options : string -> gmap string string.
Variable OVN_PORT_NAME_EXT_ID_KEY : string.
Variables DEVICE_OWNER_ROUTER_INTF DEVICE_OWNER_ROUTER_GW : string.
Variable check_for_row_by_value_and_retry :
  string -> string -> string -> option exn.

Local Abbreviation update_port :=
  (_update_port_in_ovn ovn_addrset_name get_lsp_security_groups
     acl_port_ips add_acls get_router_port_options
     OVN_PORT_NAME_EXT_ID_KEY DEVICE_OWNER_ROUTER_INTF
     DEVICE_OWNER_ROUTER_GW).
Local Abbreviation create_port :=
  (create_port_in_ovn ovn_name ovn_addrset_name get_lsp_security_groups
     acl_port_ips add_acls OVN_PORT_NAME_EXT_ID_KEY
     check_for_row_by_value_and_retry).

(** The part of the update transaction before the address sets. *)
Definition update_head (port : port) (info : OvnPortInfo) (refresh : bool)
    : list nb_command :=
  let is_router_port :=
    str_in (device_owner port)
           [DEVICE_OWNER_ROUTER_INTF; DEVICE_OWNER_ROUTER_GW] in
  (dhcp_column (info_dhcpv4_options info)).2 ++
  (dhcp_column (info_dhcpv6_options info)).2 ++
  [SetLSwitchPortCommand (port_id port)
     {[OVN_PORT_NAME_EXT_ID_KEY := port_name port]}
     (info_parent_name info) (info_tag info)
     (if is_router_port
      then get_router_port_options (port_id port) ∪ info_options info
      else info_options info)
     (admin_state_up port) (info_port_security info)
     (dhcp_column (info_dhcpv4_options info)).1
     (dhcp_column (info_dhcpv6_options info)).1 false
     (if is_router_port then None
      else Some (info_type info, info_addresses info))] ++
  (if refresh
   then [UpdateACLsCommand [network_id port] [port]
           [(port_id port, add_acls port)] true]
   else []).

(** Whether the port's groups or fixed IPs changed. *)
Definition groups_or_ips_changed (original_port port : port) : bool :=
  negb (bool_decide
          ((list_to_set (get_lsp_security_groups original_port) : gset string)
           ∖ list_to_set (get_lsp_security_groups port) = ∅))
  || negb (bool_decide
             ((list_to_set (get_lsp_security_groups port) : gset string)
              ∖ list_to_set (get_lsp_security_groups original_port) = ∅))
  || negb (bool_decide (fixed_ips original_port = fixed_ips port)).

(** The shape of the transaction of [_update_port_in_ovn]. *)
Lemma update_port_shape original_port port info :
  update_port original_port port info =
  let head :=
    update_head port info (groups_or_ips_changed original_port port) in
  let old_sg_ids : gset string :=
    list_to_set (get_lsp_security_groups original_port) in
  let new_sg_ids : gset string :=
    list_to_set (get_lsp_security_groups port) in
  if nonempty (fixed_ips port) || nonempty (fixed_ips original_port) then
    let attached :=
      address_set_updates ovn_addrset_name (elements (new_sg_ids ∖ old_sg_ids))
        (acl_port_ips port)
        (fun name addrs =>
           UpdateAddrSetCommand name (Some (AList addrs)) None None) in
    let detached :=
      address_set_updates ovn_addrset_name (elements (old_sg_ids ∖ new_sg_ids))
        (acl_port_ips original_port)
        (fun name addrs =>
           UpdateAddrSetCommand name None (Some (AList addrs)) None) in
    if negb (bool_decide (fixed_ips original_port = fixed_ips port)) then
      match unchanged_group_updates ovn_addrset_name
              (elements (new_sg_ids ∩ old_sg_ids))
              (acl_port_ips port) (acl_port_ips original_port) with
      | inl e => inl e
      | inr unchanged => inr (head ++ attached ++ detached ++ unchanged)
      end
    else inr (head ++ attached ++ detached)
  else inr head.
Proof.
  unfold _update_port_in_ovn, update_head, groups_or_ips_changed.
  destruct (dhcp_column (info_dhcpv4_options info)) as [ref4 txn4].
  destruct (dhcp_column (info_dhcpv6_options info)) as [ref6 txn6].
  cbn [fst snd]. by rewrite <- !app_assoc.
Qed.

Lemma update_head_no_address_set port info refresh c :
  c ∈ update_head port info refresh -> is_address_set_update c = false.
Proof.
  unfold update_head. rewrite !elem_of_app, elem_of_cons.
  intros [Hin|[Hin|[[->|Hin]|Hin]]]; try done.
  - by eapply dhcp_column_no_address_set.
  - by eapply dhcp_column_no_address_set.
  - by apply elem_of_nil in Hin.
  - destruct refresh; [|by apply elem_of_nil in Hin].
    by apply list_elem_of_singleton in Hin as ->.
Qed.

(** X4: the address-set updates of [_update_port_in_ovn], for a port
    with fixed IPs before or after: a group the port joined gets its
    current addresses added, per IP version with addresses; a group it left
    gets the old addresses removed; a group it stays in gets the two
    deltas, and only when the fixed IPs changed and a delta is not empty;
    and there is no other address-set update.  (When the fixed IPs
    changed the old dictionary must have the keys of the new.) *)
Theorem update_port_address_set_updates original_port port info :
  fixed_ips port <> [] \/ fixed_ips original_port <> [] ->
  (fixed_ips original_port <> fixed_ips port ->
   forall v, is_Some (acl_port_ips port !! v) ->
             is_Some (acl_port_ips original_port !! v)) ->
  exists txn,
    update_port original_port port info = inr txn /\
    forall c, is_address_set_update c = true ->
      (c ∈ txn <->
       (exists sg_id v addrs,
          sg_id ∈ get_lsp_security_groups port /\
          (sg_id ∉ get_lsp_security_groups original_port) /\
          acl_port_ips port !! v = Some addrs /\ addrs <> [] /\
          c = UpdateAddrSetCommand (ovn_addrset_name sg_id v)
                (Some (AList addrs)) None None) \/
       (exists sg_id v addrs,
          sg_id ∈ get_lsp_security_groups original_port /\
          (sg_id ∉ get_lsp_security_groups port) /\
          acl_port_ips original_port !! v = Some addrs /\ addrs <> [] /\
          c = UpdateAddrSetCommand (ovn_addrset_name sg_id v)
                None (Some (AList addrs)) None) \/
       (fixed_ips original_port <> fixed_ips port /\
        exists sg_id v new old,
          sg_id ∈ get_lsp_security_groups port /\
          sg_id ∈ get_lsp_security_groups original_port /\
          acl_port_ips port !! v = Some new /\
          acl_port_ips original_port !! v = Some old /\
          let added : gset string := list_to_set new ∖ list_to_set old in
          let removed : gset string := list_to_set old ∖ list_to_set new in
          (added <> ∅ \/ removed <> ∅) /\
          c = UpdateAddrSetCommand (ovn_addrset_name sg_id v)
                (set_or_None added) (set_or_None removed) None)).
Proof.
  intros Hne Hkeys. rewrite update_port_shape. cbv zeta.
  rewrite (nonempty_or _ _ Hne).
  set (head := update_head _ _ _).
  assert (forall c, is_address_set_update c = true -> c ∈ head -> False)
    as Hhead.
  { intros c Hc Hin. apply update_head_no_address_set in Hin. congruence. }
  assert (forall (sg : string) (l1 l2 : list string),
            sg ∈ elements ((list_to_set l1 : gset string) ∖ list_to_set l2)
            <-> sg ∈ l1 /\ (sg ∉ l2)) as Hdiff.
  { intros sg l1 l2.
    by rewrite elem_of_elements, elem_of_difference, !elem_of_list_to_set. }
  assert (forall (sg : string) (l1 l2 : list string),
            sg ∈ elements ((list_to_set l1 : gset string) ∩ list_to_set l2)
            <-> sg ∈ l1 /\ sg ∈ l2) as Hinter.
  { intros sg l1 l2.
    by rewrite elem_of_elements, elem_of_intersection, !elem_of_list_to_set. }
  destruct (decide (fixed_ips original_port = fixed_ips port)) as [Heq|Hfix].
  - rewrite (bool_decide_eq_true_2 _ Heq). cbn [negb].
    eexists. split; [done|]. intros c Hc.
    rewrite !elem_of_app, !elem_of_address_set_updates. split.
    + intros [Hin|[Hin|Hin]]; [by destruct (Hhead c Hc Hin)| |].
      * left. destruct Hin as (sg & v & addrs & Hsg & Hrest).
        apply Hdiff in Hsg as [? ?]. by exists sg, v, addrs.
      * right. left. destruct Hin as (sg & v & addrs & Hsg & Hrest).
        apply Hdiff in Hsg as [? ?]. by exists sg, v, addrs.
    + intros [Hin|[Hin|[Hfix _]]]; [| |done].
      * right. left. destruct Hin as (sg & v & addrs & Hsg & Hnot & Hrest).
        exists sg, v, addrs. by rewrite Hdiff.
      * right. right. destruct Hin as (sg & v & addrs & Hsg & Hnot & Hrest).
        exists sg, v, addrs. by rewrite Hdiff.
  - rewrite (bool_decide_eq_false_2 _ Hfix). cbn [negb].
    destruct (unchanged_group_updates_ok ovn_addrset_name
                (elements ((list_to_set (get_lsp_security_groups port)
                            : gset string)
                           ∩ list_to_set (get_lsp_security_groups original_port)))
                (acl_port_ips port) (acl_port_ips original_port)
                (Hkeys Hfix))
      as (cmds & -> & Hmem).
    eexists. split; [done|]. intros c Hc.
    rewrite !elem_of_app, !elem_of_address_set_updates, Hmem. split.
    + intros [Hin|[Hin|[Hin|Hin]]]; [by destruct (Hhead c Hc Hin)| | |].
      * left. destruct Hin as (sg & v & addrs & Hsg & Hrest).
        apply Hdiff in Hsg as [? ?]. by exists sg, v, addrs.
      * right. left. destruct Hin as (sg & v & addrs & Hsg & Hrest).
        apply Hdiff in Hsg as [? ?]. by exists sg, v, addrs.
      * right. right. split; [done|].
        destruct Hin as (sg & v & new & old & Hsg & Hrest).
        apply Hinter in Hsg as [? ?]. by exists sg, v, new, old.
    + intros [Hin|[Hin|[_ Hin]]].
      * right. left. destruct Hin as (sg & v & addrs & Hsg & Hnot & Hrest).
        exists sg, v, addrs. by rewrite Hdiff.
      * right. right. left.
        destruct Hin as (sg & v & addrs & Hsg & Hnot & Hrest).
        exists sg, v, addrs. by rewrite Hdiff.
      * do 3 right. destruct Hin as (sg & v & new & old & Hsg & Hsg' & Hrest).
        exists sg, v, new, old. by rewrite Hinter.
Qed.

Definition is_add_dhcp_options (c : nb_command) : bool :=
  match c with AddDHCPOptionsCommand _ => true | _ => false end.

Definition is_set_lswitch_port (c : nb_command) : bool :=
  match c with
  | SetLSwitchPortCommand _ _ _ _ _ _ _ _ _ _ _ => true
  | _ => false
  end.

Lemma dhcp_column_all_add_dhcp o :
  forallb is_add_dhcp_options (dhcp_column o).2 = true.
Proof. by destruct o as [[row|cmd]|]. Qed.

(** X5: an update that changes neither the set of security groups nor
    the fixed IPs queues the pending DHCP options commands and the
    update of the logical switch port, and nothing else: no ACL refresh
    and no address-set update. *)
Theorem update_port_without_change original_port port info :
  (list_to_set (get_lsp_security_groups original_port) : gset string)
    = list_to_set (get_lsp_security_groups port) ->
  fixed_ips original_port = fixed_ips port ->
  exists pending set_port,
    update_port original_port port info = inr (pending ++ [set_port]) /\
    forallb is_add_dhcp_options pending = true /\
    is_set_lswitch_port set_port = true.
Proof.
  intros Hsg Hfix. rewrite update_port_shape. cbv zeta.
  unfold groups_or_ips_changed. rewrite Hsg, Hfix.
  set (groups := list_to_set (get_lsp_security_groups port) : gset string).
  rewrite (gset_difference_diag groups).
  rewrite !bool_decide_eq_true_2 by done. cbn [negb orb].
  rewrite elements_empty. cbn [address_set_updates flat_map app].
  unfold update_head. cbn [app]. rewrite !app_nil_r.
  exists ((dhcp_column (info_dhcpv4_options info)).2 ++
          (dhcp_column (info_dhcpv6_options info)).2).
  eexists. split.
  - destruct (_ || _); by rewrite <- app_assoc.
  - split; [|done]. rewrite forallb_app. by rewrite !dhcp_column_all_add_dhcp.
Qed.

(** X6: a port without fixed IPs before and after the update never
    touches an address set, even when its security groups change. *)
Theorem update_port_without_fixed_ips original_port port info :
  fixed_ips port = [] -> fixed_ips original_port = [] ->
  exists txn,
    update_port original_port port info = inr txn /\
    forallb (fun c => negb (is_address_set_update c)) txn = true.
Proof.
  intros Hnew Hold. rewrite update_port_shape. cbv zeta.
  rewrite Hnew, Hold. cbn [nonempty orb].
  eexists. split; [done|]. apply forallb_forall. intros c Hin.
  apply list_elem_of_In, update_head_no_address_set in Hin. by rewrite Hin.
Qed.

(** X7: whenever [_update_port_in_ovn] builds a transaction, it holds
    the refresh of the port's ACLs exactly when the set of security
    groups or the fixed IPs changed, and that refresh is for this port on
    its network, with comparison against the existing ACLs asked for. *)
Theorem update_port_acl_refresh original_port port info txn :
  update_port original_port port info = inr txn ->
  ((exists c, c ∈ txn /\ is_acl_refresh c = true) <->
   (list_to_set (get_lsp_security_groups original_port) : gset string)
     <> list_to_set (get_lsp_security_groups port) \/
   fixed_ips original_port <> fixed_ips port) /\
  (forall c, c ∈ txn -> is_acl_refresh c = true ->
     c = UpdateACLsCommand [network_id port] [port]
           [(port_id port, add_acls port)] true).
Proof.
  rewrite update_port_shape. cbv zeta. intros Htxn.
  set (changed := groups_or_ips_changed original_port port) in *.
  assert (changed = true <->
          (list_to_set (get_lsp_security_groups original_port) : gset string)
            <> list_to_set (get_lsp_security_groups port) \/
          fixed_ips original_port <> fixed_ips port) as Hchanged.
  { unfold changed, groups_or_ips_changed.
    rewrite !orb_true_iff, !negb_true_iff, !bool_decide_eq_false.
    split.
    - intros [[H|H]|H]; [left|left|by right]; intros Heq; apply H;
        rewrite Heq; apply gset_difference_diag.
    - intros [H|H]; [|by right].
      destruct (decide ((list_to_set (get_lsp_security_groups original_port)
                         : gset string)
                        ∖ list_to_set (get_lsp_security_groups port) = ∅))
        as [Hd|Hd]; [|by left; left].
      left. right. intros Hd'. apply H. by apply gset_eq_of_differences. }
  assert (forall c, is_acl_refresh c = true ->
            (c ∈ update_head port info changed <->
             changed = true /\
             c = UpdateACLsCommand [network_id port] [port]
                   [(port_id port, add_acls port)] true)) as Hhead.
  { intros c Hc. unfold update_head.
    rewrite !elem_of_app, elem_of_cons. split.
    - intros [Hin|[Hin|[[->|Hin]|Hin]]]; try done.
      + apply dhcp_column_commands in Hin as (cmd & -> & _). done.
      + apply dhcp_column_commands in Hin as (cmd & -> & _). done.
      + by apply elem_of_nil in Hin.
      + destruct changed; [|by apply elem_of_nil in Hin].
        by apply list_elem_of_singleton in Hin as ->.
    - intros [-> ->]. do 3 right. by apply list_elem_of_singleton. }
  assert (forall sgs addrs mk c,
            (forall n a, is_acl_refresh (mk n a) = false) ->
            c ∈ address_set_updates ovn_addrset_name sgs addrs mk ->
            is_acl_refresh c = false) as Hsets.
  { intros sgs addrs mk c Hmk
      (sg & v & a & _ & _ & _ & ->)%elem_of_address_set_updates.
    apply Hmk. }
  assert (forall c, c ∈ txn -> is_acl_refresh c = true ->
            c ∈ update_head port info changed) as Hin_head.
  { intros c Hin Hc.
    destruct (nonempty (fixed_ips port) || nonempty (fixed_ips original_port));
      [|by injection Htxn as <-].
    destruct (negb (bool_decide (fixed_ips original_port = fixed_ips port))).
    - destruct (unchanged_group_updates _ _ _ _) as [e|cmds] eqn:Hun; [done|].
      injection Htxn as <-. rewrite !elem_of_app in Hin.
      destruct Hin as [Hin|[Hin|[Hin|Hin]]]; [done| | |].
      + apply Hsets in Hin; [congruence|done].
      + apply Hsets in Hin; [congruence|done].
      + exfalso. unfold unchanged_group_updates in Hun.
        destruct (collect_elem _ _ _ Hun Hin) as (l & Hl & Hcl).
        apply list_elem_of_In, in_flat_map in Hl as (sg & _ & Hl).
        apply in_map_iff in Hl as ([v addrs] & Hl & _).
        destruct (acl_port_ips original_port !! v); [|done].
        cbv zeta in Hl. destruct (bool_decide _); injection Hl as <-.
        * apply list_elem_of_singleton in Hcl as ->. done.
        * by apply elem_of_nil in Hcl.
    - injection Htxn as <-. rewrite !elem_of_app in Hin.
      destruct Hin as [Hin|[Hin|Hin]]; [done| |].
      + apply Hsets in Hin; [congruence|done].
      + apply Hsets in Hin; [congruence|done]. }
  split.
  - rewrite <- Hchanged. split.
    + intros (c & Hin & Hc).
      by destruct (proj1 (Hhead c Hc) (Hin_head c Hin Hc)) as [? _].
    + intros Hch.
      exists (UpdateACLsCommand [network_id port] [port]
                [(port_id port, add_acls port)] true).
      split; [|reflexivity].
      assert (UpdateACLsCommand [network_id port] [port]
                [(port_id port, add_acls port)] true
              ∈ update_head port info changed) as Hin.
      { by apply Hhead. }
      destruct (nonempty (fixed_ips port) || nonempty (fixed_ips original_port));
        [|by injection Htxn as <-].
      destruct (negb (bool_decide (fixed_ips original_port = fixed_ips port))).
      * destruct (unchanged_group_updates _ _ _ _) as [e|cmds]; [done|].
        injection Htxn as <-. apply elem_of_app. by left.
      * injection Htxn as <-. apply elem_of_app. by left.
  - intros c Hin Hc.
    by destruct (proj1 (Hhead c Hc) (Hin_head c Hin Hc)) as [_ ?].
Qed.

Lemma update_port_has_head original_port port info txn :
  update_port original_port port info = inr txn ->
  exists rest,
    txn = update_head port info (groups_or_ips_changed original_port port)
          ++ rest /\
    forallb is_address_set_update rest = true.
Proof.
  rewrite update_port_shape. cbv zeta.
  assert (forall sgs addrs mk,
            (forall n a, is_address_set_update (mk n a) = true) ->
            forallb is_address_set_update
              (address_set_updates ovn_addrset_name sgs addrs mk) = true)
    as Hsets.
  { intros sgs addrs mk Hmk. apply forallb_forall. intros c Hc.
    apply list_elem_of_In, elem_of_address_set_updates in Hc
      as (sg & v & a & _ & _ & _ & ->).
    apply Hmk. }
  destruct (nonempty (fixed_ips port) || nonempty (fixed_ips original_port)).
  - destruct (negb (bool_decide (fixed_ips original_port = fixed_ips port))).
    + destruct (unchanged_group_updates _ _ _ _) as [e|cmds] eqn:Hun; [done|].
      intros [= <-]. eexists. split; [done|].
      rewrite !forallb_app, !Hsets by done. cbn [andb].
      apply forallb_forall. intros c Hin. apply list_elem_of_In in Hin.
      unfold unchanged_group_updates in Hun.
      destruct (collect_elem _ _ _ Hun Hin) as (l & Hl & Hcl).
      apply list_elem_of_In, in_flat_map in Hl as (sg & _ & Hl).
      apply in_map_iff in Hl as ([v addrs] & Hl & _).
      destruct (acl_port_ips original_port !! v); [|done].
      cbv zeta in Hl. destruct (bool_decide _); injection Hl as <-.
      * by apply list_elem_of_singleton in Hcl as ->.
      * by apply elem_of_nil in Hcl.
    + intros [= <-]. eexists. split; [done|].
      by rewrite !forallb_app, !Hsets.
  - intros [= <-]. exists []. by rewrite app_nil_r.
Qed.

(** X8: the transaction of [_update_port_in_ovn] sets the logical switch
    port named after the port id, with [if_exists=False]; for a router
    interface or gateway port the type and addresses columns are left
    alone and the router port options of the northbound database override
    the port's own options, for any other port the type and addresses are
    written and the options are the port's; no other command of the
    transaction sets a logical switch port. *)
Theorem update_port_router_columns original_port port info txn :
  update_port original_port port info = inr txn ->
  exists external_ids parent_name tag options enabled port_security d4 d6
         columns,
    let set_port :=
      SetLSwitchPortCommand (port_id port) external_ids parent_name tag
        options enabled port_security d4 d6 false columns in
    set_port ∈ txn /\
    (forall c, c ∈ txn -> is_set_lswitch_port c = true -> c = set_port) /\
    (device_owner port ∈ [DEVICE_OWNER_ROUTER_INTF; DEVICE_OWNER_ROUTER_GW] ->
     columns = None /\
     forall key,
       options !! key =
       match get_router_port_options (port_id port) !! key with
       | Some value => Some value
       | None => info_options info !! key
       end) /\
    ((device_owner port ∉ [DEVICE_OWNER_ROUTER_INTF; DEVICE_OWNER_ROUTER_GW]) ->
     columns = Some (info_type info, info_addresses info) /\
     options = info_options info).
Proof.
  intros Htxn.
  destruct (update_port_has_head _ _ _ _ Htxn) as (rest & -> & Hrest).
  unfold update_head. cbv zeta.
  do 9 eexists. split; [|split; [|split]].
  - rewrite !elem_of_app, elem_of_cons. left. right. right. left. by left.
  - intros c Hin Hc. rewrite !elem_of_app, elem_of_cons in Hin.
    destruct Hin as [[Hin|[Hin|[[Hin|Hin]|Hin]]]|Hin].
    + apply dhcp_column_commands in Hin as (cmd & -> & _). done.
    + apply dhcp_column_commands in Hin as (cmd & -> & _). done.
    + exact Hin.
    + by apply elem_of_nil in Hin.
    + destruct (groups_or_ips_changed original_port port);
        [|by apply elem_of_nil in Hin].
      by apply list_elem_of_singleton in Hin as ->.
    + rewrite forallb_forall in Hrest.
      apply list_elem_of_In, Hrest in Hin. by destruct c.
  - intros Hrouter%str_in_spec. rewrite Hrouter. split; [done|].
    intros key. rewrite lookup_union.
    by destruct (get_router_port_options (port_id port) !! key),
                (info_options info !! key).
  - intros Hnot. destruct (str_in _ _) eqn:Hin; [|done].
    by apply str_in_spec in Hin.
Qed.

(** The DHCP options column that goes with what [get_port_dhcp_options]
    returned. *)
Definition dhcp_ref_of (o : option port_dhcp_options) : dhcp_ref :=
  match o with
  | None => NoDhcp
  | Some (SubnetRow row) => DhcpUuid (row_uuid row)
  | Some (PendingCmd cmd) => DhcpOfCmd cmd
  end.

(** A transaction that starts with the pending DHCP options commands of
    the port, followed by the command that writes the port and refers to
    them; nothing after it creates DHCP options. *)
Definition dhcp_commands_lead (info : OvnPortInfo) (txn : list nb_command)
    : Prop :=
  exists pending port_cmd rest,
    txn = pending ++ port_cmd :: rest /\
    lsp_dhcp_refs port_cmd =
      Some (dhcp_ref_of (info_dhcpv4_options info),
            dhcp_ref_of (info_dhcpv6_options info)) /\
    (forall c, c ∈ pending <->
       exists cmd, c = AddDHCPOptionsCommand cmd /\
         (info_dhcpv4_options info = Some (PendingCmd cmd) \/
          info_dhcpv6_options info = Some (PendingCmd cmd))) /\
    forallb (fun c => negb (is_add_dhcp_options c)) rest = true.

Lemma dhcp_column_ref o : (dhcp_column o).1 = dhcp_ref_of o.
Proof. by destruct o as [[row|cmd]|]. Qed.

Lemma dhcp_column_pending o c :
  c ∈ (dhcp_column o).2 <->
  exists cmd, c = AddDHCPOptionsCommand cmd /\ o = Some (PendingCmd cmd).
Proof.
  destruct o as [[row|cmd]|]; cbn.
  - split; [by intros ?%elem_of_nil|by intros (? & _ & ?)].
  - rewrite list_elem_of_singleton. split.
    + intros ->. by exists cmd.
    + by intros (cmd' & -> & [= ->]).
  - split; [by intros ?%elem_of_nil|by intros (? & _ & ?)].
Qed.

(** X9: in the transactions of [create_port_in_ovn] and
    [_update_port_in_ovn] the DHCP options commands pending for the port
    come first, right before the command that writes the logical switch
    port, whose DHCP columns refer to them (or to the uuid of the subnet's
    row, or to nothing); each pending command is queued and nothing later
    in the transaction creates DHCP options, so a port write that fails
    leaves no orphan row and no column refers to a row that is not
    created. *)
Theorem dhcp_commands_before_port_write original_port port info :
  (forall txn, create_port port info = inr txn ->
               dhcp_commands_lead info txn) /\
  (forall txn, update_port original_port port info = inr txn ->
               dhcp_commands_lead info txn).
Proof.
  assert (forall c,
            c ∈ (dhcp_column (info_dhcpv4_options info)).2 ++
                (dhcp_column (info_dhcpv6_options info)).2 <->
            exists cmd, c = AddDHCPOptionsCommand cmd /\
              (info_dhcpv4_options info = Some (PendingCmd cmd) \/
               info_dhcpv6_options info = Some (PendingCmd cmd))) as Hpending.
  { intros c. rewrite elem_of_app, !dhcp_column_pending. split.
    - intros [(cmd & -> & H)|(cmd & -> & H)]; exists cmd; auto.
    - intros (cmd & -> & [H|H]); [left|right]; by exists cmd. }
  split.
  - intros txn. unfold create_port_in_ovn.
    destruct (check_for_row_by_value_and_retry _ _ _); [done|].
    pose proof (dhcp_column_ref (info_dhcpv4_options info)) as Href4.
    pose proof (dhcp_column_ref (info_dhcpv6_options info)) as Href6.
    revert Hpending.
    destruct (dhcp_column (info_dhcpv4_options info)) as [ref4 txn4].
    destruct (dhcp_column (info_dhcpv6_options info)) as [ref6 txn6].
    cbn [fst snd] in *. intros Hpending [= <-].
    exists (txn4 ++ txn6). eexists. eexists.
    split; [by rewrite <- app_assoc|]. subst ref4 ref6.
    split; [done|]. split; [exact Hpending|].
    rewrite forallb_app. apply andb_true_iff. split.
    + apply forallb_forall. intros c Hin.
      by apply list_elem_of_In, list_elem_of_fmap in Hin as (a & -> & _).
    + destruct (_ && _); [|done]. apply forallb_forall. intros c Hin.
      by apply list_elem_of_In, elem_of_address_set_updates in Hin
        as (sg & v & addrs & _ & _ & _ & ->).
  - intros txn Htxn.
    destruct (update_port_has_head _ _ _ _ Htxn) as (rest & -> & Hrest).
    unfold update_head. cbv zeta.
    exists ((dhcp_column (info_dhcpv4_options info)).2 ++
            (dhcp_column (info_dhcpv6_options info)).2).
    eexists. eexists. split; [by rewrite <- !app_assoc|].
    rewrite !dhcp_column_ref. split; [done|]. split; [exact Hpending|].
    rewrite forallb_app. apply andb_true_iff. split.
    + by destruct (groups_or_ips_changed original_port port).
    + apply forallb_forall. intros c Hin.
      rewrite forallb_forall in Hrest. apply Hrest in Hin. by destruct c.
Qed.

(** X10: [create_port_in_ovn] queues nothing when the logical switch of
    the network never shows up: the error of the wait is raised before the
    transaction is opened; and for a port without fixed IPs or without
    security groups its transaction has no address-set update. *)
Theorem create_port_edge_cases port info :
  (forall e,
     check_for_row_by_value_and_retry "Logical_Switch" "name"
       (ovn_name (network_id port)) = Some e ->
     create_port port info = inl e) /\
  (check_for_row_by_value_and_retry "Logical_Switch" "name"
     (ovn_name (network_id port)) = None ->
   fixed_ips port = [] \/ get_lsp_security_groups port = [] ->
   exists txn,
     create_port port info = inr txn /\
     forallb (fun c => negb (is_address_set_update c)) txn = true).
Proof.
  split.
  - intros e He. unfold create_port_in_ovn. by rewrite He.
  - intros Hrow Hnone. unfold create_port_in_ovn. rewrite Hrow.
    pose proof (dhcp_column_no_address_set (info_dhcpv4_options info)) as H4.
    pose proof (dhcp_column_no_address_set (info_dhcpv6_options info)) as H6.
    destruct (dhcp_column (info_dhcpv4_options info)) as [ref4 txn4].
    destruct (dhcp_column (info_dhcpv6_options info)) as [ref6 txn6].
    cbn [snd] in *.
    assert (nonempty (fixed_ips port) && nonempty (get_lsp_security_groups port)
            = false) as ->.
    { destruct Hnone as [-> | ->]; [done|]. by rewrite andb_false_r. }
    eexists. split; [done|]. apply forallb_forall. intros c Hin.
    apply list_elem_of_In in Hin.
    rewrite !elem_of_app in Hin.
    destruct Hin as [Hin|[Hin|[Hin|[Hin|Hin]]]].
    + by rewrite (H4 c Hin).
    + by rewrite (H6 c Hin).
    + by apply list_elem_of_singleton in Hin as ->.
    + by apply list_elem_of_fmap in Hin as (a & -> & _).
    + by apply elem_of_nil in Hin.
Qed.
End PortTransactions.

Definition with_groups (p : port) (groups : list string) : port :=
  {| port_id := port_id p; port_name := port_name p;
     network_id := network_id p; mac_address := mac_address p;
     status := status p; vnic_type := vnic_type p;
     fixed_ips := fixed_ips p; security_groups := groups;
     admin_state_up := admin_state_up p; device_owner := device_owner p;
     binding_profile := binding_profile p; vif_details := vif_details p |}.

(** port-a after leaving sg-a for sg-c, and without any fixed IP. *)
Definition port_a_regrouped : port := with_groups port_a ["sg-b"; "sg-c"].
Definition port_a_bare : port := with_fixed_ips port_a [].

Definition example_update :=
  _update_port_in_ovn example_addrset_name security_groups example_port_ips
    no_acls no_router_options "neutron:port_name" "network:router_interface"
    "network:router_gateway".

Definition example_create :=
  create_port_in_ovn example_ovn_name example_addrset_name security_groups
    example_port_ips no_acls "neutron:port_name" row_is_there.

Definition port_c_dhcp_cmd : dhcp_options_cmd :=
  {| cmd_subnet := "subnet-1"; cmd_port := Some "port-c";
     cmd_cidr := "10.0.0.0/24";
     cmd_options := <["mtu" := "9000"]> {["router" := "10.0.0.1"]};
     cmd_external_ids :=
       <["port_id" := "port-c"]> {["subnet_id" := "subnet-1"]} |}.

Definition example_info_pending : OvnPortInfo :=
  {| info_type := ""; info_options := ∅;
     info_addresses := ["fa:16:3e:00:00:0a 10.0.0.5"];
     info_port_security := ["fa:16:3e:00:00:0a 10.0.0.5"];
     info_parent_name := None; info_tag := None;
     info_dhcpv4_options := Some (PendingCmd port_c_dhcp_cmd);
     info_dhcpv6_options := None |}.

(** The transaction of the regrouping of port-a. *)
Definition regroup_txn : list nb_command :=
  match example_update port_a port_a_regrouped example_info with
  | inr txn => txn
  | inl _ => []
  end.

Lemma regroup_txn_eq :
  example_update port_a port_a_regrouped example_info = inr regroup_txn.
Proof. vm_compute. reflexivity. Defined.

Lemma update_port_address_set_updates_witness :
  exists txn,
    example_update port_a port_a_regrouped example_info = inr txn /\
    UpdateAddrSetCommand "as_ip4_sg-c" (Some (AList ["10.0.0.5"])) None None
      ∈ txn /\
    UpdateAddrSetCommand "as_ip4_sg-a" None (Some (AList ["10.0.0.5"])) None
      ∈ txn.
Proof.
  destruct (update_port_address_set_updates example_addrset_name
              security_groups example_port_ips no_acls no_router_options
              "neutron:port_name" "network:router_interface"
              "network:router_gateway" port_a port_a_regrouped example_info)
    as (txn & Htxn & Hall).
  - left. discriminate.
  - intros _ v. apply example_port_ips_keys.
  - exists txn. split; [exact Htxn|]. split.
    + apply (Hall (UpdateAddrSetCommand "as_ip4_sg-c"
                     (Some (AList ["10.0.0.5"])) None None) eq_refl).
      left. exists "sg-c", "ip4", ["10.0.0.5"].
      split; [apply elem_of_cons; right; apply elem_of_cons; by left|].
      split.
      { intros Hin. apply elem_of_cons in Hin as [Hin|Hin]; [done|].
        apply elem_of_cons in Hin as [Hin|Hin]; [done|].
        by apply elem_of_nil in Hin. }
      split; [reflexivity|]. split; [discriminate|reflexivity].
    + apply (Hall (UpdateAddrSetCommand "as_ip4_sg-a" None
                     (Some (AList ["10.0.0.5"])) None) eq_refl).
      right. left.
      exists "sg-a", "ip4", ["10.0.0.5"].
      split; [apply elem_of_cons; by left|].
      split.
      { intros Hin. apply elem_of_cons in Hin as [Hin|Hin]; [done|].
        apply elem_of_cons in Hin as [Hin|Hin]; [done|].
        by apply elem_of_nil in Hin. }
      split; [reflexivity|]. split; [discriminate|reflexivity].
Defined.

Lemma update_port_without_change_witness :
  exists pending set_port,
    example_update port_a port_a example_info = inr (pending ++ [set_port]) /\
    forallb is_add_dhcp_options pending = true /\
    is_set_lswitch_port set_port = true.
Proof.
  apply (update_port_without_change example_addrset_name security_groups
           example_port_ips no_acls no_router_options "neutron:port_name"
           "network:router_interface" "network:router_gateway"
           port_a port_a example_info); reflexivity.
Defined.

Lemma update_port_without_fixed_ips_witness :
  exists txn,
    example_update port_a_bare (with_groups port_a_bare ["sg-c"]) example_info
      = inr txn /\
    forallb (fun c => negb (is_address_set_update c)) txn = true.
Proof.
  apply (update_port_without_fixed_ips example_addrset_name security_groups
           example_port_ips no_acls no_router_options "neutron:port_name"
           "network:router_interface" "network:router_gateway"
           port_a_bare (with_groups port_a_bare ["sg-c"]) example_info);
    reflexivity.
Defined.

Lemma update_port_acl_refresh_witness :
  exists c, c ∈ regroup_txn /\ is_acl_refresh c = true.
Proof.
  apply (proj1 (update_port_acl_refresh example_addrset_name security_groups
                  example_port_ips no_acls no_router_options
                  "neutron:port_name" "network:router_interface"
                  "network:router_gateway" port_a port_a_regrouped
                  example_info regroup_txn regroup_txn_eq)).
  left. intros Heq.
  assert ("sg-a" ∈ (list_to_set (security_groups port_a_regrouped)
                    : gset string)) as Hin.
  { rewrite <- Heq. apply elem_of_list_to_set, elem_of_cons. by left. }
  apply elem_of_list_to_set in Hin.
  apply elem_of_cons in Hin as [Hin|Hin]; [done|].
  apply elem_of_cons in Hin as [Hin|Hin]; [done|].
  by apply elem_of_nil in Hin.
Defined.

Lemma update_port_router_columns_witness :
  exists external_ids parent_name tag options enabled port_security d4 d6
         columns,
    SetLSwitchPortCommand "port-a" external_ids parent_name tag options
      enabled port_security d4 d6 false columns ∈ regroup_txn.
Proof.
  destruct (update_port_router_columns example_addrset_name security_groups
              example_port_ips no_acls no_router_options "neutron:port_name"
              "network:router_interface" "network:router_gateway"
              port_a port_a_regrouped example_info regroup_txn regroup_txn_eq)
    as (e & pn & t & o & en & ps & d4 & d6 & cols & Hin & _).
  by exists e, pn, t, o, en, ps, d4, d6, cols.
Defined.

Definition create_pending_txn : list nb_command :=
  match example_create port_c example_info_pending with
  | inr txn => txn
  | inl _ => []
  end.

Lemma create_pending_txn_eq :
  example_create port_c example_info_pending = inr create_pending_txn.
Proof. vm_compute. reflexivity. Defined.

Lemma dhcp_commands_before_port_write_witness :
  dhcp_commands_lead example_info_pending create_pending_txn.
Proof.
  exact (proj1 (dhcp_commands_before_port_write example_ovn_name
                  example_addrset_name security_groups example_port_ips
                  no_acls no_router_options "neutron:port_name"
                  "network:router_interface" "network:router_gateway"
                  row_is_there port_c port_c example_info_pending)
           create_pending_txn create_pending_txn_eq).
Defined.

Lemma create_port_edge_cases_witness :
  exists txn,
    example_create port_a_bare example_info = inr txn /\
    forallb (fun c => negb (is_address_set_update c)) txn = true.
Proof.
  apply (proj2 (create_port_edge_cases example_ovn_name example_addrset_name
                  security_groups example_port_ips no_acls
                  "neutron:port_name" row_is_there port_a_bare example_info)).
  - reflexivity.
  - left. reflexivity.
Defined.

(** ** DHCP options: what a subnet's row carries *)

(** The name servers as the options carry them. *)
Definition dns_server_option (servers : list string) : option string :=
  match servers with
  | [] => None
  | _ => Some ("{" +:+ String.concat ", " servers +:+ "}")
  end.

Section DhcpV4OptionFacts.
Variable default_lease_time : Z.
Variable random_mac : string.

Local Abbreviation dhcpv4_opts :=
  (_get_ovn_dhcpv4_opts default_lease_time random_mac).

(** X11: for a subnet with a gateway, [_get_ovn_dhcpv4_opts] always
    gives the server id and the router, both the gateway, the lease time
    of the configuration and the MTU of the network; the server MAC is the
    one the caller supplied and a random one only when none was supplied;
    the name servers are given exactly when the subnet has some; and the
    options have no key besides these and [classless_static_route]. *)
Theorem dhcpv4_base_options subnet network server_mac gateway :
  gateway_ip subnet = Some gateway -> gateway <> "" ->
  let options := dhcpv4_opts subnet network server_mac in
  options !! "server_id" = Some gateway /\
  options !! "router" = Some gateway /\
  options !! "lease_time" = Some (pretty default_lease_time) /\
  options !! "mtu" = Some (pretty (mtu network)) /\
  options !! "server_mac" =
    Some (match server_mac with
          | Some mac => if String.eqb mac "" then random_mac else mac
          | None => random_mac
          end) /\
  options !! "dns_server" = dns_server_option (dns_nameservers subnet) /\
  dom options ⊆
    ({["server_id"; "router"; "lease_time"; "mtu"; "server_mac";
       "dns_server"; "classless_static_route"]} : gset string).
Proof.
  intros Hgw Hne options. unfold options, _get_ovn_dhcpv4_opts.
  rewrite Hgw. apply String.eqb_neq in Hne. rewrite Hne.
  assert (truthy server_mac =
          match server_mac with
          | Some mac => negb (String.eqb mac "")
          | None => false
          end) as Htruthy by done.
  destruct (negb (String.eqb (append_routes "{" (host_routes subnet)) "{"));
    destruct (dns_nameservers subnet) as [|ns servers];
    destruct server_mac as [mac|]; cbn [truthy default] in *;
    try destruct (String.eqb mac ""); cbn [negb];
    repeat split; try (by simplify_map_eq);
    rewrite ?dom_insert_L, ?dom_empty_L; set_solver.
Qed.

End DhcpV4OptionFacts.

Section DhcpV6OptionFacts.
Variable default_lease_time : Z.
Variable random_mac : string.
Variables DHCPV6_STATELESS_OPT DHCPV6_STATELESS : string.

Local Abbreviation dhcpv6_opts :=
  (_get_ovn_dhcpv6_opts random_mac DHCPV6_STATELESS_OPT DHCPV6_STATELESS).
Local Abbreviation dhcp_opts :=
  (get_ovn_dhcp_options default_lease_time random_mac
     DHCPV6_STATELESS_OPT DHCPV6_STATELESS).

(** X12: a DHCP-enabled subnet that is not IPv4 gets the DHCPv6 options,
    gateway or not: a random server id, the name servers exactly when the
    subnet has some, and the stateless flag, set to [true], exactly when
    the subnet's address mode is DHCPv6-stateless. *)
Theorem dhcpv6_options_of_subnet subnet network server_mac :
  enable_dhcp subnet = true -> ip_version subnet <> IP_VERSION_4 ->
  DHCPV6_STATELESS_OPT <> "server_id" ->
  DHCPV6_STATELESS_OPT <> "dns_server" ->
  let options := dhcp_options (dhcp_opts subnet network server_mac) in
  options = dhcpv6_opts subnet /\
  options !! "server_id" = Some random_mac /\
  options !! "dns_server" = dns_server_option (dns_nameservers subnet) /\
  (options !! DHCPV6_STATELESS_OPT = Some "true" <->
   ipv6_address_mode subnet = Some DHCPV6_STATELESS) /\
  (ipv6_address_mode subnet <> Some DHCPV6_STATELESS ->
   options !! DHCPV6_STATELESS_OPT = None).
Proof.
  intros Hdhcp Hv6 Hid Hdns options.
  assert (options = dhcpv6_opts subnet) as ->.
  { unfold options, get_ovn_dhcp_options. cbn. rewrite Hdhcp.
    by apply Z.eqb_neq in Hv6 as ->. }
  split; [done|]. unfold _get_ovn_dhcpv6_opts.
  destruct (decide (ipv6_address_mode subnet = Some DHCPV6_STATELESS))
    as [Hmode|Hmode].
  - rewrite (bool_decide_eq_true_2 _ Hmode).
    destruct (dns_nameservers subnet) as [|ns servers];
      repeat split; try done; by simplify_map_eq.
  - rewrite (bool_decide_eq_false_2 _ Hmode).
    destruct (dns_nameservers subnet) as [|ns servers];
      repeat split; try done; by simplify_map_eq.
Qed.

End DhcpV6OptionFacts.

Section SubnetRowFacts.
Variable DHCPV6_STATELESS_OPT : string.
Variable ip_address_version : string -> Z.
Variable get_subnets_dhcp_options : list string -> list dhcp_options_row.

Local Abbreviation subnet_row :=
  (_get_subnet_dhcp_options_for_port DHCPV6_STATELESS_OPT
     ip_address_version get_subnets_dhcp_options).

(** A row that is not marked DHCPv6-stateless. *)
Definition stateful (row : dhcp_options_row) : Prop :=
  row_options row !! DHCPV6_STATELESS_OPT <> Some "true".

(** X13: among the subnet-level rows found for a port,
    [_get_subnet_dhcp_options_for_port] returns the first one for IPv4;
    for IPv6 it returns the first row that is not DHCPv6-stateless, so a
    port with stateful and stateless subnets gets a stateful one, and the
    first row only when all are stateless. *)
Theorem subnet_row_prefers_stateful p version :
  (version <> IP_VERSION_6 ->
   subnet_row p version =
     head (subnet_rows ip_address_version get_subnets_dhcp_options p version)) /\
  (version = IP_VERSION_6 ->
   let rows :=
     subnet_rows ip_address_version get_subnets_dhcp_options p version in
     (forall r, r ∈ rows -> stateful r ->
        exists before row after,
          rows = before ++ row :: after /\
          subnet_row p version = Some row /\ stateful row /\
          Forall (fun r' => ~ stateful r') before) /\
     ((forall r, r ∈ rows -> ~ stateful r) ->
      subnet_row p version = head rows)).
Proof.
  unfold _get_subnet_dhcp_options_for_port, subnet_rows, port_subnets.
  split.
  - intros Hv%Z.eqb_neq. rewrite Hv.
    by destruct (get_subnets_dhcp_options _).
  - intros ->. cbn [Z.eqb IP_VERSION_6 Pos.eqb].
    set (rows := get_subnets_dhcp_options _).
    assert (forall rows0 : list dhcp_options_row,
              match List.find (fun opts =>
                      bool_decide (row_options opts !! DHCPV6_STATELESS_OPT
                                   <> Some "true")) rows0 with
              | Some row =>
                  exists before after,
                    rows0 = before ++ row :: after /\ stateful row /\
                    Forall (fun r' => ~ stateful r') before
              | None => forall r, r ∈ rows0 -> ~ stateful r
              end) as Hfind.
    { induction rows0 as [|r rows0 IH]; cbn [List.find].
      - intros r Hr. by apply elem_of_nil in Hr.
      - destruct (bool_decide _) eqn:Hr.
        + apply bool_decide_eq_true_1 in Hr. by exists [], rows0.
        + apply bool_decide_eq_false_1 in Hr.
          destruct (List.find _ rows0) as [row|].
          * destruct IH as (before & after & -> & Hrow & Hbefore).
            exists (r :: before), after. split; [done|]. split; [done|].
            by constructor.
          * intros r' [->|Hr']%elem_of_cons; [done|by apply IH]. }
    specialize (Hfind rows). split.
    + intros r Hr Hstateful.
      destruct rows as [|first rest] eqn:Hrows; [by apply elem_of_nil in Hr|].
      destruct (List.find _ (first :: rest)) as [row|].
      * destruct Hfind as (before & after & Heq & Hrow & Hbefore).
        by exists before, row, after.
      * by destruct (Hfind r Hr).
    + intros Hall. destruct rows as [|first rest] eqn:Hrows; [done|].
      destruct (List.find _ (first :: rest)) as [row|]; [|done].
      destruct Hfind as (before & after & Heq & Hrow & _).
      exfalso. apply (Hall row); [|done]. rewrite Heq.
      apply elem_of_app. right. apply elem_of_cons. by left.
Qed.

End SubnetRowFacts.

Definition subnet_v6_stateless : subnet :=
  {| subnet_ident := "subnet-6"; cidr := "2001:db8::/64";
     ip_version := 6; enable_dhcp := true;
     gateway_ip := None; dns_nameservers := ["2001:db8::53"];
     host_routes := []; ipv6_address_mode := Some "dhcpv6-stateless" |}.

Definition stateless_row : dhcp_options_row :=
  {| row_uuid := "uuid-6a"; row_cidr := "2001:db8:a::/64";
     row_options := <["dhcpv6_stateless" := "true"]>
                      {["server_id" := "fa:16:3e:00:00:6a"]};
     row_external_ids := {["subnet_id" := "subnet-6a"]} |}.

Definition stateful_row : dhcp_options_row :=
  {| row_uuid := "uuid-6b"; row_cidr := "2001:db8:b::/64";
     row_options := {["server_id" := "fa:16:3e:00:00:6b"]};
     row_external_ids := {["subnet_id" := "subnet-6b"]} |}.

Definition rows_v6 (subnets : list string) : list dhcp_options_row :=
  [stateless_row; stateful_row].

Lemma dhcpv4_base_options_witness :
  _get_ovn_dhcpv4_opts 43200 "fa:16:3e:00:00:01" subnet_with_route
    network_1500 (Some "fa:16:3e:aa:bb:cc") !! "server_mac"
  = Some "fa:16:3e:aa:bb:cc".
Proof.
  refine (proj1 (proj2 (proj2 (proj2 (proj2
    (dhcpv4_base_options 43200 "fa:16:3e:00:00:01" subnet_with_route
       network_1500 (Some "fa:16:3e:aa:bb:cc") "192.168.1.1" eq_refl _))))));
    discriminate.
Defined.

Lemma dhcpv6_options_of_subnet_witness :
  dhcp_options
    (get_ovn_dhcp_options 43200 "fa:16:3e:00:00:01" "dhcpv6_stateless"
       "dhcpv6-stateless" subnet_v6_stateless network_1500 None)
    !! "dhcpv6_stateless" = Some "true".
Proof.
  refine (proj2 (proj1 (proj2 (proj2 (proj2
    (dhcpv6_options_of_subnet 43200 "fa:16:3e:00:00:01" "dhcpv6_stateless"
       "dhcpv6-stateless" subnet_v6_stateless network_1500 None
       eq_refl _ _ _))))) eq_refl); discriminate.
Defined.

Lemma subnet_row_prefers_stateful_witness :
  exists row,
    _get_subnet_dhcp_options_for_port "dhcpv6_stateless" (fun _ => 6)
      rows_v6 port_a 6 = Some row /\
    stateful "dhcpv6_stateless" row.
Proof.
  destruct (proj1 (proj2 (subnet_row_prefers_stateful "dhcpv6_stateless"
                            (fun _ => 6) rows_v6 port_a 6) eq_refl)
              stateful_row)
    as (before & row & after & _ & Hrow & Hstateful & _).
  - apply elem_of_cons. right. apply elem_of_cons. by left.
  - discriminate.
  - by exists row.
Defined.


(** ** Binding profiles: what validation lets through *)

Lemma two_key_map (profile : gmap string pyval) k1 k2 a b :
  k1 <> k2 -> profile !! k1 = Some a -> profile !! k2 = Some b ->
  size profile = 2%nat ->
  profile = <[k2 := b]> (<[k1 := a]> ∅).
Proof.
  intros Hne Ha Hb Hsize. symmetry. apply map_subseteq_size_eq.
  - apply map_subseteq_spec. intros i x Hi.
    destruct (decide (i = k2)) as [->|Hi2].
    { rewrite lookup_insert_eq in Hi. congruence. }
    rewrite lookup_insert_ne in Hi by done.
    destruct (decide (i = k1)) as [->|Hi1].
    { rewrite lookup_insert_eq in Hi. congruence. }
    by rewrite lookup_insert_ne, lookup_empty in Hi.
  - rewrite size_two_params by done. lia.
Qed.

(** A profile that has none of the keys of the parameter sets. *)
Definition no_known_key (profile : gmap string pyval) : Prop :=
  Forall (fun key => profile !! key = None)
         (concat (map (fun param_set => param_set.*1)
                      OVN_PORT_BINDING_PROFILE_PARAMS)).

Lemma no_known_key_lookups profile :
  no_known_key profile <->
  profile !! "parent_name" = None /\ profile !! "tag" = None /\
  profile !! "vtep-physical-switch" = None /\
  profile !! "vtep-logical-switch" = None.
Proof.
  unfold no_known_key. cbn. rewrite !Forall_cons. split.
  - by intros (? & ? & ? & ? & _).
  - intros (? & ? & ? & ?). repeat split; done.
Qed.

Section ValidatedProfiles.
Context {DB : Type}.
Variable plugin_get_port : DB -> pyval -> exn + port.
Variable int_of_str : string -> option Z.

Local Abbreviation validate :=
  (validate_and_get_data_from_binding_profile plugin_get_port int_of_str).

Lemma validate_reads_only p (w : world DB) : (validate p w).1 = w.
Proof.
  unfold validate_and_get_data_from_binding_profile.
  destruct (binding_profile p) as [profile|]; [|done].
  unfold bind, lift, get_port, raise, ret.
  destruct (select_param_set _ _ _ _) as [e|[param_set param_dict]]; [done|].
  destruct (bool_decide (param_dict = ∅)); [done|].
  destruct (check_param_types _ _) as [e|[]]; [done|].
  destruct (has_key "parent_name" param_set).
  - destruct (param_dict !! "parent_name") as [parent|]; [|done].
    destruct (plugin_get_port (neutron w) parent) as [e|q]; [done|].
    destruct (has_key "tag" param_set); [|done].
    destruct (param_dict !! "tag") as [v|]; [|done].
    destruct (py_int int_of_str v) as [e|tag]; [done|].
    by destruct (bool_decide _).
  - destruct (has_key "tag" param_set); [|done].
    destruct (param_dict !! "tag") as [v|]; [|done].
    destruct (py_int int_of_str v) as [e|tag]; [done|].
    by destruct (bool_decide _).
Qed.

(** X14: a port without binding profile, and one whose profile has none
    of the keys of the parameter sets (the empty profile, or one with
    unknown keys only), passes validation with the empty result; no port
    is looked up and nothing else happens. *)
Theorem profile_without_known_keys p (w : world DB) :
  (binding_profile p = None \/
   exists profile, binding_profile p = Some profile /\ no_known_key profile) ->
  validate p w = (w, inr ∅).
Proof.
  intros Hp. rewrite (surjective_pairing (validate p w)), validate_reads_only.
  f_equal. destruct Hp as [Hnone|(profile & Hprofile & Hkeys)].
  - unfold validate_and_get_data_from_binding_profile. by rewrite Hnone.
  - apply no_known_key_lookups in Hkeys as (H1 & H2 & H3 & H4).
    rewrite (validate_unfold _ _ p profile w Hprofile), select_param_set_table.
    by rewrite H1, H2, H3, H4.
Qed.

(** A complete gateway profile: the type checks only. *)
Lemma validate_vtep p profile a b (w : world DB) :
  binding_profile p = Some profile ->
  profile !! "parent_name" = None -> profile !! "tag" = None ->
  profile !! "vtep-physical-switch" = Some a ->
  profile !! "vtep-logical-switch" = Some b ->
  size profile = 2%nat ->
  (validate p w).2 =
  if negb (isinstance a string_types) then
    inl (InvalidInput (MsgInvalidType "vtep-physical-switch" a))
  else if negb (isinstance b string_types) then
    inl (InvalidInput (MsgInvalidType "vtep-logical-switch" b))
  else inr (<["vtep-logical-switch" := b]>
              (<["vtep-physical-switch" := a]> ∅)).
Proof.
  intros Hprofile Hp Ht Ha Hb Hsize.
  rewrite (validate_unfold _ _ p profile w Hprofile), select_param_set_table.
  rewrite Hp, Ht, Ha, Hb, bool_decide_eq_true_2 by done.
  rewrite bool_decide_eq_false_2.
  2:{ intros H. apply (f_equal (fun m => m !! "vtep-logical-switch")) in H.
      by rewrite lookup_insert_eq in H. }
  unfold vtep_params. cbn [check_param_types].
  rewrite lookup_insert_ne, lookup_insert_eq by done.
  destruct (negb (isinstance a string_types)); [done|].
  rewrite lookup_insert_eq.
  destruct (negb (isinstance b string_types)); [done|].
  reflexivity.
Qed.

(** X15: what [validate_and_get_data_from_binding_profile] returns when
    it succeeds on a profile: the empty dictionary when the profile has
    none of the known keys, and otherwise the whole profile, which then is
    exactly one complete, well-typed parameter set: a parent name that is
    a string and names a port that exists together with an integer tag in
    [0, 4095], or the two gateway switch names, both strings. *)
Theorem validated_profile_is_a_parameter_set p profile d (w : world DB) :
  binding_profile p = Some profile ->
  (validate p w).2 = inr d ->
  (no_known_key profile /\ d = ∅) \/
  (d = profile /\
   ((exists parent t,
       profile = <["tag" := t]> {["parent_name" := VStr parent]} /\
       isinstance t integer_types = true /\
       (exists q, plugin_get_port (neutron w) (VStr parent) = inr q) /\
       exists z, py_int int_of_str t = inr z /\ 0 <= z <= 4095) \/
    (exists a b,
       profile = <["vtep-logical-switch" := VStr b]>
                   {["vtep-physical-switch" := VStr a]}))).
Proof.
  intros Hprofile Hd.
  destruct (profile !! "parent_name") as [a|] eqn:Ha,
           (profile !! "tag") as [b|] eqn:Hb.
  - destruct (decide (size profile = 2%nat)) as [Hsize|Hsize].
    2:{ rewrite (validate_unfold _ _ p profile w Hprofile),
          select_param_set_table, Ha, Hb in Hd.
        by rewrite bool_decide_eq_false_2 in Hd. }
    rewrite (validate_sub_interface _ _ p profile a b w) in Hd by done.
    destruct (isinstance b integer_types) eqn:Hint;
      destruct a as [parent| | |]; try done.
    cbn [isinstance negb] in Hd.
    destruct (plugin_get_port (neutron w) (VStr parent)) as [e|q] eqn:Hget;
      [done|].
    destruct (py_int int_of_str b) as [e|z] eqn:Hz; [done|].
    destruct (bool_decide (z < 0 \/ z > 4095)) eqn:Hrange; [done|].
    apply bool_decide_eq_false_1 in Hrange. injection Hd as <-.
    right. rewrite insert_empty.
    split; [symmetry; by apply two_key_map|]. left.
    exists parent, b. split; [by apply two_key_map|].
    split; [done|]. split; [by exists q|]. exists z. split; [done|lia].
  - rewrite (validate_unfold _ _ p profile w Hprofile),
      select_param_set_table, Ha, Hb in Hd. done.
  - rewrite (validate_unfold _ _ p profile w Hprofile),
      select_param_set_table, Ha, Hb in Hd. done.
  - destruct (profile !! "vtep-physical-switch") as [a|] eqn:Hps,
             (profile !! "vtep-logical-switch") as [b|] eqn:Hls.
    + destruct (decide (size profile = 2%nat)) as [Hsize|Hsize].
      2:{ rewrite (validate_unfold _ _ p profile w Hprofile),
            select_param_set_table, Ha, Hb, Hps, Hls in Hd.
          by rewrite bool_decide_eq_false_2 in Hd. }
      rewrite (validate_vtep p profile a b w) in Hd by done.
      destruct a as [a| | |]; try done. destruct b as [b| | |]; try done.
      injection Hd as <-.
      right. rewrite insert_empty.
      split; [symmetry; by apply two_key_map|]. right.
      exists a, b. by apply two_key_map.
    + rewrite (validate_unfold _ _ p profile w Hprofile),
        select_param_set_table, Ha, Hb, Hps, Hls in Hd. done.
    + rewrite (validate_unfold _ _ p profile w Hprofile),
        select_param_set_table, Ha, Hb, Hps, Hls in Hd. done.
    + left. split; [by apply no_known_key_lookups|].
      rewrite (validate_unfold _ _ p profile w Hprofile),
        select_param_set_table, Ha, Hb, Hps, Hls in Hd.
      rewrite bool_decide_eq_true_2 in Hd by done. by injection Hd as <-.
Qed.

(** X16: a gateway profile of exactly the two switch names, both
    strings, is accepted and returned as it is, whatever ports exist: the
    lookup of a parent port is for sub-interface profiles only. *)
Theorem vtep_profile_accepted p a b (w : world DB) :
  binding_profile p =
    Some (<["vtep-logical-switch" := VStr b]>
            {["vtep-physical-switch" := VStr a]}) ->
  validate p w =
    (w, inr (<["vtep-logical-switch" := VStr b]>
               {["vtep-physical-switch" := VStr a]})).
Proof.
  intros Hprofile.
  rewrite (surjective_pairing (validate p w)), validate_reads_only.
  f_equal. rewrite <- insert_empty in *.
  by rewrite (validate_vtep p _ (VStr a) (VStr b) w Hprofile).
Qed.

(** X17: a profile of exactly one complete parameter set with a value of
    the wrong type is rejected with [InvalidInput] naming the key and the
    value, before any port is looked up: the parent name and the switch
    names must be strings and the tag an integer, so that a tag given as a
    string of digits is refused. *)
Theorem wrongly_typed_profile_rejected p profile (w : world DB) :
  binding_profile p = Some profile -> size profile = 2%nat ->
  (forall a b,
     profile !! "parent_name" = Some a -> profile !! "tag" = Some b ->
     isinstance a string_types = false \/ isinstance b integer_types = false ->
     exists key value,
       profile !! key = Some value /\
       (validate p w).2 = inl (InvalidInput (MsgInvalidType key value))) /\
  (forall a b,
     profile !! "vtep-physical-switch" = Some a ->
     profile !! "vtep-logical-switch" = Some b ->
     isinstance a string_types = false \/ isinstance b string_types = false ->
     exists key value,
       profile !! key = Some value /\
       (validate p w).2 = inl (InvalidInput (MsgInvalidType key value))) /\
  (forall parent digits,
     profile !! "parent_name" = Some (VStr parent) ->
     profile !! "tag" = Some (VStr digits) ->
     (validate p w).2 =
       inl (InvalidInput (MsgInvalidType "tag" (VStr digits)))).
Proof.
  intros Hprofile Hsize. split; [|split].
  - intros a b Ha Hb Hbad.
    rewrite (validate_sub_interface _ _ p profile a b w) by done.
    destruct (isinstance a string_types) eqn:Hia; cbn [negb].
    + destruct Hbad as [Hbad|Hbad]; [done|]. rewrite Hbad. cbn [negb].
      by exists "tag", b.
    + by exists "parent_name", a.
  - intros a b Ha Hb Hbad.
    assert (profile !! "parent_name" = None /\ profile !! "tag" = None)
      as [Hp Ht].
    { split; apply eq_None_not_Some; intros Hsome.
      - by apply (size_three_keys profile "vtep-physical-switch"
                    "vtep-logical-switch" "parent_name");
          rewrite ?Ha, ?Hb.
      - by apply (size_three_keys profile "vtep-physical-switch"
                    "vtep-logical-switch" "tag");
          rewrite ?Ha, ?Hb. }
    rewrite (validate_vtep p profile a b w) by done.
    destruct (isinstance a string_types) eqn:Hia; cbn [negb].
    + destruct Hbad as [Hbad|Hbad]; [done|]. rewrite Hbad. cbn [negb].
      by exists "vtep-logical-switch", b.
    + by exists "vtep-physical-switch", a.
  - intros parent digits Ha Hb.
    by rewrite (validate_sub_interface _ _ p profile (VStr parent)
                  (VStr digits) w).
Qed.
End ValidatedProfiles.

(** ** Port precommit: validation first, then the provisioning block *)

Section PortPrecommit.
Context {DB : Type}.
Variable plugin_get_port : DB -> pyval -> exn + port.
Variable db_add_provisioning_component : DB -> string -> DB * option exn.
Variable chassis_exists : string -> bool.
Variable int_of_str : string -> option Z.

Local Abbreviation validate :=
  (validate_and_get_data_from_binding_profile plugin_get_port int_of_str).
Local Abbreviation precommit :=
  (update_port_precommit plugin_get_port db_add_provisioning_component
     chassis_exists int_of_str).
Local Abbreviation create_precommit :=
  (create_port_precommit plugin_get_port db_add_provisioning_component
     chassis_exists int_of_str).

Lemma provisioning_required_true p host original_host (w : world DB) :
  provisioning_conditions chassis_exists p host original_host ->
  _is_port_provisioning_required chassis_exists p host original_host w
  = (w, inr true).
Proof.
  intros (Hvnic & Hstatus & Hhost & Hchanged & h & -> & Hchassis).
  unfold _is_port_provisioning_required.
  apply str_in_spec in Hvnic. rewrite Hvnic. cbn [negb].
  apply String.eqb_neq in Hstatus. rewrite Hstatus.
  cbn [truthy] in Hhost. apply negb_true_iff in Hhost. rewrite Hhost.
  rewrite (bool_decide_eq_false_2 _ Hchanged), Hchassis. done.
Qed.

(** What the insertion of the provisioning block of the port leaves. *)
Definition block_inserted (p : port) (w : world DB)
    : world DB * (exn + unit) :=
  (World (db_add_provisioning_component (neutron w) (port_id p)).1
         (events w ++ [EvAddProvisioningComponent (port_id p)]),
   match (db_add_provisioning_component (neutron w) (port_id p)).2 with
   | Some e => inl e
   | None => inr tt
   end).

(** X18: both port precommits validate the binding profile before
    anything else: when the validation raises, [create_port_precommit]
    and [update_port_precommit] raise the same exception and leave the
    world as it was, so no provisioning block is inserted for a port with
    an invalid profile; when the validation passes and the provisioning
    conditions hold, on creation with no original host, the precommit
    does one thing, the insertion of the provisioning block of this port,
    and its outcome is the outcome of that insertion. *)
Theorem port_precommit_validates_first p host original_host (w : world DB) :
  (forall e, (validate p w).2 = inl e ->
     create_precommit p host w = (w, inl e) /\
     precommit p host original_host w = (w, inl e)) /\
  (forall d, (validate p w).2 = inr d ->
     provisioning_conditions chassis_exists p host None ->
     create_precommit p host w = block_inserted p w) /\
  (forall d, (validate p w).2 = inr d ->
     provisioning_conditions chassis_exists p host original_host ->
     precommit p host original_host w = block_inserted p w).
Proof.
  pose proof (validate_reads_only plugin_get_port int_of_str p w) as Hw.
  unfold block_inserted. split; [|split].
  - intros e He. split.
    + unfold create_port_precommit. unfold bind at 1.
      destruct (validate p w) as [w' [e'|d]]; cbn in *; congruence.
    + unfold update_port_precommit. unfold bind at 1.
      destruct (validate p w) as [w' [e'|d]]; cbn in *; congruence.
  - intros d Hd Hcond. unfold create_port_precommit. unfold bind at 1.
    destruct (validate p w) as [w' [e'|d']]; cbn in Hw, Hd; [done|].
    subst w'. unfold bind.
    rewrite (provisioning_required_true p host None w Hcond).
    unfold _insert_port_provisioning_block, add_provisioning_component.
    by destruct (db_add_provisioning_component (neutron w) (port_id p)).
  - intros d Hd Hcond. unfold update_port_precommit. unfold bind at 1.
    destruct (validate p w) as [w' [e'|d']]; cbn in Hw, Hd; [done|].
    subst w'. unfold bind.
    rewrite (provisioning_required_true p host original_host w Hcond).
    unfold _insert_port_provisioning_block, add_provisioning_component.
    by destruct (db_add_provisioning_component (neutron w) (port_id p)).
Qed.

End PortPrecommit.

Definition unknown_keys_profile : gmap string pyval :=
  <["flavor" := VStr "gold"]> {["weight" := VInt 3]}.

Definition gateway_profile : gmap string pyval :=
  <["vtep-logical-switch" := VStr "lsw1"]>
    {["vtep-physical-switch" := VStr "psw1"]}.

Definition digits_tag_profile : gmap string pyval :=
  <["tag" := VStr "5"]> {["parent_name" := VStr "port-a"]}.

Lemma profile_without_known_keys_witness :
  validate_and_get_data_from_binding_profile list_get_port no_int
    (with_profile port_a unknown_keys_profile) world_with_port_a
  = (world_with_port_a, inr ∅).
Proof.
  apply (profile_without_known_keys list_get_port no_int
           (with_profile port_a unknown_keys_profile) world_with_port_a).
  right. exists unknown_keys_profile. split; [reflexivity|].
  apply no_known_key_lookups. repeat split; reflexivity.
Defined.

Lemma validated_profile_is_a_parameter_set_witness :
  (no_known_key gateway_profile /\ gateway_profile = ∅) \/
  (gateway_profile = gateway_profile /\
   ((exists parent t,
       gateway_profile = <["tag" := t]> {["parent_name" := VStr parent]} /\
       isinstance t integer_types = true /\
       (exists q, list_get_port (neutron world_with_port_a) (VStr parent)
                  = inr q) /\
       exists z, py_int no_int t = inr z /\ 0 <= z <= 4095) \/
    (exists a b,
       gateway_profile = <["vtep-logical-switch" := VStr b]>
                           {["vtep-physical-switch" := VStr a]}))).
Proof.
  apply (validated_profile_is_a_parameter_set list_get_port no_int
           (with_profile port_a gateway_profile) gateway_profile
           gateway_profile world_with_port_a eq_refl).
  vm_compute. reflexivity.
Defined.

Lemma vtep_profile_accepted_witness :
  validate_and_get_data_from_binding_profile list_get_port no_int
    (with_profile port_a gateway_profile) (World [] [])
  = (World [] [], inr gateway_profile).
Proof.
  apply (vtep_profile_accepted list_get_port no_int
           (with_profile port_a gateway_profile) "psw1" "lsw1" (World [] [])).
  reflexivity.
Defined.

Lemma wrongly_typed_profile_rejected_witness :
  (validate_and_get_data_from_binding_profile list_get_port no_int
     (with_profile port_a digits_tag_profile) world_with_port_a).2
  = inl (InvalidInput (MsgInvalidType "tag" (VStr "5"))).
Proof.
  apply (proj2 (proj2 (wrongly_typed_profile_rejected list_get_port no_int
                         (with_profile port_a digits_tag_profile)
                         digits_tag_profile world_with_port_a
                         eq_refl eq_refl)) "port-a" "5");
    reflexivity.
Defined.

Lemma port_precommit_validates_first_witness :
  create_port_precommit list_get_port list_add_component (fun _ => true)
    no_int (with_profile port_a mixed_profile) (Some "host-1")
    world_with_port_a
  = (world_with_port_a,
     inl (InvalidInput (MsgAllRequired ["parent_name"; "tag"]))) /\
  create_port_precommit list_get_port list_add_component (fun _ => true)
    no_int port_a (Some "host-1") world_with_port_a
  = (World [port_a] [EvAddProvisioningComponent "port-a"], inr tt).
Proof.
  split.
  - apply (proj1 (port_precommit_validates_first list_get_port
                    list_add_component (fun _ => true) no_int
                    (with_profile port_a mixed_profile) (Some "host-1") None
                    world_with_port_a)).
    vm_compute. reflexivity.
  - apply (proj1 (proj2 (port_precommit_validates_first list_get_port
                           list_add_component (fun _ => true) no_int
                           port_a (Some "host-1") None world_with_port_a))
             ∅ eq_refl).
    unfold provisioning_conditions. vm_compute.
    repeat split; try discriminate.
    + apply list_elem_of_here.
    + by exists "host-1".
Defined.

(** ** Networks in the northbound database *)

Section NetworkFacts.
Variable int_of_str : string -> option Z.
Variable ovn_name : string -> string.
Variable ovn_provnet_port_name : string -> string.
Variable OVN_NETWORK_NAME_EXT_ID_KEY : string.
Variable PHYSICAL_NETWORK : string.
Variable SEGMENTATION_ID : string.
Variable provider_attributes : network -> gmap string attribute.

Local Abbreviation postcommit :=
  (create_network_postcommit int_of_str ovn_name ovn_provnet_port_name
     OVN_NETWORK_NAME_EXT_ID_KEY PHYSICAL_NETWORK SEGMENTATION_ID
     provider_attributes).

(** A key of the network dictionary without value: absent, not
    specified, or [None]. *)
Definition unset (a : option attribute) : Prop :=
  a = None \/ a = Some ATTR_NOT_SPECIFIED \/ a = Some (Attr VNone).

(** X19: what [create_network_postcommit] writes.  The transaction
    always creates the logical switch named after the network, with the
    network's name as its only external id.  A network whose physical
    network is absent, not specified, [None] or the empty string gets
    nothing else; a network with a physical network of a name gets one
    [localnet] port as well, for this physical network, which is untagged
    when the segmentation id is absent, not specified, [None] or 0 and
    carries the segmentation id as tag otherwise; when the segmentation id
    is a string that is no integer the call raises and nothing is
    written. *)
Theorem create_network_postcommit_cases (net : network) :
  let attributes := provider_attributes net in
  let switch :=
    AddLSwitchCommand (ovn_name (net_id net))
      {[OVN_NETWORK_NAME_EXT_ID_KEY := net_name net]} in
  let provnet physnet tag :=
    AddProvnetPortCommand (ovn_provnet_port_name (net_id net))
      (ovn_name (net_id net)) ["unknown"] ∅ "localnet" tag
      {["network_name" := VStr physnet]} in
  (unset (attributes !! PHYSICAL_NETWORK) \/
   attributes !! PHYSICAL_NETWORK = Some (Attr (VStr "")) ->
   postcommit net = inr [switch]) /\
  (forall physnet,
     attributes !! PHYSICAL_NETWORK = Some (Attr (VStr physnet)) ->
     physnet <> "" ->
     (unset (attributes !! SEGMENTATION_ID) \/
      attributes !! SEGMENTATION_ID = Some (Attr (VInt 0)) ->
      postcommit net = inr [switch; provnet physnet None]) /\
     (forall segid,
        attributes !! SEGMENTATION_ID = Some (Attr (VInt segid)) ->
        segid <> 0 ->
        postcommit net = inr [switch; provnet physnet (Some segid)]) /\
     (forall text,
        attributes !! SEGMENTATION_ID = Some (Attr (VStr text)) ->
        (forall segid, int_of_str text = Some segid ->
           postcommit net =
             inr [switch;
                  provnet physnet (if segid =? 0 then None else Some segid)]) /\
        (int_of_str text = None ->
         postcommit net = inl (OtherError "ValueError")))).
Proof.
  intros attributes switch provnet.
  unfold create_network_postcommit, create_network_in_ovn, _get_attribute,
    create_provnet_port.
  fold attributes. rewrite insert_empty. fold switch. split.
  - by intros [[-> | [-> | ->]] | ->].
  - intros physnet -> Hname. cbn [py_truthy].
    apply String.eqb_neq in Hname. rewrite Hname. cbn [negb].
    split; [|split].
    + by intros [[-> | [-> | ->]] | ->].
    + intros segid -> Hsegid. cbn [py_int app].
      apply Z.eqb_neq in Hsegid. by rewrite Hsegid.
    + intros text ->. cbn [py_int]. split.
      * by intros segid ->.
      * by intros ->.
Qed.

End NetworkFacts.

Definition provider_of (physnet segid : option attribute) (net : network)
    : gmap string attribute :=
  from_option (fun a => {["provider:physical_network" := a]}) ∅ physnet ∪
  from_option (fun a => {["provider:segmentation_id" := a]}) ∅ segid.

Definition example_provnet_name (id : string) : string := "provnet-" +:+ id.

Definition network_blue : network :=
  {| net_id := "n1"; net_name := "blue"; mtu := 1500 |}.

Lemma create_network_postcommit_cases_witness :
  create_network_postcommit no_int example_ovn_name example_provnet_name
    "neutron:network_name" "provider:physical_network"
    "provider:segmentation_id"
    (provider_of (Some (Attr (VStr "physnet1"))) (Some (Attr (VInt 0))))
    network_blue
  = inr [AddLSwitchCommand "neutron-n1" {["neutron:network_name" := "blue"]};
         AddProvnetPortCommand "provnet-n1" "neutron-n1" ["unknown"] ∅
           "localnet" None {["network_name" := VStr "physnet1"]}].
Proof.
  apply (proj1 (proj2 (create_network_postcommit_cases no_int
           example_ovn_name example_provnet_name "neutron:network_name"
           "provider:physical_network" "provider:segmentation_id"
           (provider_of (Some (Attr (VStr "physnet1"))) (Some (Attr (VInt 0))))
           network_blue) "physnet1" eq_refl ltac:(discriminate))).
  right. reflexivity.
Defined.

(** ** Subnets in the northbound database *)

Section SubnetFacts.
Variable default_lease_time : Z.
Variable random_mac : string.
Variable DHCPV6_STATELESS_OPT : string.
Variable DHCPV6_STATELESS : string.
Variable IPV6_SLAAC : string.
Variable compose_dhcp_options_commands :
  string -> ovn_dhcp_options -> list nb_operation.

Local Abbreviation create_subnet :=
  (create_subnet_postcommit default_lease_time random_mac
     DHCPV6_STATELESS_OPT DHCPV6_STATELESS IPV6_SLAAC
     compose_dhcp_options_commands).
Local Abbreviation update_subnet :=
  (update_subnet_postcommit default_lease_time random_mac
     DHCPV6_STATELESS_OPT DHCPV6_STATELESS IPV6_SLAAC
     compose_dhcp_options_commands).

Definition is_slaac (s : subnet) : Prop :=
  ip_version s = IP_VERSION_6 /\ ipv6_address_mode s = Some IPV6_SLAAC.

(** The options of a subnet that serves none. *)
Definition no_options (s : subnet) : ovn_dhcp_options :=
  {| dhcp_cidr := cidr s;
     dhcp_options := ∅;
     dhcp_external_ids := {["subnet_id" := subnet_ident s]} |}.

(** X20: when the subnet postcommits leave the northbound database
    alone: on creation of a subnet with DHCP disabled, on an update when
    DHCP is disabled before and after, and, whatever the DHCP flags say,
    for an IPv6 subnet in SLAAC mode. *)
Theorem subnet_postcommit_writes_nothing (s original : subnet)
    (net : network) :
  (enable_dhcp s = false -> create_subnet s net = None) /\
  (enable_dhcp s = false -> enable_dhcp original = false ->
   update_subnet s original net = None) /\
  (is_slaac s ->
   create_subnet s net = None /\ update_subnet s original net = None).
Proof.
  unfold create_subnet_postcommit, update_subnet_postcommit,
    add_subnet_dhcp_options_in_ovn.
  split; [by intros ->|]. split; [by intros -> ->|].
  intros [-> Hmode]. rewrite (bool_decide_eq_true_2 _ Hmode). cbn.
  by destruct (enable_dhcp s), (enable_dhcp original).
Qed.

(** X21: the two ways to an entry without options.  An update that
    turns DHCP off does write to the northbound database: it composes the
    commands for the subnet's CIDR with an empty options column, so that
    the row stays and serves nothing.  Creating an IPv4 subnet with DHCP on
    but without a gateway composes the very same commands. *)
Theorem subnet_entry_without_options (s original : subnet) (net : network) :
  ~ is_slaac s ->
  (enable_dhcp s = false -> enable_dhcp original = true ->
   update_subnet s original net =
     Some (compose_dhcp_options_commands (subnet_ident s) (no_options s))) /\
  (enable_dhcp s = true -> ip_version s = IP_VERSION_4 ->
   gateway_ip s = None \/ gateway_ip s = Some "" ->
   create_subnet s net =
     Some (compose_dhcp_options_commands (subnet_ident s) (no_options s))).
Proof.
  intros Hslaac.
  assert ((ip_version s =? IP_VERSION_6)
          && bool_decide (ipv6_address_mode s = Some IPV6_SLAAC) = false)
    as Hfalse.
  { apply not_true_is_false. intros [H1 H2]%andb_prop.
    apply Hslaac. split; [by apply Z.eqb_eq|]. by apply bool_decide_eq_true in H2. }
  unfold create_subnet_postcommit, update_subnet_postcommit,
    add_subnet_dhcp_options_in_ovn, get_ovn_dhcp_options, no_options.
  rewrite Hfalse. split.
  - by intros -> ->.
  - intros -> -> Hgw. cbn [Z.eqb IP_VERSION_4 Pos.eqb].
    unfold _get_ovn_dhcpv4_opts. by destruct Hgw as [->| ->].
Qed.

End SubnetFacts.

Definition compose_add (subnet_id : string) (o : ovn_dhcp_options)
    : list nb_operation :=
  [PortCommand (AddDHCPOptionsCommand
     {| cmd_subnet := subnet_id; cmd_port := None; cmd_cidr := dhcp_cidr o;
        cmd_options := dhcp_options o;
        cmd_external_ids := dhcp_external_ids o |})].

Definition with_dhcp (s : subnet) (enabled : bool) : subnet :=
  {| subnet_ident := subnet_ident s; cidr := cidr s;
     ip_version := ip_version s; enable_dhcp := enabled;
     gateway_ip := gateway_ip s; dns_nameservers := dns_nameservers s;
     host_routes := host_routes s;
     ipv6_address_mode := ipv6_address_mode s |}.

Definition subnet_slaac : subnet :=
  {| subnet_ident := "s6"; cidr := "2001:db8::/64"; ip_version := 6;
     enable_dhcp := true; gateway_ip := None; dns_nameservers := [];
     host_routes := []; ipv6_address_mode := Some "slaac" |}.

Lemma subnet_postcommit_writes_nothing_witness :
  create_subnet_postcommit 43200 "fa:16:3e:00:00:01" "dhcpv6_stateless"
    "dhcpv6-stateless" "slaac" compose_add subnet_slaac network_1500 = None /\
  update_subnet_postcommit 43200 "fa:16:3e:00:00:01" "dhcpv6_stateless"
    "dhcpv6-stateless" "slaac" compose_add subnet_slaac subnet_slaac
    network_1500 = None.
Proof.
  apply (proj2 (proj2 (subnet_postcommit_writes_nothing 43200
           "fa:16:3e:00:00:01" "dhcpv6_stateless" "dhcpv6-stateless" "slaac"
           compose_add subnet_slaac subnet_slaac network_1500))).
  split; reflexivity.
Defined.

Lemma subnet_entry_without_options_witness :
  update_subnet_postcommit 43200 "fa:16:3e:00:00:01" "dhcpv6_stateless"
    "dhcpv6-stateless" "slaac" compose_add
    (with_dhcp subnet_with_route false) subnet_with_route network_1500
  = Some (compose_add (subnet_ident subnet_with_route)
            (no_options (with_dhcp subnet_with_route false))).
Proof.
  apply (proj1 (subnet_entry_without_options 43200 "fa:16:3e:00:00:01"
           "dhcpv6_stateless" "dhcpv6-stateless" "slaac" compose_add
           (with_dhcp subnet_with_route false) subnet_with_route
           network_1500 ltac:(by intros [? _]))); reflexivity.
Defined.

(** ** Address sets of security groups *)

(** The address set a command is about. *)
Definition address_set_of (c : nb_operation) : option string :=
  match c with
  | AddAddrSetCommand name _ | UpdateAddrSetExtIdsCommand name _
  | DelAddrSetCommand name
  | PortCommand (UpdateAddrSetCommand name _ _ _) => Some name
  | _ => None
  end.

Section GroupNotification.
Variable ovn_addrset_name : string -> string -> string.
Variable OVN_SG_NAME_EXT_ID_KEY : string.

Local Abbreviation notify :=
  (_process_sg_notification ovn_addrset_name OVN_SG_NAME_EXT_ID_KEY).

(** X22: a security group has two address sets, one per IP version,
    and the three notifications are about the same two: creation of the
    group creates them, an update rewrites their external ids with the
    group's name, deletion deletes them, in the order [ip4], [ip6]; any
    other event opens a transaction and queues nothing. *)
Theorem sg_notification_address_sets (event : string) (sg : security_group) :
  exists txn,
    notify event (Some sg) = inr txn /\
    (event ∈ [AFTER_CREATE; AFTER_UPDATE; BEFORE_DELETE] ->
     omap address_set_of txn =
       [ovn_addrset_name (sg_id sg) "ip4"; ovn_addrset_name (sg_id sg) "ip6"] /\
     length txn = 2%nat) /\
    ((event ∉ [AFTER_CREATE; AFTER_UPDATE; BEFORE_DELETE]) -> txn = []) /\
    (forall c, c ∈ txn ->
       match c with
       | AddAddrSetCommand _ ids =>
           event = AFTER_CREATE /\
           ids = {[OVN_SG_NAME_EXT_ID_KEY := sg_name sg]}
       | UpdateAddrSetExtIdsCommand _ ids =>
           event = AFTER_UPDATE /\
           ids = {[OVN_SG_NAME_EXT_ID_KEY := sg_name sg]}
       | DelAddrSetCommand _ => event = BEFORE_DELETE
       | _ => False
       end).
Proof.
  unfold _process_sg_notification. eexists. split; [reflexivity|].
  cbn [flat_map]. rewrite app_nil_r.
  destruct (String.eqb event AFTER_CREATE) eqn:Hc.
  { apply String.eqb_eq in Hc as ->. cbn. split; [done|]. split.
    - intros Hn. exfalso. apply Hn. set_solver.
    - intros c [->|[->|[]%elem_of_nil]%elem_of_cons]%elem_of_cons; done. }
  destruct (String.eqb event AFTER_UPDATE) eqn:Hu.
  { apply String.eqb_eq in Hu as ->. cbn. split; [done|]. split.
    - intros Hn. exfalso. apply Hn. set_solver.
    - intros c [->|[->|[]%elem_of_nil]%elem_of_cons]%elem_of_cons; done. }
  destruct (String.eqb event BEFORE_DELETE) eqn:Hd.
  { apply String.eqb_eq in Hd as ->. cbn. split; [done|]. split.
    - intros Hn. exfalso. apply Hn. set_solver.
    - intros c [->|[->|[]%elem_of_nil]%elem_of_cons]%elem_of_cons; done. }
  apply String.eqb_neq in Hc, Hu, Hd. cbn. split; [|split].
  - intros Hin. exfalso. set_solver.
  - done.
  - by intros c []%elem_of_nil.
Qed.

End GroupNotification.

Section GroupAddressSets.
Variable ovn_name : string -> string.
Variable ovn_addrset_name : string -> string -> string.
Variable OVN_SG_NAME_EXT_ID_KEY : string.
Variable get_lsp_security_groups : port -> list string.
Variable acl_port_ips : port -> gmap string (list string).
Variable add_acls : port -> list acl.
Variable OVN_PORT_NAME_EXT_ID_KEY : string.
Variable check_for_row_by_value_and_retry :
  string -> string -> string -> option exn.

Local Abbreviation notify :=
  (_process_sg_notification ovn_addrset_name OVN_SG_NAME_EXT_ID_KEY).
Local Abbreviation create_port :=
  (create_port_in_ovn ovn_name ovn_addrset_name get_lsp_security_groups
     acl_port_ips add_acls OVN_PORT_NAME_EXT_ID_KEY
     check_for_row_by_value_and_retry).

(** The address-set updates of [create_port_in_ovn], for any port. *)
Lemma create_port_address_set_elem p info txn c :
  create_port p info = inr txn ->
  is_address_set_update c = true ->
  (c ∈ txn <->
   fixed_ips p <> [] /\
   exists g v addrs,
     g ∈ get_lsp_security_groups p /\
     acl_port_ips p !! v = Some addrs /\ addrs <> [] /\
     c = UpdateAddrSetCommand (ovn_addrset_name g v)
           (Some (AList addrs)) None (Some false)).
Proof.
  intros Htxn Hc.
  destruct (decide (fixed_ips p = [])) as [Hips|Hips];
    [|destruct (decide (get_lsp_security_groups p = [])) as [Hgroups|Hgroups]].
  3:{ rewrite (create_port_address_sets ovn_name ovn_addrset_name
                 get_lsp_security_groups acl_port_ips add_acls
                 OVN_PORT_NAME_EXT_ID_KEY check_for_row_by_value_and_retry
                 p info txn c Hips Hgroups Htxn Hc).
      naive_solver. }
  all: split;
    [|intros (Hne & g & v & addrs & Hg & _); try done;
      rewrite Hgroups in Hg; by apply elem_of_nil in Hg].
  all: intros Hin; exfalso; revert Htxn; unfold create_port_in_ovn.
  all: destruct (check_for_row_by_value_and_retry _ _ _); [done|].
  all: pose proof (dhcp_column_no_address_set (info_dhcpv4_options info)) as H4.
  all: pose proof (dhcp_column_no_address_set (info_dhcpv6_options info)) as H6.
  all: destruct (dhcp_column (info_dhcpv4_options info)) as [ref4 txn4].
  all: destruct (dhcp_column (info_dhcpv6_options info)) as [ref6 txn6].
  all: cbn [snd] in *.
  all: assert (nonempty (fixed_ips p) && nonempty (get_lsp_security_groups p)
               = false) as ->
      by (first [by rewrite Hips | by rewrite Hgroups, andb_false_r]).
  all: intros [= <-]; rewrite !elem_of_app, elem_of_cons, elem_of_app in Hin.
  all: destruct Hin as [Hin|[Hin|[Hin|[Hin|Hin]]]];
    [ rewrite (H4 c Hin) in Hc; done
    | rewrite (H6 c Hin) in Hc; done
    | subst c; done
    | apply list_elem_of_fmap in Hin as (a & -> & _); done
    | by apply elem_of_nil in Hin ].
Qed.

(** X23: port creation writes to no address set but those of the
    port's own security groups: when the port's addresses are keyed by
    [ip4] and [ip6], every address set that the transaction of
    [create_port_in_ovn] updates is one that the creation of one of the
    port's groups has created. *)
Theorem port_address_sets_are_group_sets p info txn name a r e :
  (forall v, is_Some (acl_port_ips p !! v) -> v = "ip4" \/ v = "ip6") ->
  create_port p info = inr txn ->
  UpdateAddrSetCommand name a r e ∈ txn ->
  exists g,
    g ∈ get_lsp_security_groups p /\
    forall group_name, exists created,
      notify AFTER_CREATE (Some {| sg_id := g; sg_name := group_name |})
      = inr created /\
      AddAddrSetCommand name {[OVN_SG_NAME_EXT_ID_KEY := group_name]}
        ∈ created.
Proof.
  intros Hkeys Htxn Hin.
  pose proof (proj1 (create_port_address_set_elem p info txn
                       (UpdateAddrSetCommand name a r e) Htxn eq_refl) Hin)
    as (_ & g & v & addrs & Hg & Hv & _ & Heq).
  injection Heq as -> _ _ _.
  exists g. split; [done|]. intros group_name.
  unfold _process_sg_notification. eexists. split; [reflexivity|].
  cbn. destruct (Hkeys v) as [-> | ->]; [by rewrite Hv| |]; set_solver.
Qed.

End GroupAddressSets.

Definition sg_web : security_group := {| sg_id := "sg-a"; sg_name := "web" |}.

Lemma sg_notification_address_sets_witness :
  exists txn,
    _process_sg_notification example_addrset_name "neutron:security_group_name"
      BEFORE_DELETE (Some sg_web) = inr txn /\
    omap address_set_of txn = ["as_ip4_sg-a"; "as_ip6_sg-a"].
Proof.
  destruct (sg_notification_address_sets example_addrset_name
              "neutron:security_group_name" BEFORE_DELETE sg_web)
    as (txn & Htxn & Hnames & _).
  exists txn. split; [exact Htxn|].
  apply Hnames. unfold AFTER_CREATE, AFTER_UPDATE, BEFORE_DELETE.
  do 2 apply list_elem_of_further. apply list_elem_of_here.
Defined.

Lemma example_port_ips_versions p v :
  is_Some (example_port_ips p !! v) -> v = "ip4" \/ v = "ip6".
Proof.
  unfold example_port_ips. intros H.
  destruct (decide (v = "ip6")) as [->|Hv6]; [by right|].
  rewrite lookup_insert_ne in H by done.
  destruct (decide (v = "ip4")) as [->|Hv4]; [by left|].
  rewrite lookup_singleton_ne in H by done. by destruct H.
Qed.

(** The transaction of the creation of port-a. *)
Definition create_a_txn : list nb_command :=
  match example_create port_a example_info with
  | inr txn => txn
  | inl _ => []
  end.

Lemma create_a_txn_eq : example_create port_a example_info = inr create_a_txn.
Proof. vm_compute. reflexivity. Defined.

Lemma port_address_sets_are_group_sets_witness :
  exists g,
    g ∈ security_groups port_a /\
    forall group_name, exists created,
      _process_sg_notification example_addrset_name
        "neutron:security_group_name" AFTER_CREATE
        (Some {| sg_id := g; sg_name := group_name |}) = inr created /\
      AddAddrSetCommand "as_ip4_sg-b"
        {["neutron:security_group_name" := group_name]} ∈ created.
Proof.
  apply (port_address_sets_are_group_sets example_ovn_name
           example_addrset_name "neutron:security_group_name" security_groups
           example_port_ips no_acls "neutron:port_name" row_is_there
           port_a example_info create_a_txn "as_ip4_sg-b"
           (Some (AList ["10.0.0.5"])) None (Some false)).
  - apply example_port_ips_versions.
  - exact create_a_txn_eq.
  - vm_compute. do 2 apply list_elem_of_further. apply list_elem_of_here.
Defined.

(** ** Port options *)

Lemma string_app_empty_r (a : string) : a +:+ "" = a.
Proof. induction a as [|x a IH]; [done|]. by rewrite string_app_cons, IH. Qed.

(** The strings of a list, one after the other. *)
Definition joined (l : list string) : string := foldr String.append "" l.

Lemma foldl_append_blank {A} (f : A -> string) (l : list A) (acc : string) :
  foldl (fun addresses x => addresses +:+ " " +:+ f x) acc l
  = acc +:+ joined (map (fun x => " " +:+ f x) l).
Proof.
  revert acc. induction l as [|x l IH]; intros acc; cbn [foldl map joined foldr].
  - by rewrite string_app_empty_r.
  - rewrite IH. by rewrite string_app_assoc.
Qed.

(** The addresses column of an ordinary port: the MAC address followed
    by the fixed IPs. *)
Definition mac_and_ips (p : port) : string :=
  mac_address p +:+ joined (map (fun ip => " " +:+ ip_address ip) (fixed_ips p)).

Section AllowedAddresses.
Variable port_security_enabled : port -> bool.
Variable allowed_address_pairs : port -> list address_pair.
Variable is_lsp_trusted : port -> bool.

Local Abbreviation allowed_addresses :=
  (_get_allowed_addresses_from_port port_security_enabled
     allowed_address_pairs is_lsp_trusted).

Definition same_mac (p : port) (a : address_pair) : bool :=
  String.eqb (pair_mac_address a) (mac_address p).

(** The entry of the port's own MAC address: the fixed IPs, then the IPs
    of the allowed address pairs that have the port's MAC address. *)
Definition own_entry (p : port) : string :=
  mac_and_ips p +:+
  joined (map (fun a => " " +:+ pair_ip_address a)
              (List.filter (same_mac p) (allowed_address_pairs p))).

Definition pair_entry (a : address_pair) : string :=
  pair_mac_address a +:+ " " +:+ pair_ip_address a.

Lemma foldl_allowed_pairs (p : port) (pairs : list address_pair)
    (entries : gset string) (acc : string) :
  foldl (fun '(allowed_addresses, addresses) allowed_address =>
           if String.eqb (pair_mac_address allowed_address) (mac_address p)
           then (allowed_addresses,
                 addresses +:+ " " +:+ pair_ip_address allowed_address)
           else (allowed_addresses ∪
                   {[pair_mac_address allowed_address +:+ " " +:+
                     pair_ip_address allowed_address]},
                 addresses))
        (entries, acc) pairs
  = (entries ∪
       list_to_set (map pair_entry
                      (List.filter (fun a => negb (same_mac p a)) pairs)),
     acc +:+ joined (map (fun a => " " +:+ pair_ip_address a)
                         (List.filter (same_mac p) pairs))).
Proof.
  revert entries acc.
  induction pairs as [|a pairs IH]; intros entries acc;
    cbn [foldl List.filter map joined foldr list_to_set].
  - rewrite string_app_empty_r. f_equal. by rewrite (right_id_L ∅ (∪)).
  - change (String.eqb (pair_mac_address a) (mac_address p))
      with (same_mac p a).
    destruct (same_mac p a);
      cbn [negb map joined foldr list_to_set]; rewrite IH.
    + by rewrite string_app_assoc.
    + f_equal. rewrite ?list_to_set_cons. unfold pair_entry.
      by rewrite (assoc_L (∪)).
Qed.

(** X24: the [port_security] column.  It is empty when port security
    is off for the port or the port is trusted.  Otherwise it has no
    duplicates and consists of one entry for the port's own MAC address,
    which lists the fixed IPs and then the IPs of the allowed address pairs
    with that MAC address, and of one entry [mac ip] for each allowed
    address pair with another MAC address: the port's MAC address heads one
    entry only. *)
Theorem allowed_addresses_entries (p : port) :
  (port_security_enabled p = false \/ is_lsp_trusted p = true ->
   allowed_addresses p = []) /\
  (port_security_enabled p = true -> is_lsp_trusted p = false ->
   NoDup (allowed_addresses p) /\
   forall e,
     e ∈ allowed_addresses p <->
     e = own_entry p \/
     exists a, a ∈ allowed_address_pairs p /\
               pair_mac_address a <> mac_address p /\ e = pair_entry a).
Proof.
  unfold _get_allowed_addresses_from_port. split.
  - intros [-> | ->]; [done|]. by destruct (port_security_enabled p).
  - intros -> ->. cbn [negb].
    rewrite foldl_append_blank, foldl_allowed_pairs.
    fold (mac_and_ips p). fold (own_entry p).
    split; [apply NoDup_elements|].
    intros e. rewrite elem_of_elements, elem_of_union, elem_of_union,
      elem_of_singleton, elem_of_list_to_set, list_elem_of_fmap.
    split.
    + intros [[Hempty|(a & -> & Ha)] | ->];
        [by apply elem_of_empty in Hempty|right|by left].
      apply list_elem_of_In, filter_In in Ha as [Ha Hmac].
      exists a. split; [by apply list_elem_of_In|]. split; [|done].
      unfold same_mac in Hmac. apply negb_true_iff in Hmac.
      by apply String.eqb_neq in Hmac.
    + intros [-> | (a & Ha & Hmac & ->)]; [by right|left; right].
      exists a. split; [done|].
      apply list_elem_of_In, filter_In. split; [by apply list_elem_of_In|].
      unfold same_mac. apply negb_true_iff. by apply String.eqb_neq.
Qed.

End AllowedAddresses.

Definition secured (p : port) : bool := true.
Definition untrusted (p : port) : bool := false.

(** An address pair of the port's own MAC address and one of another. *)
Definition pairs_of_port_a (p : port) : list address_pair :=
  [{| pair_mac_address := "fa:16:3e:00:00:0a"; pair_ip_address := "10.0.0.9" |};
   {| pair_mac_address := "fa:16:3e:00:00:ff"; pair_ip_address := "10.0.0.7" |}].

Lemma allowed_addresses_entries_witness :
  "fa:16:3e:00:00:ff 10.0.0.7"
    ∈ _get_allowed_addresses_from_port secured pairs_of_port_a untrusted port_a
  /\ "fa:16:3e:00:00:0a 10.0.0.5 10.0.0.9"
    ∈ _get_allowed_addresses_from_port secured pairs_of_port_a untrusted port_a.
Proof.
  pose proof (proj2 (proj2 (allowed_addresses_entries secured pairs_of_port_a
                              untrusted port_a) eq_refl eq_refl)) as Hin.
  split; apply Hin.
  - right. eexists. split; [apply list_elem_of_further, list_elem_of_here|].
    split; [discriminate|reflexivity].
  - left. reflexivity.
Defined.

(** ** From the binding profile to the logical switch port *)

Section PortOptionsFacts.
Context {DB : Type}.
Variable plugin_get_port : DB -> pyval -> exn + port.
Variable int_of_str : string -> option Z.
Variable DHCPV6_STATELESS_OPT : string.
Variable ip_address_version : string -> Z.
Variable get_lsp_dhcp_opts : port -> Z -> bool * gmap string string.
Variable get_subnets_dhcp_options : list string -> list dhcp_options_row.
Variable port_security_enabled : port -> bool.
Variable allowed_address_pairs : port -> list address_pair.
Variable is_lsp_trusted : port -> bool.
Variable get_qos_options : port -> gmap string string.
Variable ovn_name : string -> string.
Variable ovn_addrset_name : string -> string -> string.
Variable get_lsp_security_groups : port -> list string.
Variable acl_port_ips : port -> gmap string (list string).
Variable add_acls : port -> list acl.
Variable get_router_port_options : string -> gmap string string.
Variable OVN_PORT_NAME_EXT_ID_KEY : string.
Variable DEVICE_OWNER_ROUTER_INTF : string.
Variable DEVICE_OWNER_ROUTER_GW : string.
Variable check_for_row_by_value_and_retry :
  string -> string -> string -> option exn.
Variable nb_commit : list nb_command -> option exn.

Local Abbreviation validate :=
  (validate_and_get_data_from_binding_profile plugin_get_port int_of_str).
Local Abbreviation dhcp_of :=
  (get_port_dhcp_options DHCPV6_STATELESS_OPT ip_address_version
     get_lsp_dhcp_opts get_subnets_dhcp_options).
Local Abbreviation allowed_addresses :=
  (_get_allowed_addresses_from_port port_security_enabled
     allowed_address_pairs is_lsp_trusted).
Local Abbreviation port_options :=
  (get_ovn_port_options plugin_get_port int_of_str DHCPV6_STATELESS_OPT
     ip_address_version get_lsp_dhcp_opts get_subnets_dhcp_options
     port_security_enabled allowed_address_pairs is_lsp_trusted
     get_qos_options).
Local Abbreviation create_port :=
  (create_port_in_ovn ovn_name ovn_addrset_name get_lsp_security_groups
     acl_port_ips add_acls OVN_PORT_NAME_EXT_ID_KEY
     check_for_row_by_value_and_retry).
Local Abbreviation update_port_in_ovn :=
  (_update_port_in_ovn ovn_addrset_name get_lsp_security_groups acl_port_ips
     add_acls get_router_port_options OVN_PORT_NAME_EXT_ID_KEY
     DEVICE_OWNER_ROUTER_INTF DEVICE_OWNER_ROUTER_GW).
Local Abbreviation create_postcommit :=
  (create_port_postcommit plugin_get_port int_of_str DHCPV6_STATELESS_OPT
     ip_address_version get_lsp_dhcp_opts get_subnets_dhcp_options
     port_security_enabled allowed_address_pairs is_lsp_trusted
     get_qos_options ovn_name ovn_addrset_name get_lsp_security_groups
     acl_port_ips add_acls OVN_PORT_NAME_EXT_ID_KEY
     check_for_row_by_value_and_retry nb_commit).
Local Abbreviation update_postcommit :=
  (update_port_postcommit plugin_get_port int_of_str DHCPV6_STATELESS_OPT
     ip_address_version get_lsp_dhcp_opts get_subnets_dhcp_options
     port_security_enabled allowed_address_pairs is_lsp_trusted
     get_qos_options ovn_addrset_name get_lsp_security_groups
     acl_port_ips add_acls get_router_port_options OVN_PORT_NAME_EXT_ID_KEY
     DEVICE_OWNER_ROUTER_INTF DEVICE_OWNER_ROUTER_GW nb_commit).

(** The options of a port whose validated profile is [profile]. *)
Definition options_of_profile (p : port) (qos : option (gmap string string))
    (profile : gmap string pyval) (d4 d6 : option port_dhcp_options)
    : OvnPortInfo :=
  if py_truthy (profile !! "vtep-physical-switch") then
    {| info_type := "vtep";
       info_options :=
         <["vtep-logical-switch" :=
             str_value (profile !! "vtep-logical-switch")]>
           {["vtep-physical-switch" :=
               str_value (profile !! "vtep-physical-switch")]};
       info_addresses := ["unknown"];
       info_port_security := [];
       info_parent_name := None; info_tag := None;
       info_dhcpv4_options := d4; info_dhcpv6_options := d6 |}
  else
    {| info_type := "";
       info_options := default (get_qos_options p) qos;
       info_addresses := [mac_and_ips p];
       info_port_security := allowed_addresses p;
       info_parent_name := profile !! "parent_name";
       info_tag := profile !! "tag";
       info_dhcpv4_options := d4; info_dhcpv6_options := d6 |}.

Lemma port_options_run p qos (w : world DB) :
  port_options p qos w =
  (w, match (validate p w).2 with
      | inl e => inl e
      | inr profile =>
          match dhcp_of p IP_VERSION_4 with
          | inl e => inl e
          | inr d4 =>
              match dhcp_of p IP_VERSION_6 with
              | inl e => inl e
              | inr d6 => inr (options_of_profile p qos profile d4 d6)
              end
          end
      end).
Proof.
  unfold get_ovn_port_options, options_of_profile. unfold bind at 1.
  pose proof (validate_reads_only plugin_get_port int_of_str p w) as Hw.
  destruct (validate p w) as [w' [e|profile]]; cbn [fst snd] in *; subst w';
    [done|].
  rewrite foldl_append_blank. fold (mac_and_ips p).
  destruct (py_truthy (profile !! "vtep-physical-switch"));
    unfold bind, lift, ret;
    destruct (dhcp_of p IP_VERSION_4) as [e|d4]; try done;
    destruct (dhcp_of p IP_VERSION_6) as [e|d6]; try done;
    by destruct qos.
Qed.

(** X25: the options of a gateway port.  For a port whose binding
    profile is the pair of switch names, with a physical switch name that
    is not empty, [get_ovn_port_options] returns the type [vtep], the two
    names as options, the address [unknown] and neither port security nor
    parent nor tag, whatever the QoS options and the addresses of the port
    are.  An empty physical switch name passes validation but counts as
    absent: the port then gets the options of an ordinary port. *)
Theorem gateway_port_options p qos a b d4 d6 (w : world DB) :
  binding_profile p =
    Some (<["vtep-logical-switch" := VStr b]>
            {["vtep-physical-switch" := VStr a]}) ->
  dhcp_of p IP_VERSION_4 = inr d4 -> dhcp_of p IP_VERSION_6 = inr d6 ->
  port_options p qos w =
  (w, inr (if String.eqb a "" then
             {| info_type := "";
                info_options := default (get_qos_options p) qos;
                info_addresses := [mac_and_ips p];
                info_port_security := allowed_addresses p;
                info_parent_name := None; info_tag := None;
                info_dhcpv4_options := d4; info_dhcpv6_options := d6 |}
           else
             {| info_type := "vtep";
                info_options :=
                  <["vtep-logical-switch" := b]>
                    {["vtep-physical-switch" := a]};
                info_addresses := ["unknown"];
                info_port_security := [];
                info_parent_name := None; info_tag := None;
                info_dhcpv4_options := d4; info_dhcpv6_options := d6 |})).
Proof.
  intros Hprofile H4 H6. rewrite port_options_run, H4, H6.
  rewrite <- insert_empty in Hprofile.
  rewrite (validate_vtep plugin_get_port int_of_str p _ (VStr a) (VStr b) w
             Hprofile) by done.
  cbn [isinstance negb]. unfold options_of_profile.
  rewrite lookup_insert_ne, lookup_insert_eq by done.
  cbn [py_truthy].
  destruct (String.eqb a ""); cbn [negb]; [|by rewrite lookup_insert_eq].
  by rewrite !lookup_insert_ne, !lookup_empty by done.
Qed.

(** What the end of the [with] block leaves: the transaction handed to
    the client, and the error of the commit, if any. *)
Definition committed (w : world DB) (txn : list nb_command)
    : world DB * (exn + unit) :=
  (World (neutron w) (events w ++ [EvNbTransaction txn]),
   match nb_commit txn with
   | Some e => inl e
   | None => inr tt
   end).

Lemma transaction_run txn (w : world DB) :
  transaction nb_commit txn w = committed w txn.
Proof.
  unfold transaction, committed, bind, emit, raise, ret.
  by destruct (nb_commit txn).
Qed.

Lemma create_postcommit_run p (w : world DB) :
  create_postcommit p w =
  match (port_options p None w).2 with
  | inl e => (w, inl e)
  | inr info =>
      match create_port p info with
      | inl e => (w, inl e)
      | inr txn => committed w txn
      end
  end.
Proof.
  unfold create_port_postcommit. unfold bind at 1.
  rewrite port_options_run. cbn [snd].
  destruct (match (validate p w).2 with inl e => _ | inr profile => _ end)
    as [e|info]; [done|].
  unfold bind at 1. unfold lift.
  destruct (create_port p info); [done|]. apply transaction_run.
Qed.

Lemma update_postcommit_run p original (w : world DB) :
  update_postcommit p original w =
  match (port_options p None w).2 with
  | inl e => (w, inl e)
  | inr info =>
      match update_port_in_ovn original p info with
      | inl e => (w, inl e)
      | inr txn => committed w txn
      end
  end.
Proof.
  unfold update_port_postcommit, update_port. unfold bind at 1.
  rewrite port_options_run. cbn [snd].
  destruct (match (validate p w).2 with inl e => _ | inr profile => _ end)
    as [e|info]; [done|].
  unfold bind at 1. unfold lift.
  destruct (update_port_in_ovn original p info); [done|].
  apply transaction_run.
Qed.

Lemma port_options_reads_only p qos (w : world DB) :
  port_options p qos w = (w, (port_options p qos w).2).
Proof. by rewrite port_options_run. Qed.

(** X26: what the port postcommits hand to the northbound client.  An
    invalid binding profile makes them raise what the validation raised,
    with the world as it was.  When they return, they have left the
    neutron database alone and handed one transaction to the client, the
    one of [create_port_in_ovn] and [_update_port_in_ovn] for the options
    of [get_ovn_port_options], and its commit raised nothing.  When they
    raise, either nothing was handed to the client and the world is as it
    was, or that one transaction was and the exception is the one its
    commit raised. *)
Theorem port_postcommit_all_or_nothing p original (w : world DB) :
  (forall e, (validate p w).2 = inl e ->
     create_postcommit p w = (w, inl e) /\
     update_postcommit p original w = (w, inl e)) /\
  (forall w', create_postcommit p w = (w', inr tt) ->
     exists info txn,
       port_options p None w = (w, inr info) /\
       create_port p info = inr txn /\ nb_commit txn = None /\
       w' = World (neutron w) (events w ++ [EvNbTransaction txn])) /\
  (forall w', update_postcommit p original w = (w', inr tt) ->
     exists info txn,
       port_options p None w = (w, inr info) /\
       update_port_in_ovn original p info = inr txn /\
       nb_commit txn = None /\
       w' = World (neutron w) (events w ++ [EvNbTransaction txn])) /\
  (forall e w', create_postcommit p w = (w', inl e) ->
     w' = w \/
     exists info txn,
       port_options p None w = (w, inr info) /\
       create_port p info = inr txn /\ nb_commit txn = Some e /\
       w' = World (neutron w) (events w ++ [EvNbTransaction txn])) /\
  (forall e w', update_postcommit p original w = (w', inl e) ->
     w' = w \/
     exists info txn,
       port_options p None w = (w, inr info) /\
       update_port_in_ovn original p info = inr txn /\
       nb_commit txn = Some e /\
       w' = World (neutron w) (events w ++ [EvNbTransaction txn])).
Proof.
  pose proof (port_options_reads_only p None w) as Hro.
  pose proof (port_options_run p None w) as Hrun.
  rewrite create_postcommit_run, update_postcommit_run. unfold committed.
  destruct ((port_options p None w).2) as [e'|info] eqn:Hopt.
  - rewrite Hro in Hrun. injection Hrun as Hrun.
    split; [|split; [|split; [|split]]]; try (intros; congruence).
    + intros e He. rewrite He in Hrun. by injection Hrun as ->.
    + intros e w' [= <- _]. by left.
    + intros e w' [= <- _]. by left.
  - rewrite Hro in Hrun. injection Hrun as Hrun.
    split; [|split; [|split; [|split]]].
    + intros e He. by rewrite He in Hrun.
    + intros w'. destruct (create_port p info) as [e|txn] eqn:Htxn; [done|].
      destruct (nb_commit txn) eqn:Hcommit; [done|].
      intros [= <-]. by exists info, txn.
    + intros w'.
      destruct (update_port_in_ovn original p info) as [e|txn] eqn:Htxn;
        [done|].
      destruct (nb_commit txn) eqn:Hcommit; [done|].
      intros [= <-]. by exists info, txn.
    + intros e w'. destruct (create_port p info) as [e0|txn] eqn:Htxn.
      { intros [= <- _]. by left. }
      destruct (nb_commit txn) as [e0|] eqn:Hcommit; [|done].
      intros [= <- <-]. right. by exists info, txn.
    + intros e w'.
      destruct (update_port_in_ovn original p info) as [e0|txn] eqn:Htxn.
      { intros [= <- _]. by left. }
      destruct (nb_commit txn) as [e0|] eqn:Hcommit; [|done].
      intros [= <- <-]. right. by exists info, txn.
Qed.

(** X27: a sub-interface from the profile to the northbound database.
    When [create_port_postcommit] returns for a port whose binding profile
    is a parent name and a tag, the parent port exists in neutron, the tag
    is an integer in [0, 4095], and the transaction creates the logical
    switch port, on the switch of the port's network, with this parent and
    this tag, the empty type, the QoS options as options and the port's MAC
    address and fixed IPs as its one address. *)
Theorem sub_interface_port_command p parent tag (w w' : world DB) :
  binding_profile p =
    Some (<["tag" := tag]> {["parent_name" := VStr parent]}) ->
  create_postcommit p w = (w', inr tt) ->
  (exists q, plugin_get_port (neutron w) (VStr parent) = inr q) /\
  (exists z, py_int int_of_str tag = inr z /\ 0 <= z <= 4095) /\
  exists txn ids d4 d6,
    w' = World (neutron w) (events w ++ [EvNbTransaction txn]) /\
    AddLSwitchPortCommand (port_id p) (ovn_name (network_id p))
      [mac_and_ips p] ids (Some (VStr parent)) (Some tag) (admin_state_up p)
      (get_qos_options p) "" (allowed_addresses p) d4 d6 ∈ txn.
Proof.
  intros Hprofile Hrun.
  rewrite create_postcommit_run, port_options_run in Hrun. cbn [snd] in Hrun.
  destruct ((validate p w).2) as [e|profile] eqn:Hv; [done|].
  destruct (dhcp_of p IP_VERSION_4) as [e|d4]; [done|].
  destruct (dhcp_of p IP_VERSION_6) as [e|d6]; [done|].
  destruct (create_port p (options_of_profile p None profile d4 d6))
    as [e|txn] eqn:Htxn; [done|].
  unfold committed in Hrun. injection Hrun as <- _.
  rewrite <- insert_empty in Hprofile.
  rewrite (validate_sub_interface plugin_get_port int_of_str p _
             (VStr parent) tag w Hprofile) in Hv;
    [|by rewrite lookup_insert_ne, lookup_insert_eq
     |by rewrite lookup_insert_eq|by apply size_two_params].
  change (isinstance (VStr parent) string_types) with true in Hv.
  destruct (isinstance tag integer_types); cbn [negb] in Hv; [|done].
  destruct (plugin_get_port (neutron w) (VStr parent)) as [e|q]; [done|].
  destruct (py_int int_of_str tag) as [e|z]; [done|].
  destruct (bool_decide (z < 0 \/ z > 4095)) eqn:Hrange; [done|].
  apply bool_decide_eq_false_1 in Hrange. injection Hv as <-.
  split; [by exists q|]. split; [exists z; split; [done|lia]|].
  revert Htxn. unfold create_port_in_ovn, options_of_profile.
  rewrite lookup_insert_ne, lookup_insert_ne, lookup_empty by done.
  cbn [py_truthy info_type info_options info_addresses info_port_security
       info_parent_name info_tag info_dhcpv4_options info_dhcpv6_options
       default].
  rewrite lookup_insert_ne, lookup_insert_eq, lookup_insert_eq by done.
  destruct (check_for_row_by_value_and_retry _ _ _); [done|].
  destruct (dhcp_column d4) as [ref4 txn4].
  destruct (dhcp_column d6) as [ref6 txn6].
  intros [= <-]. eexists _, _, ref4, ref6. split; [done|].
  rewrite !elem_of_app, elem_of_cons. right. right. by left.
Qed.

End PortOptionsFacts.

(** ** Deleting a port *)

Section DeletePort.
Variable ovn_name : string -> string.
Variable ovn_addrset_name : string -> string -> string.
Variable get_lsp_security_groups : port -> list string.
Variable get_lsp_security_groups_of_any : port -> list string.
Variable acl_port_ips : port -> gmap string (list string).
Variable add_acls : port -> list acl.
Variable OVN_PORT_NAME_EXT_ID_KEY : string.
Variable check_for_row_by_value_and_retry :
  string -> string -> string -> option exn.

Local Abbreviation create_port :=
  (create_port_in_ovn ovn_name ovn_addrset_name get_lsp_security_groups
     acl_port_ips add_acls OVN_PORT_NAME_EXT_ID_KEY
     check_for_row_by_value_and_retry).
Local Abbreviation delete_port :=
  (delete_port_postcommit ovn_name ovn_addrset_name
     get_lsp_security_groups_of_any acl_port_ips).

(** X28: deletion takes back what creation gave.  The transaction of
    [delete_port_postcommit] deletes the logical switch port and its ACLs
    and then only removes addresses from address sets; for a port whose
    security groups count on deletion as they did on creation, it removes
    from an address set exactly the addresses that the transaction of
    [create_port_in_ovn] added to it. *)
Theorem delete_port_mirrors_create p info txn :
  get_lsp_security_groups_of_any p = get_lsp_security_groups p ->
  create_port p info = inr txn ->
  exists removals,
    delete_port p =
      DelLSwitchPortCommand (port_id p) (ovn_name (network_id p))
      :: DelACLCommand (ovn_name (network_id p)) (port_id p)
      :: map PortCommand removals /\
    (forall c, c ∈ removals ->
       exists name addrs,
         c = UpdateAddrSetCommand name None (Some (AList addrs)) None /\
         UpdateAddrSetCommand name (Some (AList addrs)) None (Some false)
           ∈ txn) /\
    (forall name added removed if_exists,
       UpdateAddrSetCommand name added removed if_exists ∈ txn ->
       exists addrs,
         added = Some (AList addrs) /\
         UpdateAddrSetCommand name None (Some (AList addrs)) None
           ∈ removals).
Proof.
  intros Hgroups Htxn. unfold delete_port_postcommit. rewrite Hgroups.
  eexists. split.
  { cbn [app]. do 2 f_equal.
    instantiate (1 := if nonempty (fixed_ips p) then _ else []).
    by destruct (nonempty (fixed_ips p)). }
  split.
  - intros c Hc. destruct (fixed_ips p) as [|ip ips] eqn:Hips;
      [by apply elem_of_nil in Hc|]. cbn [nonempty] in Hc.
    apply elem_of_address_set_updates
      in Hc as (g & v & addrs & Hg & Hv & Hne & ->).
    exists (ovn_addrset_name g v), addrs. split; [done|].
    apply (create_port_address_set_elem ovn_name ovn_addrset_name
             get_lsp_security_groups acl_port_ips add_acls
             OVN_PORT_NAME_EXT_ID_KEY check_for_row_by_value_and_retry
             p info txn
             (UpdateAddrSetCommand (ovn_addrset_name g v)
                (Some (AList addrs)) None (Some false)) Htxn eq_refl).
    split; [by rewrite Hips|]. by exists g, v, addrs.
  - intros name added removed if_exists Hin.
    apply (create_port_address_set_elem ovn_name ovn_addrset_name
             get_lsp_security_groups acl_port_ips add_acls
             OVN_PORT_NAME_EXT_ID_KEY check_for_row_by_value_and_retry
             p info txn
             (UpdateAddrSetCommand name added removed if_exists) Htxn eq_refl)
      in Hin as (Hips & g & v & addrs & Hg & Hv & Hne & Heq).
    injection Heq as -> -> -> ->. exists addrs. split; [done|].
    destruct (fixed_ips p); [done|]. cbn [nonempty].
    apply elem_of_address_set_updates. by exists g, v, addrs.
Qed.

End DeletePort.

Lemma delete_port_mirrors_create_witness :
  exists removals,
    delete_port_postcommit example_ovn_name example_addrset_name
      security_groups example_port_ips port_a =
      DelLSwitchPortCommand "port-a" "neutron-net-1"
      :: DelACLCommand "neutron-net-1" "port-a" :: map PortCommand removals /\
    UpdateAddrSetCommand "as_ip4_sg-a" None (Some (AList ["10.0.0.5"])) None
      ∈ removals.
Proof.
  destruct (delete_port_mirrors_create example_ovn_name example_addrset_name
              security_groups security_groups example_port_ips no_acls
              "neutron:port_name" row_is_there port_a example_info
              create_a_txn eq_refl create_a_txn_eq)
    as (removals & Hdelete & _ & Hall).
  exists removals. split; [exact Hdelete|].
  destruct (Hall "as_ip4_sg-a" (Some (AList ["10.0.0.5"])) None (Some false))
    as (addrs & Heq & Hin).
  - vm_compute. apply list_elem_of_further, list_elem_of_here.
  - injection Heq as <-. exact Hin.
Defined.

Definition no_qos (p : port) : gmap string string := ∅.

(** A client whose commits raise nothing. *)
Definition commit_passes (txn : list nb_command) : option exn := None.

Definition example_port_options :=
  get_ovn_port_options list_get_port no_int "dhcpv6_stateless" (fun _ => 4)
    extra_opts_of_port_c rows_of_subnet_1 secured pairs_of_port_a untrusted
    no_qos.

Definition example_create_postcommit :=
  create_port_postcommit list_get_port no_int "dhcpv6_stateless" (fun _ => 4)
    extra_opts_of_port_c rows_of_subnet_1 secured pairs_of_port_a untrusted
    no_qos example_ovn_name example_addrset_name security_groups
    example_port_ips no_acls "neutron:port_name" row_is_there commit_passes.

Definition example_update_postcommit :=
  update_port_postcommit list_get_port no_int "dhcpv6_stateless" (fun _ => 4)
    extra_opts_of_port_c rows_of_subnet_1 secured pairs_of_port_a untrusted
    no_qos example_addrset_name security_groups example_port_ips no_acls
    no_router_options "neutron:port_name" "network:router_interface"
    "network:router_gateway" commit_passes.

Lemma gateway_port_options_witness :
  example_port_options (with_profile port_a gateway_profile) None
    world_with_port_a
  = (world_with_port_a,
     inr {| info_type := "vtep";
            info_options :=
              <["vtep-logical-switch" := "lsw1"]>
                {["vtep-physical-switch" := "psw1"]};
            info_addresses := ["unknown"];
            info_port_security := [];
            info_parent_name := None; info_tag := None;
            info_dhcpv4_options := Some (SubnetRow subnet_1_row);
            info_dhcpv6_options := None |}).
Proof.
  exact (gateway_port_options list_get_port no_int "dhcpv6_stateless"
           (fun _ => 4) extra_opts_of_port_c rows_of_subnet_1 secured
           pairs_of_port_a untrusted no_qos
           (with_profile port_a gateway_profile) None "psw1" "lsw1"
           (Some (SubnetRow subnet_1_row)) None world_with_port_a
           eq_refl eq_refl eq_refl).
Defined.

Lemma port_postcommit_all_or_nothing_witness :
  example_create_postcommit (with_profile port_a mixed_profile)
    world_with_port_a
  = (world_with_port_a,
     inl (InvalidInput (MsgAllRequired ["parent_name"; "tag"]))) /\
  example_update_postcommit (with_profile port_a mixed_profile) port_a
    world_with_port_a
  = (world_with_port_a,
     inl (InvalidInput (MsgAllRequired ["parent_name"; "tag"]))).
Proof.
  apply (proj1 (port_postcommit_all_or_nothing list_get_port no_int
                  "dhcpv6_stateless" (fun _ => 4) extra_opts_of_port_c
                  rows_of_subnet_1 secured pairs_of_port_a untrusted no_qos
                  example_ovn_name example_addrset_name security_groups
                  example_port_ips no_acls no_router_options
                  "neutron:port_name" "network:router_interface"
                  "network:router_gateway" row_is_there commit_passes
                  (with_profile port_a mixed_profile) port_a
                  world_with_port_a)).
  vm_compute. reflexivity.
Defined.

(** port-b as a sub-interface of port-a, with tag 7. *)
Definition sub_port : port := with_profile port_b (sub_interface_profile 7).

Lemma sub_interface_port_command_witness :
  exists txn ids d4 d6,
    (example_create_postcommit sub_port world_with_port_a).1
    = World [port_a] [EvNbTransaction txn] /\
    AddLSwitchPortCommand "port-b" "neutron-net-1" [mac_and_ips sub_port] ids
      (Some (VStr "port-a")) (Some (VInt 7)) true ∅ ""
      (_get_allowed_addresses_from_port secured pairs_of_port_a untrusted
         sub_port) d4 d6 ∈ txn.
Proof.
  exact (proj2 (proj2
    (sub_interface_port_command list_get_port no_int "dhcpv6_stateless"
       (fun _ => 4) extra_opts_of_port_c rows_of_subnet_1 secured
       pairs_of_port_a untrusted no_qos example_ovn_name example_addrset_name
       security_groups example_port_ips no_acls "neutron:port_name"
       row_is_there commit_passes sub_port "port-a" (VInt 7) world_with_port_a
       (example_create_postcommit sub_port world_with_port_a).1
       eq_refl ltac:(vm_compute; reflexivity)))).
Defined.

(** ** Port creation and the address sets of its groups (C9) *)

Section CreatePortCommit.
Context {DB Store : Type}.
Variable plugin_get_port : DB -> pyval -> exn + port.
Variable int_of_str : string -> option Z.
Variable DHCPV6_STATELESS_OPT : string.
Variable ip_address_version : string -> Z.
Variable get_lsp_dhcp_opts : port -> Z -> bool * gmap string string.
Variable get_subnets_dhcp_options : list string -> list dhcp_options_row.
Variable port_security_enabled : port -> bool.
Variable allowed_address_pairs : port -> list address_pair.
Variable is_lsp_trusted : port -> bool.
Variable get_qos_options : port -> gmap string string.
Variable ovn_name : string -> string.
Variable ovn_addrset_name : string -> string -> string.
Variable get_lsp_security_groups : port -> list string.
Variable acl_port_ips : port -> gmap string (list string).
Variable add_acls : port -> list acl.
Variable OVN_PORT_NAME_EXT_ID_KEY : string.
Variable check_for_row_by_value_and_retry :
  string -> string -> string -> option exn.
(** The northbound client: what one command does to a store, and whether
    a store has an address set of a name. *)
Variable run : nb_command -> Store -> exn + Store.
Variable has_address_set : Store -> string -> bool.

Local Abbreviation port_options :=
  (get_ovn_port_options plugin_get_port int_of_str DHCPV6_STATELESS_OPT
     ip_address_version get_lsp_dhcp_opts get_subnets_dhcp_options
     port_security_enabled allowed_address_pairs is_lsp_trusted
     get_qos_options).
Local Abbreviation create_port :=
  (create_port_in_ovn ovn_name ovn_addrset_name get_lsp_security_groups
     acl_port_ips add_acls OVN_PORT_NAME_EXT_ID_KEY
     check_for_row_by_value_and_retry).
(** [create_port_postcommit] on a client whose database is [store]. *)
Local Abbreviation create_postcommit_on store :=
  (create_port_postcommit plugin_get_port int_of_str DHCPV6_STATELESS_OPT
     ip_address_version get_lsp_dhcp_opts get_subnets_dhcp_options
     port_security_enabled allowed_address_pairs is_lsp_trusted
     get_qos_options ovn_name ovn_addrset_name get_lsp_security_groups
     acl_port_ips add_acls OVN_PORT_NAME_EXT_ID_KEY
     check_for_row_by_value_and_retry (commit_error run store)).


End CreatePortCommit.

(** A client for the examples: a store is the names of the address sets
    it has, and an update of an address set that is missing fails unless
    [if_exists] holds. *)
Definition example_run (c : nb_command) (store : list string)
    : exn + list string :=
  match c with
  | UpdateAddrSetCommand name _ _ if_exists =>
      if str_in name store || default true if_exists then inr store
      else inl RuntimeError
  | _ => inr store
  end.

Lemma example_run_needs_set name addrs_add addrs_remove store :
  str_in name store = false ->
  exists e,
    example_run (UpdateAddrSetCommand name addrs_add addrs_remove (Some false))
      store = inl e.
Proof. intros Habsent. cbn. rewrite Habsent. by eexists. Qed.

Lemma example_run_creates_no_set c store store' name :
  example_run c store = inr store' -> str_in name store = false ->
  str_in name store' = false.
Proof.
  destruct c; cbn; try (by intros [= <-]).
  destruct (_ || _); [by intros [= <-]|done].
Qed.

(** The options and the transaction of the creation of port-a in the
    examples. *)
Definition port_a_info : OvnPortInfo :=
  match (example_port_options port_a None world_with_port_a).2 with
  | inr info => info
  | inl _ => example_info
  end.

Lemma port_a_info_eq :
  example_port_options port_a None world_with_port_a
  = (world_with_port_a, inr port_a_info).
Proof. vm_compute. reflexivity. Defined.

Definition port_a_txn : list nb_command :=
  match example_create port_a port_a_info with
  | inr txn => txn
  | inl _ => []
  end.

Lemma port_a_txn_eq : example_create port_a port_a_info = inr port_a_txn.
Proof. vm_compute. reflexivity. Defined.

